(** * cpstaxunits: construction of tax units from CPS person records

    A shallow embedding of the class [Returns] of [cpsrets.py] and the
    properties its specification states about it, followed by further
    properties read off the code.

    Conventions of the embedding.
    - A person row and a tax unit are Python dictionaries with a fixed set of
      keys; they are records here.  The keys of a unit whose name ends in a
      number ([dep1], [depage1], [SSI_PROB1], ...) are finite maps from the
      number to the value, so that a missing key stays visible.
    - Currency amounts, ages and counters are integers ([Z]).  An age that is
      [numpy.nan] (the spouse's age of a unit without spouse) is [None].
    - Python exceptions are the constructors of [exn]; code that may raise
      returns a [result].
    - The records mutated in place (the flags of the persons of a household,
      the units of [house_units]) live in lists that are passed along and
      addressed by position, which is the identity of the Python object.
    - Amounts being integers, the two floating point tests of the code are
      exact here: [x / float(t) < 0.5] is [2 * x < t] and
      [float(x) / t > 0.99] is [100 * x > 99 * t], for a positive [t].
    - The benefit amounts are floating point numbers in the code
      ([unit['ssi'] = 0.]).  What is proved of a benefit total is the chain
      of additions the code makes for it, in the order of the code; no
      theorem equates two sums of benefits that are grouped differently.
    - Of the keys of a unit, those that are copied from the head's row and
      from there to the output, without being read by a test or a sum of
      [Returns] (weights, identifiers of the state and
      region, the [z...] evaluation fields, the [x...] schedule flags, the
      head's and spouse's own shares of each income) are left out.  The
      data frame handling around the loop over the households, and the
      column that holds alimony in the 2015 file, are outside the model. *)

From Stdlib Require Import ZArith Lia.
From stdpp Require Import base option list gmap.

Open Scope Z_scope.

(** ** Exceptions *)

Inductive exn : Type :=
  | UnboundLocalError
  | IndexError
  | KeyError
  | ValueError.

Inductive result (A : Type) : Type :=
  | Ok (a : A)
  | Raise (e : exn).
Arguments Ok {A} a.
Arguments Raise {A} e.

#[global] Instance result_ret : MRet result := fun _ a => Ok a.
#[global] Instance result_bind : MBind result := fun _ _ k m =>
  match m with
  | Ok a => k a
  | Raise e => Raise e
  end.

(** [d[k]] on a dictionary with numbered keys. *)
Definition getkey {V : Type} (m : gmap Z V) (k : Z) : result V :=
  match m !! k with
  | Some v => Ok v
  | None => Raise KeyError
  end.

(** [l[i]] on a Python list: a negative index counts from the end. *)
Definition py_index {A : Type} (l : list A) (i : Z) : result A :=
  let n := Z.of_nat (length l) in
  let j := if i <? 0 then n + i else i in
  if (0 <=? j) && (j <? n) then
    match l !! Z.to_nat j with
    | Some a => Ok a
    | None => Raise IndexError
    end
  else Raise IndexError.

(** [l.index(x)]: the first position holding a value equal to [x]. *)
Definition py_list_index {A : Type} `{EqDecision A} (x : A) (l : list A)
  : result nat :=
  match list_find (fun y => y = x) l with
  | Some (i, _) => Ok i
  | None => Raise ValueError
  end.

(** [for x in l: s = body(x, s)], leaving the loop at the first exception.
    [for i in range(a, b)] is the loop over [seqZ a (b - a)]. *)
Fixpoint for_in {A S : Type} (l : list A) (body : A -> S -> result S) (s : S)
  : result S :=
  match l with
  | [] => Ok s
  | x :: l' => s' ← body x s; for_in l' body s'
  end.

(** ** The data model *)

(** The ten imputed benefit programmes, as a row of ten amounts
    ([ssi], [vb], ... of a unit; [SSI_VAL<n>], ... of a benefit slot). *)
Record bens : Type := mkBens {
  ssi : Z; vb : Z; snap : Z; mcare : Z; mcaid : Z;
  ss : Z; tanf : Z; ui : Z; housing : Z; wic : Z
}.

Definition bens0 : bens := mkBens 0 0 0 0 0 0 0 0 0 0.

Definition bens_add (a b : bens) : bens :=
  mkBens (ssi a + ssi b) (vb a + vb b) (snap a + snap b) (mcare a + mcare b)
         (mcaid a + mcaid b) (ss a + ss b) (tanf a + tanf b) (ui a + ui b)
         (housing a + housing b) (wic a + wic b).

(** A row of the CPS person file (the columns [Returns] reads), with the
    flags [__init__] adds. *)
Record person : Type := mkPerson {
  a_lineno : Z;  a_spouse : Z;  a_exprrp : Z;  a_maritl : Z;
  a_age : Z;     a_enrlw : Z;   ffpos : Z;     ph_seq : Z;
  ftype : Z;     h_type : Z;    h_numper : Z;
  wsal_val : Z;  int_val : Z;   div_val : Z;   alm_val : Z;
  semp_val : Z;  rtm_val : Z;   rnt_val : Z;   frse_val : Z;
  uc_val : Z;    ss_val : Z;    ss_val_y : Z;
  ssi_impute : Z; vb_impute : Z; snap_impute : Z; MedicareX : Z;
  MedicaidX : Z;  tanf_impute : Z; ui_impute : Z; housing_impute : Z;
  wic_impute : Z;
  (* the ten columns <programme>_probs; copied, never computed with *)
  probs : bens;
  h_flag : bool; s_flag : bool; d_flag : bool; flag : bool
}.

(** The age and credit counters of a unit. *)
Record counters : Type := mkCounters {
  nu05 : Z; nu13 : Z; nu18_dep : Z; nu18 : Z; n1820 : Z; n21 : Z;
  elderly_dependent : Z; f2441 : Z; EIC : Z; n24 : Z
}.

Definition counters0 : counters := mkCounters 0 0 0 0 0 0 0 0 0 0.

Definition counters_add (a b : counters) : counters :=
  mkCounters (nu05 a + nu05 b) (nu13 a + nu13 b) (nu18_dep a + nu18_dep b)
             (nu18 a + nu18 b) (n1820 a + n1820 b) (n21 a + n21 b)
             (elderly_dependent a + elderly_dependent b)
             (f2441 a + f2441 b) (EIC a + EIC b) (n24 a + n24 b).

(** The ten income streams of a unit (head and spouse combined). *)
Record incomes : Type := mkIncomes {
  was : Z; intst : Z; dbe : Z; alimony : Z; bil : Z;
  pensions : Z; rents : Z; fil : Z; ucomp : Z; socsec : Z
}.

(** A tax unit.  [cnt], [inc] and [tot] group keys of the flat Python
    dictionary; [dep], [depage] and [slots] are the numbered keys
    [dep<n>], [depage<n>] and [<PROGRAMME>_PROB<n>] / [<PROGRAMME>_VAL<n>]. *)
Record tax_unit : Type := mkUnit {
  inc : incomes;
  u_ifdept : bool;
  xfid : Z;  xpid : Z;  u_a_lineno : Z;
  ms_type : Z;  sp_ptr : Z;  relcode : Z;  u_ftype : Z;
  ageh : Z;  agede : Z;  ages : option Z;
  js : Z;
  cnt : counters;
  depne : Z;
  dep : gmap Z Z;
  depage : gmap Z (option Z);
  tot : bens;
  slots : gmap Z (bens * bens);
  ben_number : Z;
  t_flag : bool
}.

#[global] Instance bens_eq_dec : EqDecision bens.
Proof. solve_decision. Defined.
#[global] Instance counters_eq_dec : EqDecision counters.
Proof. solve_decision. Defined.
#[global] Instance incomes_eq_dec : EqDecision incomes.
Proof. solve_decision. Defined.
#[global] Instance person_eq_dec : EqDecision person.
Proof. solve_decision. Defined.
#[global] Instance tax_unit_eq_dec : EqDecision tax_unit.
Proof. solve_decision. Defined.

(** Field updates ([d[key] = v]). *)
Definition set_s_flag (b : bool) (p : person) : person :=
  mkPerson (a_lineno p) (a_spouse p) (a_exprrp p) (a_maritl p) (a_age p)
    (a_enrlw p) (ffpos p) (ph_seq p) (ftype p) (h_type p) (h_numper p)
    (wsal_val p) (int_val p) (div_val p) (alm_val p) (semp_val p) (rtm_val p)
    (rnt_val p) (frse_val p) (uc_val p) (ss_val p) (ss_val_y p)
    (ssi_impute p) (vb_impute p) (snap_impute p) (MedicareX p) (MedicaidX p)
    (tanf_impute p) (ui_impute p) (housing_impute p) (wic_impute p) (probs p)
    (h_flag p) b (d_flag p) (flag p).

Definition set_d_flag (b : bool) (p : person) : person :=
  mkPerson (a_lineno p) (a_spouse p) (a_exprrp p) (a_maritl p) (a_age p)
    (a_enrlw p) (ffpos p) (ph_seq p) (ftype p) (h_type p) (h_numper p)
    (wsal_val p) (int_val p) (div_val p) (alm_val p) (semp_val p) (rtm_val p)
    (rnt_val p) (frse_val p) (uc_val p) (ss_val p) (ss_val_y p)
    (ssi_impute p) (vb_impute p) (snap_impute p) (MedicareX p) (MedicaidX p)
    (tanf_impute p) (ui_impute p) (housing_impute p) (wic_impute p) (probs p)
    (h_flag p) (s_flag p) b (flag p).

Definition set_ifdept (b : bool) (u : tax_unit) : tax_unit :=
  mkUnit (inc u) b (xfid u) (xpid u) (u_a_lineno u) (ms_type u) (sp_ptr u)
    (relcode u) (u_ftype u) (ageh u) (agede u) (ages u) (js u) (cnt u)
    (depne u) (dep u) (depage u) (tot u) (slots u) (ben_number u) (t_flag u).

Definition set_js (v : Z) (u : tax_unit) : tax_unit :=
  mkUnit (inc u) (u_ifdept u) (xfid u) (xpid u) (u_a_lineno u) (ms_type u)
    (sp_ptr u) (relcode u) (u_ftype u) (ageh u) (agede u) (ages u) v (cnt u)
    (depne u) (dep u) (depage u) (tot u) (slots u) (ben_number u) (t_flag u).

Definition set_cnt (c : counters) (u : tax_unit) : tax_unit :=
  mkUnit (inc u) (u_ifdept u) (xfid u) (xpid u) (u_a_lineno u) (ms_type u)
    (sp_ptr u) (relcode u) (u_ftype u) (ageh u) (agede u) (ages u) (js u) c
    (depne u) (dep u) (depage u) (tot u) (slots u) (ben_number u) (t_flag u).

Definition set_depne (v : Z) (u : tax_unit) : tax_unit :=
  mkUnit (inc u) (u_ifdept u) (xfid u) (xpid u) (u_a_lineno u) (ms_type u)
    (sp_ptr u) (relcode u) (u_ftype u) (ageh u) (agede u) (ages u) (js u)
    (cnt u) v (dep u) (depage u) (tot u) (slots u) (ben_number u) (t_flag u).

Definition set_dep (k v : Z) (u : tax_unit) : tax_unit :=
  mkUnit (inc u) (u_ifdept u) (xfid u) (xpid u) (u_a_lineno u) (ms_type u)
    (sp_ptr u) (relcode u) (u_ftype u) (ageh u) (agede u) (ages u) (js u)
    (cnt u) (depne u) (<[k := v]> (dep u)) (depage u) (tot u) (slots u)
    (ben_number u) (t_flag u).

Definition set_depage (k : Z) (v : option Z) (u : tax_unit) : tax_unit :=
  mkUnit (inc u) (u_ifdept u) (xfid u) (xpid u) (u_a_lineno u) (ms_type u)
    (sp_ptr u) (relcode u) (u_ftype u) (ageh u) (agede u) (ages u) (js u)
    (cnt u) (depne u) (dep u) (<[k := v]> (depage u)) (tot u) (slots u)
    (ben_number u) (t_flag u).

Definition set_tot (b : bens) (u : tax_unit) : tax_unit :=
  mkUnit (inc u) (u_ifdept u) (xfid u) (xpid u) (u_a_lineno u) (ms_type u)
    (sp_ptr u) (relcode u) (u_ftype u) (ageh u) (agede u) (ages u) (js u)
    (cnt u) (depne u) (dep u) (depage u) b (slots u) (ben_number u)
    (t_flag u).

Definition set_slot (k : Z) (v : bens * bens) (u : tax_unit) : tax_unit :=
  mkUnit (inc u) (u_ifdept u) (xfid u) (xpid u) (u_a_lineno u) (ms_type u)
    (sp_ptr u) (relcode u) (u_ftype u) (ageh u) (agede u) (ages u) (js u)
    (cnt u) (depne u) (dep u) (depage u) (tot u) (<[k := v]> (slots u))
    (ben_number u) (t_flag u).

Definition set_ben_number (v : Z) (u : tax_unit) : tax_unit :=
  mkUnit (inc u) (u_ifdept u) (xfid u) (xpid u) (u_a_lineno u) (ms_type u)
    (sp_ptr u) (relcode u) (u_ftype u) (ageh u) (agede u) (ages u) (js u)
    (cnt u) (depne u) (dep u) (depage u) (tot u) (slots u) v (t_flag u).

Definition set_t_flag (b : bool) (u : tax_unit) : tax_unit :=
  mkUnit (inc u) (u_ifdept u) (xfid u) (xpid u) (u_a_lineno u) (ms_type u)
    (sp_ptr u) (relcode u) (u_ftype u) (ageh u) (agede u) (ages u) (js u)
    (cnt u) (depne u) (dep u) (depage u) (tot u) (slots u) (ben_number u) b.

(** ** The class [Returns] *)

Module Returns.

(** Filing thresholds set by [__init__]. *)
Definition single : Z := 10150.
Definition single65 : Z := 11700.
Definition hoh : Z := 13050.
Definition hoh65 : Z := 14600.
Definition joint : Z := 20300.
Definition joint65one : Z := 21500.
Definition joint65both : Z := 22700.
Definition depwages : Z := 0.
Definition depTotal : Z := 1000.
Definition wage1 : Z := 1000.
Definition wage2 : Z := 250.
Definition wage2nk : Z := 10000.
Definition wage3 : Z := 1.
Definition depExempt : Z := 3950.

(** [check_age(record, age, dependent)].  Every comparison with a [nan] age
    is false, so that nothing is counted for it. *)
Definition check_age (c : counters) (age : option Z) (dependent : bool)
  : counters :=
  match age with
  | None => c
  | Some a =>
    if (0 <? a) && (a <? 18) then
      let c1 := mkCounters (nu05 c) (nu13 c) (nu18_dep c) (nu18 c + 1)
                  (n1820 c) (n21 c) (elderly_dependent c) (f2441 c) (EIC c)
                  (n24 c) in
      if dependent then
        let c2 := mkCounters (nu05 c1) (nu13 c1) (nu18_dep c1 + 1) (nu18 c1)
                    (n1820 c1) (n21 c1) (elderly_dependent c1) (f2441 c1)
                    (EIC c1 + 1) (n24 c1) in
        let c3 :=
          if a <=? 5 then
            mkCounters (nu05 c2 + 1) (nu13 c2) (nu18_dep c2) (nu18 c2)
              (n1820 c2) (n21 c2) (elderly_dependent c2) (f2441 c2) (EIC c2)
              (n24 c2)
          else if a <=? 13 then
            mkCounters (nu05 c2) (nu13 c2 + 1) (nu18_dep c2) (nu18 c2)
              (n1820 c2) (n21 c2) (elderly_dependent c2) (f2441 c2 + 1)
              (EIC c2) (n24 c2)
          else c2 in
        if (0 <? a) && (a <=? 17) then
          mkCounters (nu05 c3) (nu13 c3) (nu18_dep c3) (nu18 c3) (n1820 c3)
            (n21 c3) (elderly_dependent c3) (f2441 c3) (EIC c3) (n24 c3 + 1)
        else c3
      else c1
    else if (18 <=? a) && (a <=? 20) then
      mkCounters (nu05 c) (nu13 c) (nu18_dep c) (nu18 c) (n1820 c + 1)
        (n21 c) (elderly_dependent c) (f2441 c) (EIC c) (n24 c)
    else if 21 <=? a then
      let c1 := mkCounters (nu05 c) (nu13 c) (nu18_dep c) (nu18 c) (n1820 c)
                  (n21 c + 1) (elderly_dependent c) (f2441 c) (EIC c)
                  (n24 c) in
      if (65 <=? a) && dependent then
        mkCounters (nu05 c1) (nu13 c1) (nu18_dep c1) (nu18 c1) (n1820 c1)
          (n21 c1) (elderly_dependent c1 + 1) (f2441 c1) (EIC c1) (n24 c1)
      else c1
    else c
  end.

(** [totincx(unit)] *)
Definition totincx (u : tax_unit) : Z :=
  let i := inc u in
  was i + intst i + dbe i + alimony i + bil i + pensions i + rents i +
  fil i + ucomp i + socsec i.

(** The generation table of [relation]; 99 stands for "not in the table". *)
Definition generation (code : Z) : Z :=
  if code =? 5 then -1
  else if code =? 7 then -2
  else if code =? 8 then 1
  else if code =? 9 then 0
  else if code =? 11 then -1
  else 99.

(** [relation(person, record)] *)
Definition relation (p : person) (record : tax_unit) : Z :=
  let genref := generation (relcode record) in
  let genind := generation (a_exprrp p) in
  if negb (genref =? 99) && negb (genind =? 99) then genind - genref
  else 99.

(** The income [ifdept] computes for the person. *)
Definition ifdept_income (p : person) : Z :=
  wsal_val p + semp_val p + frse_val p + uc_val p + ss_val_y p + rtm_val p +
  int_val p + int_val p + div_val p + rnt_val p + alm_val p.

(** Test 4 of [ifdept], the income test. *)
Definition ifdept_test4 (p : person) (record : tax_unit) : bool :=
  let income := ifdept_income p in
  let related := relation p record in
  let test4 := income <=? 2500 in
  if (a_exprrp p =? 5) || (related =? -1) then
    if (a_age p <=? 18) || ((a_age p <=? 23) && (0 <? a_enrlw p)) then true
    else test4
  else test4.

(** Test 5 of [ifdept], the support test.  [income / float(t) < 0.5] for
    a positive [t] is [2 * income < t]. *)
Definition ifdept_test5 (p : person) (record : tax_unit) : bool :=
  let income := ifdept_income p in
  let totinc := totincx record in
  if 0 <? totinc + income then 2 * income <? totinc + income
  else true.

(** [ifdept(person, record)]: tests 1 to 3 are the constant 1. *)
Definition ifdept (p : person) (record : tax_unit) : bool :=
  let test1 := 1 in
  let test2 := 1 in
  let test3 := 1 in
  let test4 := if ifdept_test4 p record then 1 else 0 in
  let test5 := if ifdept_test5 p record then 1 else 0 in
  test1 + test2 + test3 + test4 + test5 =? 5.

(** [must_file(record)] *)
Definition must_file (p : person) : bool :=
  let wages := wsal_val p in
  let income := wages + semp_val p + frse_val p + uc_val p + ss_val p +
                rtm_val p + int_val p + div_val p + rnt_val p + alm_val p in
  (depwages <? wages) || (depTotal <? income).

(** The income of the wage and gross income tests of [filst]. *)
Definition filst_income (r : tax_unit) : Z :=
  let i := inc r in
  was i + intst i + dbe i + alimony i + bil i + pensions i + rents i +
  fil i + ucomp i.

(** The wage and gross income tests of [filst], by filing status: [true]
    when one of them returns 1. *)
Definition filst_tests (r : tax_unit) : bool :=
  let dep_exemption := depne r * depExempt in
  let income := filst_income r in
  if js r =? 1 then
    if wage1 <=? was (inc r) then true
    else
      let amount := if negb (agede r =? 0) then single65 - dep_exemption
                    else single - dep_exemption in
      amount <=? income
  else if js r =? 2 then
    if (if 0 <? depne r then wage2 <=? was (inc r)
        else wage2nk <=? was (inc r))
    then true
    else
      let amount := if agede r =? 1 then joint65one - dep_exemption
                    else if agede r =? 2 then joint65both - dep_exemption
                    else joint - dep_exemption in
      amount <=? income
  else if js r =? 3 then
    if wage3 <=? was (inc r) then true
    else
      let amount := if negb (agede r =? 0) then hoh65 - dep_exemption
                    else hoh in
      amount <=? income
  else false.

(** The "random selection" exception of [filst]. *)
Definition filst_fils (r : tax_unit) : bool :=
  (js r =? 3) && (0 <? agede r) && (6500 <? filst_income r) &&
  (0 <? depne r).

(** [filst(record)] *)
Definition filst (r : tax_unit) : Z :=
  if filst_tests r then 1
  else if u_ifdept r then 1
  else if filst_fils r then 0
  else if (bil (inc r) <? 0) || (fil (inc r) <? 0) || (rents (inc r) <? 0)
  then 1
  else 0.


(** The amounts [add_benefit] reads from a person, in the order of
    [ben_list] (the value of the programme [ss] is the column [ss_val_y]). *)
Definition ben_vals (p : person) : bens :=
  mkBens (ssi_impute p) (vb_impute p) (snap_impute p) (MedicareX p)
         (MedicaidX p) (ss_val_y p) (tanf_impute p) (ui_impute p)
         (housing_impute p) (wic_impute p).

(** [add_benefit(person, unit, pos)] *)
Definition add_benefit (p : person) (u : tax_unit) (pos : Z) : tax_unit :=
  set_slot pos (probs p, ben_vals p) (set_tot (bens_add (tot u) (ben_vals p)) u).

(** [addept(person, record, p_index)]; the person is the object at position
    [j] of the household. *)
Definition addept (j : nat) (house : list person) (record : tax_unit)
  (p_index : Z) : result (list person * tax_unit) :=
  match house !! j with
  | None => Raise IndexError
  | Some p0 =>
    let p := set_d_flag true p0 in
    let house := <[j := p]> house in
    let record := set_depne (depne record + 1) record in
    let depne' := depne record in
    let record := set_dep depne' p_index record in
    let record := set_cnt (check_age (cnt record) (Some (a_age p)) true) record in
    let record := set_depage depne' (Some (a_age p)) record in
    let record := add_benefit p record (ben_number record) in
    let record := set_ben_number (ben_number record + 1) record in
    Ok (house, record)
  end.

(** The loop of [create] that locates the spouse's record: the first
    person pointing back at the head. *)
Definition find_spouse (record : person) (house : list person)
  : option (nat * person) :=
  list_find (fun p => a_lineno p = a_spouse record /\
                      a_spouse p = a_lineno record) house.

(** A use of the local variable [spouse] of [create]. *)
Definition use_spouse (spouse : option (nat * person)) : result (nat * person) :=
  match spouse with
  | Some sp => Ok sp
  | None => Raise UnboundLocalError
  end.

(** The fifteen numbered benefit keys [create] sets to zero. *)
Definition slots0 : gmap Z (bens * bens) :=
  list_to_map ((fun k => (k, (bens0, bens0))) <$> seqZ 1 15).

(** One round of the dependent search of [create], for the person at
    position [j]; [ri] is the position of the head. *)
Definition create_search (ri : nat) (j : nat) (st : list person * tax_unit)
  : result (list person * tax_unit) :=
  let '(house, unit) := st in
  match house !! j, house !! ri with
  | Some p, Some record =>
    ip ← py_list_index p house;
    ir ← py_list_index record house;
    let search := negb (bool_decide (ip = ir)) && (ffpos p =? xfid unit) &&
                  negb (d_flag p) && negb (s_flag p) && negb (h_flag p) in
    if search then
      let p := set_d_flag (ifdept p unit) p in
      let house := <[j := p]> house in
      if d_flag p then
        idx ← py_list_index p house;
        addept j house unit (Z.of_nat idx)
      else Ok (house, unit)
    else Ok (house, unit)
  | _, _ => Raise IndexError
  end.

(** [create(record, house)], for the record at position [ri] of the
    household.  Returns the counter [nunits], the household with the flags
    it has set, and the new unit. *)
Definition create (nunits : Z) (ri : nat) (house : list person)
  : result (Z * list person * tax_unit) :=
  match house !! ri with
  | None => Raise IndexError
  | Some record =>
    let nunits := nunits + 1 in
    let inc0 := mkIncomes (wsal_val record) (int_val record) (div_val record)
                  (alm_val record) (semp_val record) (rtm_val record)
                  (rnt_val record) (frse_val record) (uc_val record)
                  (ss_val record) in
    let ms := a_maritl record in
    let ms_type := if (ms =? 1) || (ms =? 2) || (ms =? 3) then 2 else 1 in
    let sp_ptr := a_spouse record in
    let ageh := a_age record in
    let agede := if 65 <=? ageh then 1 else 0 in
    let cnt0 := check_age counters0 (Some ageh) false in
    (* single and separated individuals, then joint filers *)
    '(house, spouse, js, inc1, agede, ages, cnt1) ←
      (if ms_type =? 1 then
         Ok (house, None, 1, inc0, agede, None, cnt0)
       else
         if negb (sp_ptr =? 0) then
           let spouse := find_spouse record house in
           '(sj, sp) ← use_spouse spouse;
           let ages := a_age sp in
           let agede := if 65 <=? ages then agede + 1 else agede in
           let cnt1 := check_age cnt0 (Some ages) false in
           let inc1 := mkIncomes (was inc0 + wsal_val sp)
                         (intst inc0 + int_val sp) (dbe inc0 + div_val sp)
                         (alimony inc0 + alm_val sp) (bil inc0 + semp_val sp)
                         (pensions inc0 + rtm_val sp) (rents inc0 + rnt_val sp)
                         (fil inc0 + frse_val sp) (ucomp inc0 + uc_val sp)
                         (socsec inc0 + ss_val_y sp) in
           let house := <[sj := set_s_flag true sp]> house in
           Ok (house, spouse, 2, inc1, agede, Some ages, cnt1)
         else Ok (house, None, 2, inc0, agede, None, cnt0));
    (* hi_spouse, paid_spouse, priv_spouse *)
    _ ← (if negb (sp_ptr =? 0) then use_spouse spouse
         else Ok (0%nat, record));
    let unit := mkUnit inc1 (d_flag record) (ffpos record) (ph_seq record)
                  (a_lineno record) ms_type sp_ptr (a_exprrp record)
                  (ftype record) ageh agede ages js cnt1 0 ∅ ∅ bens0 slots0 0
                  false in
    (* add imputed benefit data *)
    let unit := add_benefit record unit 1 in
    unit ← (if negb (sp_ptr =? 0) then
              '(_, sp) ← use_spouse spouse; Ok (add_benefit sp unit 2)
            else Ok unit);
    let unit := set_ben_number 3 unit in
    (* search for dependents *)
    '(house, unit) ←
      for_in (seq 0 (length house)) (create_search ri) (house, unit);
    let unit := set_t_flag true unit in
    Ok (nunits, house, unit)
  end.

(** The body of [convert] on the unit [x] at position [ix] and the target
    unit [y], two distinct objects. *)
Definition convert_deps (iybgin : Z) (ndeps : Z) (xy : tax_unit * tax_unit)
  : result (tax_unit * tax_unit) :=
  let '(x, y) := xy in
  d ← getkey (dep x) ndeps;
  let y := set_dep (iybgin + ndeps) d y in
  let x := set_dep (iybgin + ndeps) 0 x in
  a ← getkey (depage x) ndeps;
  let y := set_depage (iybgin + ndeps) a y in
  Ok (x, y).

Definition convert_slot (x : tax_unit) (i : Z) (y : tax_unit)
  : result tax_unit :=
  let pos := ben_number y in
  pv ← getkey (slots x) i;
  let y := set_slot pos pv y in
  Ok (set_ben_number (ben_number y + 1) y).

Definition convert_pair (ix : nat) (x y : tax_unit)
  : result (tax_unit * tax_unit) :=
  let x := set_ifdept true x in
  let ixdeps := depne x in
  let iydeps := depne y in
  let x := set_depne 0 x in
  let ixjs := js x in
  let '(y, iybgin) :=
    if ixjs =? 2 then
      let y := set_depne (depne y + (ixdeps + 2)) y in
      (* location of the two new dependents *)
      let y := set_dep (iydeps + 1) (Z.of_nat ix) y in
      let y := set_dep (iydeps + 2) (sp_ptr x) y in
      (* ages of the two new dependents *)
      let y := set_depage (iydeps + 1) (Some (ageh x)) y in
      let y := set_depage (iydeps + 2) (ages x) y in
      (y, iydeps + 2)
    else
      let y := set_depne (depne y + (ixdeps + 1)) y in
      let y := set_dep (iydeps + 1) (Z.of_nat ix) y in
      let y := set_depage (iydeps + 1) (Some (ageh x)) y in
      (y, iydeps + 1) in
  '(x, y) ←
    (if 0 <? ixdeps then
       for_in (seqZ 1 ixdeps) (convert_deps iybgin) (x, y)
     else Ok (x, y));
  (* add age variables together *)
  let y := set_cnt (counters_add (cnt y) (cnt x)) y in
  (* transfer benefit totals *)
  let y := set_tot (bens_add (tot y) (tot x)) y in
  (* transfer benefit probabilities and values *)
  y ← for_in (seqZ 1 (ben_number x - 1)) (convert_slot x) y;
  Ok (x, y).

(** [convert(ix, iy)] on [house_units].  [search] calls it with
    [ix != idxhigh] only; the result for [ix = iy], where the two units are
    one object, is not what the model describes. *)
Definition convert (ix iy : nat) (units : list tax_unit)
  : result (list tax_unit) :=
  match units !! ix, units !! iy with
  | Some x, Some y =>
    '(x', y') ← convert_pair ix x y;
    Ok (<[iy := y']> (<[ix := x']> units))
  | _, _ => Raise IndexError
  end.

(** The initial value [-9.9e32] of [highest] in [search], as the integer the
    floating point literal denotes. *)
Definition highest0 : Z := -989999999999999986471731338412032.

(** The first loop of [search]: the highest total income and the position
    [house_units.index] gives for its unit. *)
Definition search_top (units : list tax_unit) : result (Z * nat) :=
  for_in units
    (fun unit '(highest, idxhigh) =>
       let totinc := totincx unit in
       if highest <=? totinc then
         i ← py_list_index unit units; Ok (totinc, i)
       else Ok (highest, idxhigh))
    (highest0, 0%nat).

(** [unit['t_flag'] = False; self.convert(ix, idxhigh)] *)
Definition fold_unit (ix idxhigh : nat) (units : list tax_unit)
  : result (list tax_unit) :=
  convert ix idxhigh (alter (set_t_flag false) ix units).

(** The condition [convert1] of [search]. *)
Definition convert1 (highest : Z) (idxhigh ix : nat) (unit : tax_unit) : bool :=
  negb (bool_decide (ix = idxhigh)) && negb (u_ifdept unit) &&
  (0 <? highest) && negb (js unit =? 2).

(** One round of the second loop of [search]. *)
Definition search_step (highest : Z) (idxhigh : nat) (ix : Z)
  (units : list tax_unit) : result (list tax_unit) :=
  unit ← py_index units ix;
  let ixn := Z.to_nat ix in
  let idxrelc := relcode unit in
  let idxfamt := u_ftype unit in
  if convert1 highest idxhigh ixn unit then
    units ←
      (if (idxfamt =? 1) || (idxfamt =? 3) || (idxfamt =? 5) then
         let totinc := totincx unit in
         units ← (if totinc <=? 0 then fold_unit ixn idxhigh units
                  else Ok units);
         if (0 <? totinc) && (totinc <=? 3000) then
           fold_unit ixn idxhigh units
         else Ok units
       else Ok units);
    if idxrelc =? 11 then fold_unit ixn idxhigh units else Ok units
  else Ok units.

(** [search()] on the state [nunits], [house_units]. *)
Definition search (nunits : Z) (units : list tax_unit)
  : result (list tax_unit) :=
  '(highest, idxhigh) ← search_top units;
  match units !! idxhigh with
  | None => Raise IndexError
  | Some top =>
    if negb (u_ifdept top) then
      for_in (seqZ 0 nunits) (search_step highest idxhigh) units
    else Ok units
  end.

(** [hhstatus(unit)], called for the unit at position [k].  The loop that
    adds up the incomes is [for unit in self.house_units], so that after it
    [unit] is the last unit of the household, whatever [k] was. *)
Definition hhstatus (k : nat) (units : list tax_unit) : list tax_unit :=
  let income := foldl (fun acc u => acc + totincx u) 0 units in
  let pos := match units with [] => k | _ => (length units - 1)%nat end in
  if 0 <? income then
    match units !! pos with
    | Some unit =>
      let totinc := totincx unit in
      if (js unit =? 1) && (99 * income <? 100 * totinc) then
        if negb (u_ifdept unit) && (0 <? depne unit) then
          <[pos := set_js 3 unit]> units
        else units
      else units
    | None => units
    end
  else units.

(** The record [output] builds: the keys of [repeated_vars] it copies from
    the unit ([o_unit]; the counters of the record are [o_cnt]) and the keys
    it computes. *)
Record out_record : Type := mkOut {
  o_unit : tax_unit;
  o_cnt : counters;
  xxtot : Z;
  xxocawh : Z;
  oldest : Z;
  youngest : Z;
  zdepin : Z;
  income : Z;
  o_filst : Z
}.

(** The statements of [output] under [eflag = True] that come before the
    ages are checked again.  [record['elderly_dependent'] - 0.] is an
    expression, not an assignment: the counter keeps its value. *)
Definition output_reset (c : counters) : counters :=
  mkCounters 0 0 0 0 0 0 (elderly_dependent c) 0 0 0.

(** One round of the loop of [output] over the dependents. *)
Definition output_dep (unit : tax_unit) (house : list person) (eflag : bool)
  (i : Z) (st : Z * counters) : result (Z * counters) :=
  let '(xxtot, c) := st in
  dindex ← getkey (dep unit) i;
  p ← py_index house dindex;
  let dage := a_age p in
  if eflag then Ok (xxtot + 1, check_age c (Some dage) true)
  else Ok (xxtot, c).

Definition output_ages (unit : tax_unit) (i : Z) (st : Z * Z)
  : result (Z * Z) :=
  let '(oldest, youngest) := st in
  dage ← getkey (depage unit) i;
  match dage with
  | None => Ok (oldest, youngest)
  | Some a =>
    Ok (if oldest <? a then a else oldest,
        if a <? youngest then a else youngest)
  end.

Definition output_depin (unit : tax_unit) (house : list person) (i : Z)
  (zdepin : Z) : result Z :=
  dindex ← getkey (dep unit) i;
  p ← py_index house dindex;
  if negb (flag p) then
    Ok (wsal_val p + semp_val p + frse_val p + uc_val p + ss_val p +
        semp_val p + rtm_val p + int_val p + div_val p + alm_val p)
  else Ok zdepin.

(** The person count [output] starts from, [txpye + depne]. *)
Definition output_xxtot (unit : tax_unit) : Z :=
  let txpye := if js unit =? 1 then 2 else 1 in
  txpye + depne unit.

(** The test of [output] that sets [eflag]. *)
Definition output_eflag (unit : tax_unit) : bool :=
  let c := cnt unit in
  let nsums := nu18 c + n1820 c + n21 c in
  negb (output_xxtot unit =? nsums) || (nu18 c <? n24 c).

(** [output(unit, house)] *)
Definition output (unit : tax_unit) (house : list person) : result out_record :=
  let depne := depne unit in
  let c := cnt unit in
  let xxtot := output_xxtot unit in
  (* ensure XTOT will equal the number of people in a tax unit *)
  let eflag := output_eflag unit in
  let '(xxtot, c) :=
    if eflag then
      let c := check_age (output_reset c) (Some (ageh unit)) false in
      if js unit =? 2 then (1 + 1, check_age c (ages unit) false)
      else (1, c)
    else (xxtot, c) in
  (* check relationship codes among dependents *)
  '(xxtot, c) ←
    (if 0 <? depne then
       for_in (seqZ 1 depne) (output_dep unit house eflag) (xxtot, c)
     else Ok (xxtot, c));
  '(oldest, youngest) ←
    (if 0 <? depne then
       for_in (seqZ 1 depne) (output_ages unit)
         (-99000000000000000, 99000000000000000)
     else Ok (0, 0));
  (* dependent income *)
  zdepin ←
    (if 0 <? depne then for_in (seqZ 1 depne) (output_depin unit house) 0
     else Ok 0);
  Ok (mkOut unit c xxtot 0 oldest youngest zdepin (totincx unit) (filst unit)).

(** The interpreter: [map] applies its function at once in Python 2 and
    returns an iterator, which [computation] never consumes, in Python 3. *)
Inductive python : Type := Python2 | Python3.

(** The state of [computation] inside a household. *)
Record state : Type := mkState {
  nunits : Z;
  house_dicts : list person;
  house_units : list tax_unit
}.

(** [self.house_units.append(self.create(person, house_dicts))] for the
    person at position [k]. *)
Definition append_create (k : nat) (st : state) : result state :=
  '(n, house, unit) ← create (nunits st) k (house_dicts st);
  Ok (mkState n house (house_units st ++ [unit])).

(** The units a round of the loop of [computation] over a family household
    creates for the person at position [k]. *)
Definition family_create (k : nat) (st : state) : result state :=
  match house_dicts st !! k with
  | None => Raise IndexError
  | Some person =>
    (* only create a new unit if that person is not flagged *)
    let not_flagged := negb (h_flag person) && negb (s_flag person) &&
                       negb (d_flag person) in
    st ← (if not_flagged then append_create k st else Ok st);
    match house_dicts st !! k with
    | None => Raise IndexError
    | Some person =>
      (* check if the person is a dependent and must file *)
      if negb (s_flag person) && d_flag person then
        if must_file person then append_create k st else Ok st
      else Ok st
    end
  end.

(** One round of the loop of [computation] over a family household. *)
Definition family_step (k : nat) (st : state) : result state :=
  st ← family_create k st;
  (* check for dependents in the household *)
  if 1 <? nunits st then
    units ← search (nunits st) (house_units st);
    Ok (mkState (nunits st) (house_dicts st) units)
  else Ok st.

(** The units [computation] builds for one household, by household type. *)
Definition build_units (house : list person) : result state :=
  match house with
  | [] => Raise IndexError
  | head :: _ =>
    let st := mkState 0 house [] in
    let single := ((h_type head =? 6) || (h_type head =? 7)) &&
                  (h_numper head =? 1) in
    let group := h_type head =? 9 in
    if single then append_create 0 st
    else if group then for_in (seq 0 (length house)) append_create st
    else for_in (seq 0 (length house)) family_step st
  end.

(** [map(self.hhstatus, self.house_units)] *)
Definition map_hhstatus (py : python) (units : list tax_unit)
  : list tax_unit :=
  match py with
  | Python2 => foldl (fun us k => hhstatus k us) units (seq 0 (length units))
  | Python3 => units
  end.

(** The body of the loop of [computation] for one household, whose rows are
    sorted by line number: the final units of the household and the records
    added to [tax_units]. *)
Definition computation (py : python) (house : list person)
  : result (list tax_unit * list out_record) :=
  st ← build_units house;
  let units := map_hhstatus py (house_units st) in
  outs ← for_in units
           (fun unit outs =>
              if t_flag unit then
                r ← output unit (house_dicts st); Ok (outs ++ [r])
              else Ok outs)
           [];
  Ok (units, outs).

(** ** Notions of the specification *)

(** The number of filers of a unit: 2 for a joint unit, 1 otherwise. *)
Definition filer_count (u : tax_unit) : Z := if js u =? 2 then 2 else 1.

(** The aggregate income of the specification's income test: the ten
    streams, each counted once. *)
Definition spec_aggregate_income (p : person) : Z :=
  wsal_val p + semp_val p + frse_val p + uc_val p + ss_val_y p + rtm_val p +
  int_val p + div_val p + rnt_val p + alm_val p.

(** The income test as the specification words it. *)
Definition spec_income_test (p : person) (record : tax_unit) : bool :=
  (spec_aggregate_income p <=? 2500) ||
  (((a_exprrp p =? 5) || (relation p record =? -1)) &&
   ((a_age p <? 19) || ((a_age p <? 24) && (0 <? a_enrlw p)))).

(** The counters recomputed from nothing but the ages: the head's, the
    spouse's if the unit is joint, and the dependents' ages found in the
    household. *)
Definition spec_recount (unit : tax_unit) (house : list person)
  : result counters :=
  let c := check_age counters0 (Some (ageh unit)) false in
  let c := if js unit =? 2 then check_age c (ages unit) false else c in
  for_in (seqZ 1 (depne unit))
    (fun i c =>
       dindex ← getkey (dep unit) i;
       p ← py_index house dindex;
       Ok (check_age c (Some (a_age p)) true))
    c.

(** The units of a household that are still tax units. *)
Definition surviving (units : list tax_unit) : list tax_unit :=
  filter (fun u => t_flag u = true) units.

(** Sums over the units of a household. *)
Definition sum_depne (units : list tax_unit) : Z :=
  foldr (fun u acc => depne u + acc) 0 units.
Definition sum_cnt (units : list tax_unit) : counters :=
  foldr (fun u acc => counters_add (cnt u) acc) counters0 units.
Definition sum_tot (units : list tax_unit) : bens :=
  foldr (fun u acc => bens_add (tot u) acc) bens0 units.

(** The numbered keys a unit needs for [convert] and [output] to find what
    they read: a [dep] and a [depage] key for every dependent, a benefit
    slot for every position below [ben_number]. *)
Definition deps_wf (u : tax_unit) : Prop :=
  forall k, 1 <= k <= depne u -> is_Some (dep u !! k) /\ is_Some (depage u !! k).
Definition slots_wf (u : tax_unit) : Prop :=
  forall i, 1 <= i < ben_number u -> is_Some (slots u !! i).

(** The exception of [filst] for a head of household with an elderly
    filer, an income above 6500 and a dependent, as the specification
    describes it. *)
Definition carve_out (r : tax_unit) : Prop :=
  js r = 3 /\ 0 < agede r /\ 6500 < filst_income r /\ 0 < depne r.

(** ** Households used as examples *)

(** A row with the given line number, spouse pointer, relationship code,
    marital status, age, family position, family type, household type,
    wages, interest, self-employment income and pension; every other amount
    is zero and no flag is set. *)
Definition row (lineno spouse exprrp maritl age fpos ftyp htyp
                wsal int semp rtm : Z) : person :=
  mkPerson lineno spouse exprrp maritl age 0 fpos lineno ftyp htyp 0
           wsal int 0 0 semp rtm 0 0 0 0 0
           0 0 0 0 0 0 0 0 0 bens0 false false false false.

(** A married couple, each pointing at the other, and their child under
    one year of age. *)
Definition couple_with_infant : list person :=
  [ row 1 2 1 1 30 1 1 1 30000 0 0 0;
    row 2 1 3 1 30 1 1 1 20000 0 0 0;
    row 3 0 5 7 0 1 1 1 0 0 0 0 ].

(** A married head whose spouse pointer names line 2, while the person on
    line 2 points at nobody. *)
Definition one_sided_spouse : list person :=
  [ row 1 2 1 1 30 1 1 1 30000 0 0 0;
    row 2 0 3 7 30 1 1 1 20000 0 0 0 ].

(** An earner with a child of ten, and an unrelated adult without income
    in a family of their own. *)
Definition earner_child_boarder : list person :=
  [ row 1 0 1 7 40 1 1 1 50000 0 0 0;
    row 2 0 5 7 10 1 1 1 0 0 0 0;
    row 3 0 10 7 30 2 2 1 0 0 0 0 ].

(** An earner and a relative of thirty whose only income is 1300 of
    interest. *)
Definition earner_and_saver : list person :=
  [ row 1 0 1 7 40 1 1 1 100000 0 0 0;
    row 2 0 10 7 30 1 1 1 0 1300 0 0 ].

(** A married couple and a parent of seventy without income. *)
Definition couple_with_parent : list person :=
  [ row 1 2 1 1 40 1 1 1 30000 0 0 0;
    row 2 1 3 1 40 1 1 1 0 0 0 0;
    row 3 0 8 7 70 1 1 1 0 0 0 0 ].

(** A pensioner of 66 with a business loss and a child of ten. *)
Definition pensioner_with_loss : list person :=
  [ row 1 0 1 7 66 1 1 1 0 0 (-500) 9000;
    row 2 0 5 7 10 1 1 1 0 0 0 0 ].



(** An earner, and in a second family a relative (code 11, family type 1,
    income 3000) with three children. *)
Definition earner_and_subfamily : list person :=
  [ row 1 0 1 7 40 1 2 1 50000 0 0 0;
    row 2 0 11 7 30 2 1 1 3000 0 0 0;
    row 3 0 12 7 5 2 1 1 0 0 0 0;
    row 4 0 12 7 6 2 1 1 0 0 0 0;
    row 5 0 12 7 7 2 1 1 0 0 0 0 ].

(** The units of that household as [create] builds them, before any
    [search]. *)
Definition subfamily_units : result (list tax_unit) :=
  '(n, house, u0) ← create 0 0 earner_and_subfamily;
  '(_, _, u1) ← create n 1 house;
  Ok [u0; u1].

(** Two single adults of different families, the second with an income of
    500 and a benefit of 100 of the programme [snap]. *)
Definition two_singles : list person :=
  [ row 1 0 1 7 40 1 2 1 40000 0 0 0;
    mkPerson 2 0 10 7 30 0 2 2 1 1 0
             500 0 0 0 0 0 0 0 0 0 0
             0 0 100 0 0 0 0 0 0 bens0 false false false false ].

Definition two_singles_units : result (list tax_unit) :=
  '(n, house, u0) ← create 0 0 two_singles;
  '(_, _, u1) ← create n 1 house;
  Ok [u0; u1].

(** A unit with a business loss of 500 and a pension of 9000, single,
    without dependents. *)
Definition single_with_loss : tax_unit :=
  mkUnit (mkIncomes 0 0 0 0 (-500) 9000 0 0 0 0) false 1 1 1 1 0 1 1
         40 0 None 1 (mkCounters 0 0 0 0 0 1 0 0 0 0) 0 ∅ ∅ bens0 slots0 3
         true.

(** Two units as [create] builds them: an earner, and a relative (code 11)
    of family type 1 with an income of 3000. *)
Definition earner_unit : tax_unit :=
  mkUnit (mkIncomes 50000 0 0 0 0 0 0 0 0 0) false 1 1 1 1 0 1 2
         40 0 None 1 (mkCounters 0 0 0 0 0 1 0 0 0 0) 0 ∅ ∅ bens0 slots0 3
         true.
Definition relative_unit : tax_unit :=
  mkUnit (mkIncomes 3000 0 0 0 0 0 0 0 0 0) false 2 2 2 1 0 11 1
         30 0 None 1 (mkCounters 0 0 0 0 0 1 0 0 0 0) 0 ∅ ∅ bens0 slots0 3
         true.

(** ** Auxiliary notions *)

(** Negative business, farm or rental income. *)
Definition negative_income (r : tax_unit) : Prop :=
  bil (inc r) < 0 \/ fil (inc r) < 0 \/ rents (inc r) < 0.

(** A person without the spouse and dependent flags: what [create] leaves
    unchanged of a row. *)
Definition unflag (p : person) : person :=
  set_s_flag false (set_d_flag false p).

(** The spouse pointer of a person is sound in a household: it is zero,
    or the person has a joint marital status and the pointer is returned by
    the member of the household it names. *)
Definition spouse_found (house : list person) (record : person) : Prop :=
  a_spouse record = 0 \/
  ((a_maritl record = 1 \/ a_maritl record = 2 \/ a_maritl record = 3) /\
   exists q, q ∈ house /\ a_lineno q = a_spouse record /\
             a_spouse q = a_lineno record).
Definition spouses_found (house : list person) : Prop :=
  forall p, p ∈ house -> spouse_found house p.

(** A unit without its numbered dependent keys, and without its numbered
    benefit keys. *)
Definition erase_deps (u : tax_unit) : tax_unit :=
  mkUnit (inc u) (u_ifdept u) (xfid u) (xpid u) (u_a_lineno u) (ms_type u)
    (sp_ptr u) (relcode u) (u_ftype u) (ageh u) (agede u) (ages u) (js u)
    (cnt u) (depne u) ∅ ∅ (tot u) (slots u) (ben_number u) (t_flag u).

Definition erase_slots (u : tax_unit) : tax_unit :=
  mkUnit (inc u) (u_ifdept u) (xfid u) (xpid u) (u_a_lineno u) (ms_type u)
    (sp_ptr u) (relcode u) (u_ftype u) (ageh u) (agede u) (ages u) (js u)
    (cnt u) (depne u) (dep u) (depage u) (tot u) ∅ 0 (t_flag u).

(** The sum of an amount over the surviving units of a household. *)
Definition weight (f : tax_unit -> Z) (u : tax_unit) : Z :=
  if t_flag u then f u else 0.
Definition sum_surviving (f : tax_unit -> Z) (units : list tax_unit) : Z :=
  foldr (fun u acc => weight f u + acc) 0 units.

(** What the first loop of [search] knows after the units [pre]: nothing
    was selected yet, no unit reaching the initial value of [highest], or
    the unit at [i] has the highest income [h] of [pre] and no later unit
    of [pre] has as much. *)
Definition top_so_far (units pre : list tax_unit) (h : Z) (i : nat) : Prop :=
  (h = highest0 /\ i = 0%nat /\ forall u, u ∈ pre -> totincx u < highest0) \/
  (exists top, units !! i = Some top /\ totincx top = h /\
     (i < length pre)%nat /\
     forall j u, pre !! j = Some u ->
       totincx u <= h /\ ((i < j)%nat -> totincx u < h)).

(** The units the second loop of [search] folds into the target [top],
    whose income is [highest]: the target is no dependent and has a
    positive income, the unit is no dependent and no joint filer (the
    condition [convert1], the position apart), and the unit meets one of
    the two tests that lead to a call of [convert]: a family type among 1, 3
    and 5 with an income of at most 3000, or the relationship code 11. *)
Definition folded (highest : Z) (top unit : tax_unit) : Prop :=
  u_ifdept top = false /\ 0 < highest /\
  u_ifdept unit = false /\ js unit <> 2 /\
  (((u_ftype unit = 1 \/ u_ftype unit = 3 \/ u_ftype unit = 5) /\
    totincx unit <= 3000) \/
   relcode unit = 11).

(** After the first [k] persons of a family household: the household
    differs from the rows read in flags only, and the units were built for
    persons among the first [k], one at most for each, in their order. *)
Definition units_follow (house0 : list person) (k : nat) (st : state) : Prop :=
  unflag <$> house_dicts st = unflag <$> house0 /\
  (u_a_lineno <$> house_units st) `sublist_of` (a_lineno <$> take k house0).

(** A finished unit: a dependent count that is not negative, every numbered
    key [convert] and [output] read, and the flag of a tax unit unless the
    unit was made a dependent. *)
Definition unit_wf (u : tax_unit) : Prop :=
  0 <= depne u /\ deps_wf u /\ slots_wf u /\
  (u_ifdept u = false -> t_flag u = true).

(** ** Further households and notions *)

(** What the counters of a unit satisfy, however the unit was built: the
    three counters of dependent children agree and are bounded by the
    number of persons under 18, the child care counter is the number of
    dependent children of 6 to 13, and the elderly dependents are among the
    persons of 21 and more. *)
Definition cnt_wf (c : counters) : Prop :=
  nu18_dep c = n24 c /\ EIC c = n24 c /\ f2441 c = nu13 c /\
  0 <= nu05 c /\ 0 <= nu13 c /\ nu05 c + nu13 c <= n24 c /\
  n24 c <= nu18 c /\ 0 <= n1820 c /\
  0 <= elderly_dependent c /\ elderly_dependent c <= n21 c.

(** A relative of thirty without any income. *)
Definition relative_without_income : person :=
  row 2 0 10 7 30 1 1 1 0 0 0 0.

(** A relative of thirty with wages of 60000. *)
Definition relative_with_wages : person :=
  row 2 0 10 7 30 1 1 1 60000 0 0 0.

(** The spouse [create] finds for a joint head with a spouse pointer. *)
Definition spouse_of (record : person) (house : list person)
  : option (nat * person) :=
  if ((a_maritl record =? 1) || (a_maritl record =? 2) ||
      (a_maritl record =? 3)) && negb (a_spouse record =? 0)
  then find_spouse record house else None.

(** The dependents of a unit are persons of the household: every [dep] key
    holds the position of a person that carries the dependent flag and has
    the family position of the unit, and the [depage] key holds the age of
    that person. *)
Definition deps_in (house : list person) (u : tax_unit) : Prop :=
  forall k, 1 <= k <= depne u ->
    exists (idx : nat) (p : person),
      dep u !! k = Some (Z.of_nat idx) /\ house !! idx = Some p /\
      d_flag p = true /\ ffpos p = xfid u /\
      depage u !! k = Some (Some (a_age p)).

(** An earner and a child of sixteen with wages of 3000 who was made a
    dependent before. *)
Definition earner_and_working_child : list person :=
  [ row 1 0 1 7 40 1 1 1 50000 0 0 0;
    set_d_flag true (row 2 0 5 7 16 1 1 1 3000 0 0 0) ].

(** What [create] may change of a row: the spouse and dependent flags, and
    these it sets only. *)
Definition raised (p p' : person) : Prop :=
  unflag p' = unflag p /\ h_flag p' = h_flag p /\
  (s_flag p = true -> s_flag p' = true) /\
  (d_flag p = true -> d_flag p' = true).

(** The keys of a unit that describe its head and spouse. *)
Definition head_part (u : tax_unit) :=
  (inc u, xfid u, xpid u, u_a_lineno u, ms_type u, sp_ptr u, relcode u,
   u_ftype u, ageh u, agede u, ages u, js u).

(** A relative (code 11) of family type 1 with an income of 3000 and three
    children, on the positions 2, 3 and 4 of the household. *)
Definition relative_with_children : tax_unit :=
  mkUnit (mkIncomes 3000 0 0 0 0 0 0 0 0 0) false 2 2 2 1 0 11 1
         30 0 None 1 (mkCounters 2 1 3 3 0 1 0 1 3 3) 3
         (list_to_map [(1, 2); (2, 3); (3, 4)])
         (list_to_map [(1, Some 5); (2, Some 6); (3, Some 7)])
         bens0 slots0 6 true.

(** Two units without a positive income: a business loss of 500, and no
    income at all. *)
Definition units_without_income : list tax_unit :=
  [ mkUnit (mkIncomes 0 0 0 0 (-500) 0 0 0 0 0) false 1 1 1 1 0 1 1
           40 0 None 1 (mkCounters 0 0 0 0 0 1 0 0 0 0) 0 ∅ ∅ bens0 slots0 3
           true;
    mkUnit (mkIncomes 0 0 0 0 0 0 0 0 0 0) false 2 2 2 1 0 11 1
           30 0 None 1 (mkCounters 0 0 0 0 0 1 0 0 0 0) 0 ∅ ∅ bens0 slots0 3
           true ].

(** An earner and a relative who is a dependent filer already. *)
Definition earner_and_dependent_filer : list tax_unit :=
  [ earner_unit; set_ifdept true relative_unit ].

(** A household of an earner and three children, and the unit of the
    earner with the children as dependents. *)
Definition earner_three_children : list person :=
  [ row 1 0 1 7 40 1 1 1 50000 0 0 0;
    row 2 0 5 7 5 1 1 1 0 0 0 0;
    row 3 0 5 7 9 1 1 1 0 0 0 0;
    row 4 0 5 7 16 1 1 1 700 20 0 0 ].

Definition earner_three_children_unit : tax_unit :=
  mkUnit (mkIncomes 50000 0 0 0 0 0 0 0 0 0) false 1 1 1 1 0 1 1
         40 0 None 1 (mkCounters 1 1 3 3 0 1 0 1 3 3) 3
         (list_to_map [(1, 1); (2, 2); (3, 3)])
         (list_to_map [(1, Some 5); (2, Some 9); (3, Some 16)])
         bens0 slots0 6 true.

(** The test [computation] makes on the first row of a household before it
    builds one unit only. *)
Definition single_household (house : list person) : bool :=
  match house with
  | [] => false
  | head :: _ =>
    ((h_type head =? 6) || (h_type head =? 7)) && (h_numper head =? 1)
  end.

(** A person has a place among the units: the person carries one of the
    three flags, or is the head of a unit. *)
Definition placed (st : state) (p : person) : Prop :=
  h_flag p = true \/ s_flag p = true \/ d_flag p = true \/
  a_lineno p ∈ (u_a_lineno <$> house_units st).

(** What holds of every unit [computation] builds for a household of [N]
    persons: the unit is finished, its counters are consistent, it has the
    fifteen numbered benefit keys [output] copies, and every [dep] key
    holds a position of the household. *)
Definition unit_ok (N : nat) (u : tax_unit) : Prop :=
  unit_wf u /\ cnt_wf (cnt u) /\
  (forall i, 1 <= i <= 15 -> is_Some (slots u !! i)) /\
  (forall k d, dep u !! k = Some d -> 0 <= d < Z.of_nat N).

(** What [computation] keeps true of its state while it builds the units
    of the household [house], the first [k] persons being done. *)
Definition state_ok (house : list person) (k : nat) (st : state) : Prop :=
  units_follow house k st /\
  Forall (unit_ok (length house)) (house_units st) /\
  nunits st = Z.of_nat (length (house_units st)).

(** A single unit without income and with three dependents. *)
Definition single_three_dependents : tax_unit :=
  mkUnit (mkIncomes 0 0 0 0 0 0 0 0 0 0) false 1 1 1 1 0 1 1
         40 0 None 1 (mkCounters 1 1 3 3 0 1 0 1 3 3) 3
         (list_to_map [(1, 1); (2, 2); (3, 3)])
         (list_to_map [(1, Some 5); (2, Some 9); (3, Some 16)])
         bens0 slots0 6 true.

(** An earner and a child of sixteen with wages of 3000. *)
Definition earner_and_earning_child : list person :=
  [ row 1 0 1 7 40 1 1 1 50000 0 0 0;
    row 2 0 5 7 16 1 1 1 3000 0 0 0 ].

(** * Properties *)

(** ** Evaluations on the example households *)

Ltac run := vm_compute; reflexivity.

(** C1. For a married couple with a child under one year of age the emitted
    unit is joint with one dependent; the provisional person count (1 + 1,
    as [txpye] is 2 for a single and 1 for any other unit) agrees with the
    sum of the age counters, which leave out the child of age 0, so that the
    counts are not recomputed and [xxtot] is 2: it is not the filer count
    plus the dependent count, 3. *)
Theorem output_xxtot_joint_infant (py : python) :
  exists unit r,
    computation py couple_with_infant = Ok ([unit], [r]) /\
    js unit = 2 /\ depne unit = 1 /\ xxtot r = 2 /\
    xxtot r <> filer_count unit + depne unit.
Proof.
  destruct py; eexists _, _; (split; [run|]); vm_compute;
    repeat split; congruence.
Qed.

(** C2. A married head whose spouse pointer is not returned by any member
    of the household: the loop that locates the spouse binds nothing, the
    next statement reads the unbound [spouse], and [create], with it the
    whole run, ends in an exception. *)
Theorem create_one_sided_spouse_raises (py : python) :
  create 0 0 one_sided_spouse = Raise UnboundLocalError /\
  computation py one_sided_spouse = Raise UnboundLocalError.
Proof. destruct py; split; run. Qed.

(** C3. The first unit of the household is single, is no dependent, has a
    dependent and all of the household's positive income, and yet stays
    single: under Python 2 every call of [hhstatus] examines the last unit
    of the household, under Python 3 [hhstatus] is never called. *)
Theorem hhstatus_skips_first_unit (py : python) :
  exists u0 u1 outs,
    computation py earner_child_boarder = Ok ([u0; u1], outs) /\
    0 < totincx u0 + totincx u1 /\
    99 * (totincx u0 + totincx u1) < 100 * totincx u0 /\
    u_ifdept u0 = false /\ 0 < depne u0 /\
    js u0 = 1.
Proof.
  destruct py; eexists _, _, _; (split; [run|]); vm_compute;
    repeat split; congruence.
Qed.

(** C6. A relative of thirty whose only income is 1300 of interest: the ten
    streams, each counted once, add up to 1300, which is at most 2500, but
    [ifdept] adds the interest twice, finds 2600, and fails the income
    test; the person is not attached although the support test passes. *)
Theorem ifdept_counts_interest_twice :
  exists house unit p,
    create 0 0 earner_and_saver = Ok (1, house, unit) /\
    earner_and_saver !! 1%nat = Some p /\
    spec_aggregate_income p = 1300 /\ spec_income_test p unit = true /\
    ifdept_income p = 2600 /\ ifdept_test4 p unit = false /\
    ifdept_test5 p unit = true /\ ifdept p unit = false /\
    depne unit = 0.
Proof.
  eexists _, _, _; (split; [run|]); (split; [reflexivity|]);
    vm_compute; repeat split; congruence.
Qed.

(** C8. A joint unit with a dependent of seventy: the counts disagree, they
    are computed again, but [elderly_dependent] was not set to zero before,
    so that the one elderly dependent is counted twice. *)
Theorem output_keeps_elderly_dependent (py : python) :
  exists unit r c,
    computation py couple_with_parent = Ok ([unit], [r]) /\
    depne unit = 1 /\ elderly_dependent (cnt unit) = 1 /\
    xxtot r = 3 /\
    spec_recount unit couple_with_parent = Ok c /\
    elderly_dependent c = 1 /\
    elderly_dependent (o_cnt r) = 2.
Proof.
  destruct py; eexists _, _, _; (split; [run|]);
    repeat split; vm_compute; reflexivity.
Qed.

(** ** Counterexamples *)

(** C5. Folding the second of two single units into the first, as [search]
    does: the sums over all units of the household of the dependent counts,
    of the age counters and of the benefit totals all change. *)
Lemma merge_changes_household_sums :
  exists units units',
    two_singles_units = Ok units /\
    search 2 units = Ok units' /\ fold_unit 1 0 units = Ok units' /\
    sum_depne units' <> sum_depne units /\
    sum_cnt units' <> sum_cnt units /\
    sum_tot units' <> sum_tot units.
Proof.
  eexists _, _; (split; [run|]); (split; [run|]); (split; [run|]);
    vm_compute; repeat split; congruence.
Qed.

(** C7. A head of household of 66 with a pension of 9000, a business loss
    of 500 and a dependent: the exception for elderly heads of household is
    tested before the negative income, and the unit is not a filer. *)
Lemma filst_carve_out_before_negative_income :
  exists unit r,
    computation Python2 pensioner_with_loss = Ok ([unit], [r]) /\
    bil (inc unit) < 0 /\ js unit = 3 /\ agede unit = 1 /\
    filst_income unit = 8500 /\ depne unit = 1 /\
    filst unit = 0 /\ o_filst r = 0.
Proof.
  eexists _, _; (split; [run|]); vm_compute; repeat split; congruence.
Qed.


(** C10. A unit with three dependents that meets both conditions of
    [search]: its round converts it twice, and the dependent count of the
    top unit grows by five, less than twice three. *)
Lemma double_convert_adds_dependents_once :
  exists top src units' top',
    subfamily_units = Ok [top; src] /\
    search_top [top; src] = Ok (50000, 0%nat) /\
    convert1 50000 0 1 src = true /\ u_ftype src = 1 /\
    totincx src = 3000 /\ relcode src = 11 /\
    search_step 50000 0 1 [top; src] = Ok units' /\
    units' !! 0%nat = Some top' /\
    depne top = 0 /\ depne src = 3 /\ depne top' = 5 /\
    depne top' < depne top + 2 * depne src /\
    depne top' <> depne top + 2 * (depne src + 1).
Proof.
  eexists _, _, _, _; (split; [run|]); (split; [run|]).
  do 4 (split; [run|]). split; [run|]. split; [reflexivity|].
  do 3 (split; [run|]). split; [run|]. vm_compute; congruence.
Qed.


(** ** Exceptions and loops *)

Lemma bind_Ok {A B : Type} (m : result A) (k : A -> result B) (b : B) :
  (m ≫= k) = Ok b -> exists a, m = Ok a /\ k a = Ok b.
Proof. destruct m as [a|e]; simpl; [eauto | discriminate]. Qed.

Lemma for_in_app {A S : Type} (l1 l2 : list A) (body : A -> S -> result S)
  (s : S) :
  for_in (l1 ++ l2) body s = (for_in l1 body s ≫= for_in l2 body).
Proof.
  revert s. induction l1 as [|x l1 IH]; intros s; simpl.
  - reflexivity.
  - destruct (body x s); simpl; [apply IH | reflexivity].
Qed.

(** A property kept by every round of a loop holds when the loop ends. *)
Lemma for_in_invariant {A S : Type} (P : S -> Prop) (l : list A)
  (body : A -> S -> result S) :
  (forall x s s', x ∈ l -> body x s = Ok s' -> P s -> P s') ->
  forall s s', for_in l body s = Ok s' -> P s -> P s'.
Proof.
  induction l as [|x l IH]; intros Hbody s s' Hrun HP; simpl in Hrun.
  - congruence.
  - apply bind_Ok in Hrun as (s1 & Hx & Hrest).
    apply (IH (fun y t t' Hy => Hbody y t t' (list_elem_of_further _ _ _ Hy))
              s1 s' Hrest).
    apply (Hbody x s s1); [apply list_elem_of_here | assumption..].
Qed.

(** A loop whose rounds cannot fail on the states it reaches runs to its
    end. *)
Lemma for_in_total {A S : Type} (P : S -> Prop) (l : list A)
  (body : A -> S -> result S) :
  (forall x s, x ∈ l -> P s -> exists s', body x s = Ok s' /\ P s') ->
  forall s, P s -> exists s', for_in l body s = Ok s' /\ P s'.
Proof.
  induction l as [|x l IH]; intros Hbody s HP; simpl.
  - eauto.
  - destruct (Hbody x s) as (s1 & Hx & HP1);
      [apply list_elem_of_here | assumption |].
    rewrite Hx; simpl. apply IH; [|assumption].
    intros y t Hy. apply Hbody. by apply list_elem_of_further.
Qed.

(** ** The filing test *)

Lemma filst_fils_carve_out (r : tax_unit) :
  filst_fils r = true <-> carve_out r.
Proof.
  unfold filst_fils, carve_out.
  rewrite !andb_true_iff, Z.eqb_eq, !Z.ltb_lt. tauto.
Qed.

(** C7, as amended.  A unit with negative business, farm or rental income
    is a filer unless it is a head of household with an elderly filer, an
    income above 6500 and a dependent; such a unit is no filer when none of
    the wage, gross income and dependent filer tests made it one. *)
Theorem filst_negative_income (r : tax_unit) :
  negative_income r ->
  (~ carve_out r -> filst r = 1) /\
  (carve_out r -> filst_tests r = false -> u_ifdept r = false ->
   filst r = 0).
Proof.
  intros Hneg. unfold filst. split.
  - intros Hno.
    destruct (filst_tests r); [reflexivity|].
    destruct (u_ifdept r); [reflexivity|].
    destruct (filst_fils r) eqn:Hf.
    + apply filst_fils_carve_out in Hf. contradiction.
    + assert (Hb : (bil (inc r) <? 0) || (fil (inc r) <? 0)
                   || (rents (inc r) <? 0) = true).
      { rewrite !orb_true_iff, !Z.ltb_lt. unfold negative_income in Hneg.
        tauto. }
      rewrite Hb. reflexivity.
  - intros Hc Ht Hd. rewrite Ht, Hd.
    apply filst_fils_carve_out in Hc. rewrite Hc. reflexivity.
Qed.

Lemma filst_negative_income_witness :
  negative_income single_with_loss /\ filst single_with_loss = 1.
Proof.
  assert (Hneg : negative_income single_with_loss).
  { left. vm_compute. reflexivity. }
  split; [exact Hneg|].
  apply (filst_negative_income single_with_loss Hneg).
  intros [Hjs _]. vm_compute in Hjs. discriminate.
Defined.
(** ** The merge *)

(** The number of dependent slots the filers of a folded unit take in
    the target. *)
Lemma convert_deps_loop (b : Z) (l : list Z) :
  forall x y x' y',
    for_in l (convert_deps b) (x, y) = Ok (x', y') ->
    erase_deps x' = erase_deps x /\ erase_deps y' = erase_deps y /\
    (forall k, (forall nd, nd ∈ l -> k <> b + nd) -> dep y' !! k = dep y !! k).
Proof.
  induction l as [|nd l IH]; intros x y x' y' Hrun; simpl in Hrun.
  - injection Hrun as <- <-. auto.
  - apply bind_Ok in Hrun as ([x1 y1] & Hstep & Hrest).
    unfold convert_deps in Hstep.
    apply bind_Ok in Hstep as (d & _ & Hstep).
    apply bind_Ok in Hstep as (a & _ & Hstep).
    injection Hstep as <- <-.
    apply IH in Hrest as (Hx & Hy & Hk).
    split; [exact Hx|]. split; [exact Hy|].
    intros k Hne. rewrite Hk.
    + simpl. apply lookup_insert_ne. intros Heq. apply (Hne nd); [left|lia].
    + intros nd' Hin. apply Hne. by right.
Qed.

Lemma convert_deps_loop_total (b : Z) (l : list Z) :
  forall x y,
    (forall nd, nd ∈ l -> is_Some (dep x !! nd) /\ is_Some (depage x !! nd)) ->
    exists x' y', for_in l (convert_deps b) (x, y) = Ok (x', y').
Proof.
  induction l as [|nd l IH]; intros x y Hkeys; simpl.
  - eauto.
  - destruct (Hkeys nd) as [[d Hd] [a Ha]]; [left|].
    unfold convert_deps at 1. unfold getkey. rewrite Hd. simpl.
    rewrite Ha. simpl. apply IH.
    intros nd' Hin. destruct (Hkeys nd') as [Hd' Ha']; [by right|].
    split; [|exact Ha']. simpl.
    apply lookup_insert_is_Some. destruct (decide (b + nd = nd')); auto.
Qed.

Lemma convert_slot_loop (x : tax_unit) (l : list Z) :
  forall y y',
    for_in l (convert_slot x) y = Ok y' ->
    erase_slots y' = erase_slots y.
Proof.
  induction l as [|i l IH]; intros y y' Hrun; simpl in Hrun.
  - by injection Hrun as <-.
  - apply bind_Ok in Hrun as (y1 & Hstep & Hrest).
    unfold convert_slot in Hstep.
    apply bind_Ok in Hstep as (pv & _ & Hstep).
    injection Hstep as <-.
    by apply IH in Hrest as ->.
Qed.

Lemma convert_slot_loop_total (x : tax_unit) (l : list Z) (y : tax_unit) :
  (forall i, i ∈ l -> is_Some (slots x !! i)) ->
  exists y', for_in l (convert_slot x) y = Ok y'.
Proof.
  revert y. induction l as [|i l IH]; intros y Hkeys; simpl.
  - eauto.
  - destruct (Hkeys i) as [pv Hpv]; [left|].
    assert (Hs : exists y1, convert_slot x i y = Ok y1).
    { unfold convert_slot, getkey. rewrite Hpv. simpl. eauto. }
    destruct Hs as [y1 ->]. simpl.
    apply IH. intros i' Hin. apply Hkeys. by right.
Qed.


(** What [convert] does to the unit it folds and to the target: the keys
    without a number, and the slot of the target the folded head takes. *)
Lemma convert_pair_spec (ix : nat) (x y x' y' : tax_unit) :
  convert_pair ix x y = Ok (x', y') ->
  erase_deps x' = erase_deps (set_depne 0 (set_ifdept true x)) /\
  erase_slots (erase_deps y') =
    erase_slots (erase_deps
      (set_tot (bens_add (tot y) (tot x))
         (set_cnt (counters_add (cnt y) (cnt x))
            (set_depne (depne y + (depne x + (if js x =? 2 then 2 else 1)))
               y)))) /\
  dep y' !! (depne y + 1) = Some (Z.of_nat ix) /\
  (forall k, k <= depne y -> dep y' !! k = dep y !! k).
Proof.
  unfold convert_pair. intros Hrun.
  destruct (js x =? 2) eqn:Hjs; cbn [js set_depne set_ifdept] in Hrun;
    rewrite Hjs in Hrun.
  all: apply bind_Ok in Hrun as ([x1 y1] & Hdeps & Hrun).
  all: apply bind_Ok in Hrun as (y2 & Hslots & Hrun).
  all: injection Hrun as <- <-.
  all: apply convert_slot_loop in Hslots.
  all: destruct (0 <? _) eqn:Hpos in Hdeps.
  all: first [ apply convert_deps_loop in Hdeps as (Hx & Hy & Hk)
             | apply (convert_deps_loop 0 []) in Hdeps as (Hx & Hy & Hk) ].
  all: assert (Hd2 : dep y2 = dep y1) by
         (apply (f_equal dep) in Hslots; exact Hslots).
  all: split; [|split; [|split; [|intros k0 Hk0]]].
  all: try (rewrite Hd2; try rewrite Hk;
            [ cbn [dep set_dep set_depage set_depne];
              rewrite ?lookup_insert_eq;
              repeat (rewrite lookup_insert_ne by lia);
              rewrite ?lookup_insert_eq; reflexivity
            | intros nd Hnd;
              first [ apply elem_of_seqZ in Hnd; lia
                    | by apply elem_of_nil in Hnd ] .. ]).
  all: clear Hk Hd2.
  all: repeat match goal with u : tax_unit |- _ => destruct u end.
  all: simplify_eq/=; reflexivity.
Qed.

(** [convert] finds every key it reads in a unit whose numbered keys are
    all there. *)
Lemma convert_pair_total (ix : nat) (x y : tax_unit) :
  deps_wf x -> slots_wf x ->
  exists x' y', convert_pair ix x y = Ok (x', y').
Proof.
  intros Hdeps Hslots. unfold convert_pair.
  cbn [js depne set_depne set_ifdept].
  set (x0 := set_depne 0 (set_ifdept true x)).
  destruct (js x =? 2);
    match goal with
    | |- context [for_in (seqZ 1 (depne x)) (convert_deps ?b) (x0, ?y0)] =>
      assert (Hloop : exists x1 y1,
                 (if 0 <? depne x
                  then for_in (seqZ 1 (depne x)) (convert_deps b) (x0, y0)
                  else Ok (x0, y0)) = Ok (x1, y1) /\
                 erase_deps x1 = erase_deps x0)
    end.
  1, 3: destruct (0 <? depne x);
    [ match goal with
      | |- context [for_in ?l (convert_deps ?b) (?x0', ?y0)] =>
        destruct (convert_deps_loop_total b l x0' y0) as (x1 & y1 & Hrun);
          [ intros nd Hnd%elem_of_seqZ; apply Hdeps; lia
          | exists x1, y1; split; [exact Hrun|];
            by apply convert_deps_loop in Hrun as (? & _) ]
      end
    | eauto ].
  all: destruct Hloop as (x1 & y1 & -> & Hx1); cbn [mbind result_bind].
  all: match goal with
       | |- context [for_in ?l (convert_slot ?x1') ?y0] =>
         destruct (convert_slot_loop_total x1' l y0) as (y2 & ->);
           [| cbn [mbind result_bind]; eauto ]
       end.
  all: intros i Hi%elem_of_seqZ.
  all: assert (Hs : slots x1 = slots x) by exact (f_equal slots Hx1).
  all: assert (Hb : ben_number x1 = ben_number x)
         by exact (f_equal ben_number Hx1).
  all: rewrite Hs; apply Hslots; lia.
Qed.

(** ** Units addressed by position *)

Lemma alter_as_insert {A : Type} (f : A -> A) (l : list A) (i : nat) (x : A) :
  l !! i = Some x -> alter f i l = <[i := f x]> l.
Proof.
  revert i. induction l as [|a l IH]; intros [|i] Hl; simplify_eq/=.
  - reflexivity.
  - f_equal. by apply IH.
Qed.

Lemma fold_unit_eq (ix iy : nat) (units : list tax_unit) (x y : tax_unit) :
  units !! ix = Some x -> units !! iy = Some y -> ix <> iy ->
  fold_unit ix iy units =
    (convert_pair ix (set_t_flag false x) y ≫=
       fun xy => Ok (<[iy := xy.2]> (<[ix := xy.1]> units))).
Proof.
  intros Hx Hy Hne. unfold fold_unit, convert.
  rewrite list_lookup_alter_eq, Hx, list_lookup_alter_ne, Hy by done.
  cbn [fmap option_fmap option_map].
  destruct (convert_pair ix (set_t_flag false x) y) as [[x' y']|e];
    cbn [mbind result_bind]; [|reflexivity].
  rewrite (alter_as_insert _ _ _ _ Hx), list_insert_insert_eq. reflexivity.
Qed.

(** ** Sums over the surviving units *)

Lemma sum_surviving_insert (f : tax_unit -> Z) (l : list tax_unit) (i : nat)
  (old new : tax_unit) :
  l !! i = Some old ->
  sum_surviving f (<[i := new]> l) =
    sum_surviving f l - weight f old + weight f new.
Proof.
  revert i. induction l as [|a l IH]; intros [|i] Hl; simplify_eq/=.
  - lia.
  - rewrite (IH i) by done. lia.
Qed.

Lemma sum_depne_surviving (l : list tax_unit) :
  sum_depne (surviving l) = sum_surviving depne l.
Proof.
  unfold sum_depne, sum_surviving, surviving, weight.
  induction l as [|a l IH]; [reflexivity|].
  rewrite filter_cons.
  destruct (decide (t_flag a = true)) as [Ht|Hf]; simpl;
    [rewrite Ht | apply not_true_is_false in Hf; rewrite Hf];
    rewrite IH; reflexivity.
Qed.

Lemma sum_cnt_surviving (l : list tax_unit) :
  sum_cnt (surviving l) =
    mkCounters (sum_surviving (fun u => nu05 (cnt u)) l)
               (sum_surviving (fun u => nu13 (cnt u)) l)
               (sum_surviving (fun u => nu18_dep (cnt u)) l)
               (sum_surviving (fun u => nu18 (cnt u)) l)
               (sum_surviving (fun u => n1820 (cnt u)) l)
               (sum_surviving (fun u => n21 (cnt u)) l)
               (sum_surviving (fun u => elderly_dependent (cnt u)) l)
               (sum_surviving (fun u => f2441 (cnt u)) l)
               (sum_surviving (fun u => EIC (cnt u)) l)
               (sum_surviving (fun u => n24 (cnt u)) l).
Proof.
  unfold sum_cnt, sum_surviving, surviving, weight.
  induction l as [|a l IH]; [reflexivity|].
  rewrite filter_cons.
  destruct (decide (t_flag a = true)) as [Ht|Hf]; simpl;
    [rewrite Ht | apply not_true_is_false in Hf; rewrite Hf];
    rewrite IH; reflexivity.
Qed.

(** The surviving sum of an amount after a unit was folded into another. *)
Lemma sum_surviving_fold (f : tax_unit -> Z) (ix iy : nat)
  (units : list tax_unit) (x y x' y' : tax_unit) :
  units !! ix = Some x -> units !! iy = Some y -> ix <> iy ->
  t_flag x = true -> t_flag y = true ->
  t_flag x' = false -> t_flag y' = true ->
  sum_surviving f (<[iy := y']> (<[ix := x']> units)) =
    sum_surviving f units - f x - f y + f y'.
Proof.
  intros Hx Hy Hne Hfx Hfy Hfx' Hfy'.
  rewrite (sum_surviving_insert f _ iy y y')
    by (by rewrite list_lookup_insert_ne).
  rewrite (sum_surviving_insert f _ ix x x') by done.
  unfold weight. rewrite Hfx, Hfy, Hfx', Hfy'. lia.
Qed.

(** C5, as amended.  A unit that is still a tax unit and whose numbered
    keys are all there is folded into another surviving unit without
    exception.  Afterwards it is no tax unit any more, the target is one
    still, and every other unit is as it was.  The folded unit keeps its
    age counters and its benefit totals.  The age counters and the
    dependent counts are integers in the code: the sums over the surviving
    units of every age counter are what they were, and the sum of the
    dependent counts has grown by the filers of the folded unit (1, or 2
    for a joint unit).  The benefit totals are floating point numbers in
    the code, and what holds of them is the one addition [convert] makes
    for each: the total of the target is its total before plus the total of
    the folded unit, in this order. *)
Theorem fold_unit_hands_over (ix iy : nat) (units : list tax_unit)
  (x y : tax_unit) :
  units !! ix = Some x -> units !! iy = Some y -> ix <> iy ->
  t_flag x = true -> t_flag y = true -> deps_wf x -> slots_wf x ->
  exists units' x' y',
    fold_unit ix iy units = Ok units' /\
    units' !! ix = Some x' /\ units' !! iy = Some y' /\
    (forall j, j <> ix -> j <> iy -> units' !! j = units !! j) /\
    t_flag x' = false /\ (x' ∉ surviving units') /\ t_flag y' = true /\
    cnt x' = cnt x /\ tot x' = tot x /\
    tot y' = bens_add (tot y) (tot x) /\
    sum_cnt (surviving units') = sum_cnt (surviving units) /\
    sum_depne (surviving units') =
      sum_depne (surviving units) + (if js x =? 2 then 2 else 1).
Proof.
  intros Hx Hy Hne Hfx Hfy Hdeps Hslots.
  destruct (convert_pair_total ix (set_t_flag false x) y) as (x' & y' & Hc);
    [exact Hdeps | exact Hslots |].
  rewrite (fold_unit_eq ix iy units x y Hx Hy Hne), Hc.
  cbn [mbind result_bind fst snd].
  apply convert_pair_spec in Hc as (Hx' & Hy' & _).
  assert (Hfx' : t_flag x' = false) by exact (f_equal t_flag Hx').
  assert (Hfy' : t_flag y' = true)
    by (rewrite <- Hfy; exact (f_equal t_flag Hy')).
  assert (Hcnt : cnt y' = counters_add (cnt y) (cnt x))
    by exact (f_equal cnt Hy').
  assert (Htot : tot y' = bens_add (tot y) (tot x))
    by exact (f_equal tot Hy').
  assert (Hdep : depne y' = depne y + (depne x + (if js x =? 2 then 2 else 1)))
    by exact (f_equal depne Hy').
  pose proof (lookup_lt_Some _ _ _ Hx) as Hlx.
  pose proof (lookup_lt_Some _ _ _ Hy) as Hly.
  exists (<[iy := y']> (<[ix := x']> units)), x', y'.
  split; [reflexivity|].
  split.
  { rewrite list_lookup_insert_ne by done. by apply list_lookup_insert_eq. }
  split.
  { apply list_lookup_insert_eq. by rewrite length_insert. }
  split.
  { intros j Hj1 Hj2. by rewrite !list_lookup_insert_ne. }
  split; [exact Hfx'|].
  split.
  { unfold surviving. rewrite list_elem_of_filter. intros [Ht _]. congruence. }
  split; [exact Hfy'|].
  split; [exact (f_equal cnt Hx')|]. split; [exact (f_equal tot Hx')|].
  split; [exact Htot|].
  rewrite !sum_cnt_surviving, !sum_depne_surviving.
  rewrite !(sum_surviving_fold _ ix iy units x y x' y') by done.
  rewrite Hcnt, Hdep. cbn [counters_add
    nu05 nu13 nu18_dep nu18 n1820 n21 elderly_dependent f2441 EIC n24].
  split; [f_equal; lia | lia].
Qed.

(** ** The reconciliation pass *)

Lemma py_index_nat {A : Type} (l : list A) (i : nat) (a : A) :
  l !! i = Some a -> py_index l (Z.of_nat i) = Ok a.
Proof.
  intros Hl. unfold py_index.
  pose proof (lookup_lt_Some _ _ _ Hl) as Hlt.
  replace (Z.of_nat i <? 0) with false by (symmetry; apply Z.ltb_ge; lia).
  replace (0 <=? Z.of_nat i) with true by (symmetry; apply Z.leb_le; lia).
  replace (Z.of_nat i <? Z.of_nat (length l)) with true
    by (symmetry; apply Z.ltb_lt; lia).
  simpl. rewrite Nat2Z.id, Hl. reflexivity.
Qed.

Lemma convert1_true (highest : Z) (idxhigh ix : nat) (unit : tax_unit) :
  convert1 highest idxhigh ix unit = true <->
  ix <> idxhigh /\ u_ifdept unit = false /\ 0 < highest /\ js unit <> 2.
Proof.
  unfold convert1.
  rewrite !andb_true_iff, !negb_true_iff, bool_decide_eq_false,
    Z.ltb_lt, Z.eqb_neq. tauto.
Qed.

(** C10, as amended.  A unit that meets the general conditions of a fold,
    has a family type among 1, 3 and 5, an income of at most 3000 and the
    relationship code 11 is converted twice in its round of [search].  The
    age counters and the benefit totals of the unit are added to the top
    unit twice; its dependent count is added once, the first conversion
    having set it to zero, so that the dependent count of the top unit
    grows by that count plus two; and the head of the unit takes two
    dependent slots of the top unit. *)
Theorem search_step_converts_twice (highest : Z) (idxhigh ix : nat)
  (units : list tax_unit) (src top : tax_unit) :
  units !! ix = Some src -> units !! idxhigh = Some top ->
  convert1 highest idxhigh ix src = true ->
  u_ftype src = 1 \/ u_ftype src = 3 \/ u_ftype src = 5 ->
  totincx src <= 3000 -> relcode src = 11 ->
  0 <= depne src -> deps_wf src -> slots_wf src ->
  exists units1 units2 src' top',
    fold_unit ix idxhigh units = Ok units1 /\
    fold_unit ix idxhigh units1 = Ok units2 /\
    search_step highest idxhigh (Z.of_nat ix) units = Ok units2 /\
    units2 !! ix = Some src' /\ units2 !! idxhigh = Some top' /\
    t_flag src' = false /\ depne src' = 0 /\
    depne top' = depne top + depne src + 2 /\
    cnt top' = counters_add (counters_add (cnt top) (cnt src)) (cnt src) /\
    tot top' = bens_add (bens_add (tot top) (tot src)) (tot src) /\
    dep top' !! (depne top + 1) = Some (Z.of_nat ix) /\
    dep top' !! (depne top + depne src + 2) = Some (Z.of_nat ix).
Proof.
  intros Hsrc Htop Hc1 Hft Hinc Hrel Hnn Hdeps Hslots.
  pose proof Hc1 as (Hne & Hnd & Hpos & Hjs)%convert1_true.
  (* the first conversion *)
  destruct (convert_pair_total ix (set_t_flag false src) top)
    as (x1 & y1 & Hp1); [exact Hdeps | exact Hslots |].
  pose proof (fold_unit_eq ix idxhigh units src top Hsrc Htop Hne) as Hf1.
  rewrite Hp1 in Hf1. cbn [mbind result_bind fst snd] in Hf1.
  set (units1 := <[idxhigh := y1]> (<[ix := x1]> units)) in *.
  assert (Hlen : (ix < length units)%nat) by (by eapply lookup_lt_Some).
  assert (Hlen' : (idxhigh < length units)%nat) by (by eapply lookup_lt_Some).
  assert (Hx1 : units1 !! ix = Some x1).
  { unfold units1. rewrite list_lookup_insert_ne by done.
    by apply list_lookup_insert_eq. }
  assert (Hy1 : units1 !! idxhigh = Some y1).
  { unfold units1. apply list_lookup_insert_eq. by rewrite length_insert. }
  apply convert_pair_spec in Hp1 as (Ex1 & Ey1 & Hd1 & _).
  (* the second conversion *)
  destruct (convert_pair_total ix (set_t_flag false x1) y1)
    as (x2 & y2 & Hp2).
  { intros k Hk. exfalso. revert Hk.
    replace (depne (set_t_flag false x1)) with 0
      by (symmetry; exact (f_equal depne Ex1)). lia. }
  { intros i Hi.
    replace (slots (set_t_flag false x1)) with (slots src)
      by (symmetry; exact (f_equal slots Ex1)).
    apply Hslots.
    replace (ben_number src) with (ben_number (set_t_flag false x1))
      by exact (f_equal ben_number Ex1). exact Hi. }
  pose proof (fold_unit_eq ix idxhigh units1 x1 y1 Hx1 Hy1 Hne) as Hf2.
  rewrite Hp2 in Hf2. cbn [mbind result_bind fst snd] in Hf2.
  set (units2 := <[idxhigh := y2]> (<[ix := x2]> units1)) in *.
  apply convert_pair_spec in Hp2 as (Ex2 & Ey2 & Hd2 & Hk2).
  exists units1, units2, x2, y2.
  split; [exact Hf1|]. split; [exact Hf2|].
  split.
  { unfold search_step. rewrite (py_index_nat _ _ _ Hsrc).
    cbn [mbind result_bind]. rewrite Nat2Z.id, Hc1, Hrel.
    replace ((u_ftype src =? 1) || (u_ftype src =? 3) || (u_ftype src =? 5))
      with true
      by (symmetry; rewrite !orb_true_iff, !Z.eqb_eq; tauto).
    destruct (totincx src <=? 0) eqn:Hle.
    - rewrite Hf1. cbn [mbind result_bind].
      replace (0 <? totincx src) with false
        by (symmetry; apply Z.ltb_ge; apply Z.leb_le in Hle; lia).
      cbn [andb mbind result_bind]. exact Hf2.
    - cbn [mbind result_bind].
      replace (0 <? totincx src) with true
        by (symmetry; apply Z.ltb_lt; apply Z.leb_gt in Hle; lia).
      replace (totincx src <=? 3000) with true
        by (symmetry; apply Z.leb_le; lia).
      cbn [andb]. rewrite Hf1. cbn [mbind result_bind]. exact Hf2. }
  split.
  { unfold units2. rewrite list_lookup_insert_ne by done.
    apply list_lookup_insert_eq. unfold units1.
    by rewrite length_insert, length_insert. }
  split.
  { unfold units2. apply list_lookup_insert_eq. unfold units1.
    by rewrite !length_insert. }
  assert (Hjs1 : js x1 = js src) by exact (f_equal js Ex1).
  assert (Hdx1 : depne x1 = 0) by exact (f_equal depne Ex1).
  assert (Hdy1 : depne y1 = depne top + (depne src + 1)).
  { pose proof (f_equal depne Ey1) as H. cbn in H.
    apply Z.eqb_neq in Hjs. rewrite Hjs in H. exact H. }
  assert (Hdy2 : depne y2 = depne y1 + (depne x1 + 1)).
  { pose proof (f_equal depne Ey2) as H. cbn in H.
    rewrite Hjs1 in H. apply Z.eqb_neq in Hjs. rewrite Hjs in H. exact H. }
  split; [exact (f_equal t_flag Ex2)|].
  split; [exact (f_equal depne Ex2)|].
  split; [lia|].
  split.
  { pose proof (f_equal cnt Ey2) as H2. pose proof (f_equal cnt Ey1) as H1.
    pose proof (f_equal cnt Ex1) as H0. cbn in H0, H1, H2.
    by rewrite H2, H1, H0. }
  split.
  { pose proof (f_equal tot Ey2) as H2. pose proof (f_equal tot Ey1) as H1.
    pose proof (f_equal tot Ex1) as H0. cbn in H0, H1, H2.
    by rewrite H2, H1, H0. }
  split.
  - rewrite Hk2 by lia. exact Hd1.
  - replace (depne top + depne src + 2) with (depne y1 + 1) by lia. exact Hd2.
Qed.

Lemma py_list_index_NoDup {A : Type} `{EqDecision A} (l : list A) (i : nat)
  (x : A) :
  NoDup l -> l !! i = Some x -> py_list_index x l = Ok i.
Proof.
  intros Hnd Hl. unfold py_list_index.
  destruct (list_find (fun y => y = x) l) as [[j y]|] eqn:Hfind.
  - apply list_find_Some in Hfind as (Hj & -> & _).
    by rewrite (NoDup_lookup l j i x Hnd Hj Hl).
  - apply list_find_None in Hfind.
    rewrite Forall_forall in Hfind.
    destruct (Hfind x); [by eapply list_elem_of_lookup_2 | reflexivity].
Qed.

Lemma py_index_nonneg {A : Type} (l : list A) (i : Z) (a : A) :
  0 <= i -> py_index l i = Ok a -> l !! Z.to_nat i = Some a.
Proof.
  intros Hi. unfold py_index.
  replace (i <? 0) with false by (symmetry; apply Z.ltb_ge; lia).
  destruct ((0 <=? i) && (i <? Z.of_nat (length l))); [|discriminate].
  destruct (l !! Z.to_nat i); [congruence | discriminate].
Qed.

Lemma search_top_loop (units : list tax_unit) :
  NoDup units ->
  forall suf pre h i,
    units = pre ++ suf -> top_so_far units pre h i ->
    exists h' i',
      for_in suf
        (fun unit '(highest, idxhigh) =>
           let totinc := totincx unit in
           if highest <=? totinc then
             i ← py_list_index unit units; Ok (totinc, i)
           else Ok (highest, idxhigh))
        (h, i) = Ok (h', i') /\
      top_so_far units units h' i'.
Proof.
  intros Hnd. induction suf as [|u suf IH]; intros pre h i Hunits Hinv.
  - rewrite app_nil_r in Hunits. subst pre. simpl. eauto.
  - assert (Hu : units !! length pre = Some u)
      by (subst units; apply list_lookup_middle; reflexivity).
    cbn [for_in]. cbn beta iota zeta.
    destruct (h <=? totincx u) eqn:Hle.
    + apply Z.leb_le in Hle.
      rewrite (py_list_index_NoDup units (length pre) u Hnd Hu).
      cbn [mbind result_bind].
      apply (IH (pre ++ [u])); [by rewrite <- app_assoc|].
      right. exists u. split; [exact Hu|]. split; [reflexivity|].
      split; [rewrite length_app; simpl; lia|].
      intros j v Hv. apply lookup_snoc_Some in Hv as [[Hj Hv]| [-> ->]].
      * split; [|lia].
        destruct Hinv as [(-> & _ & Hlow) | (top & _ & _ & _ & Hmax)].
        -- apply list_elem_of_lookup_2 in Hv. specialize (Hlow v Hv). lia.
        -- destruct (Hmax j v Hv). lia.
      * split; lia.
    + apply Z.leb_gt in Hle. cbn [mbind result_bind].
      apply (IH (pre ++ [u])); [by rewrite <- app_assoc|].
      destruct Hinv as [(-> & -> & Hlow) | (top & Htop & Hh & Hi & Hmax)].
      * left. split; [reflexivity|]. split; [reflexivity|].
        intros v [Hv | ->%list_elem_of_singleton]%elem_of_app; auto.
      * right. exists top. split; [exact Htop|]. split; [exact Hh|].
        split; [rewrite length_app; simpl; lia|].
        intros j v Hv. apply lookup_snoc_Some in Hv as [[Hj Hv]| [-> ->]].
        -- by apply Hmax.
        -- split; lia.
Qed.

(** The target of the folds: the last unit with the highest total income. *)
Lemma search_top_spec (units : list tax_unit) :
  NoDup units ->
  (exists u, u ∈ units /\ highest0 <= totincx u) ->
  exists highest idxhigh top,
    search_top units = Ok (highest, idxhigh) /\
    units !! idxhigh = Some top /\ totincx top = highest /\
    (forall u, u ∈ units -> totincx u <= highest) /\
    (forall j u, units !! j = Some u -> (idxhigh < j)%nat ->
                 totincx u < highest).
Proof.
  intros Hnd (u0 & Hin0 & Hbound).
  destruct (search_top_loop units Hnd units [] highest0 0%nat)
    as (h & i & Hrun & Hinv); [reflexivity | |].
  { left. split; [reflexivity|]. split; [reflexivity|].
    intros u Hu. by apply elem_of_nil in Hu. }
  destruct Hinv as [(_ & _ & Hlow) | (top & Htop & Hh & _ & Hmax)].
  { specialize (Hlow u0 Hin0). lia. }
  exists h, i, top. split; [exact Hrun|]. split; [exact Htop|].
  split; [exact Hh|]. split.
  - intros u [j Hj]%list_elem_of_lookup_1. by destruct (Hmax j u Hj).
  - intros j u Hj Hlt. destruct (Hmax j u Hj) as [_ Hstrict]. auto.
Qed.

(** A fold touches the folded unit and the target only, and leaves the
    target a tax unit if it was one. *)
Lemma fold_unit_frame (ix iy : nat) (us us' : list tax_unit) :
  ix <> iy -> fold_unit ix iy us = Ok us' ->
  length us' = length us /\
  (forall j, j <> ix -> j <> iy -> us' !! j = us !! j) /\
  (forall y y', us !! iy = Some y -> us' !! iy = Some y' ->
                t_flag y' = t_flag y).
Proof.
  intros Hne Hrun.
  destruct (us !! ix) as [x|] eqn:Hx; cycle 1.
  { unfold fold_unit, convert in Hrun.
    rewrite list_lookup_alter_eq, Hx in Hrun. discriminate. }
  destruct (us !! iy) as [y|] eqn:Hy; cycle 1.
  { unfold fold_unit, convert in Hrun.
    rewrite list_lookup_alter_eq, Hx, list_lookup_alter_ne, Hy in Hrun
      by done. discriminate. }
  rewrite (fold_unit_eq ix iy us x y Hx Hy Hne) in Hrun.
  apply bind_Ok in Hrun as ([x' y'] & Hp & Hrun).
  injection Hrun as <-. cbn [fst snd].
  apply convert_pair_spec in Hp as (_ & Ey & _).
  split; [by rewrite !length_insert|]. split.
  - intros j Hj1 Hj2. by rewrite !list_lookup_insert_ne.
  - intros y0 y0' [= <-] Hy0'.
    rewrite list_lookup_insert_eq in Hy0'
      by (rewrite length_insert; by eapply lookup_lt_Some).
    injection Hy0' as <-. exact (f_equal t_flag Ey).
Qed.

Lemma search_step_frame (h : Z) (idxhigh : nat) (ix : Z)
  (us us' : list tax_unit) :
  0 <= ix -> search_step h idxhigh ix us = Ok us' ->
  length us' = length us /\
  (forall y y', us !! idxhigh = Some y -> us' !! idxhigh = Some y' ->
                t_flag y' = t_flag y) /\
  (us' = us \/
   exists unit, us !! Z.to_nat ix = Some unit /\
     convert1 h idxhigh (Z.to_nat ix) unit = true /\
     forall j, j <> Z.to_nat ix -> j <> idxhigh -> us' !! j = us !! j).
Proof.
  intros Hix Hrun. unfold search_step in Hrun.
  apply bind_Ok in Hrun as (unit & Hunit & Hrun).
  apply py_index_nonneg in Hunit; [|exact Hix].
  destruct (convert1 h idxhigh (Z.to_nat ix) unit) eqn:Hc1; cycle 1.
  { injection Hrun as <-.
    split; [reflexivity|]. split; [congruence | by left]. }
  pose proof Hc1 as (Hne & _)%convert1_true.
  assert (Hfold : forall l l',
             (l' = l \/ fold_unit (Z.to_nat ix) idxhigh l = Ok l') ->
             length l' = length l /\
             (forall j, j <> Z.to_nat ix -> j <> idxhigh ->
                        l' !! j = l !! j) /\
             (forall y y', l !! idxhigh = Some y -> l' !! idxhigh = Some y' ->
                           t_flag y' = t_flag y)).
  { intros l l' [-> | Hf].
    - split; [reflexivity|]. split; [reflexivity|]. congruence.
    - by apply fold_unit_frame. }
  assert (Hchain : forall l1 l2 l3 : list tax_unit,
             (length l2 = length l1 /\
              (forall j, j <> Z.to_nat ix -> j <> idxhigh ->
                         l2 !! j = l1 !! j) /\
              (forall y y', l1 !! idxhigh = Some y ->
                            l2 !! idxhigh = Some y' ->
                            t_flag y' = t_flag y)) ->
             (length l3 = length l2 /\
              (forall j, j <> Z.to_nat ix -> j <> idxhigh ->
                         l3 !! j = l2 !! j) /\
              (forall y y', l2 !! idxhigh = Some y ->
                            l3 !! idxhigh = Some y' ->
                            t_flag y' = t_flag y)) ->
             length l3 = length l1 /\
             (forall j, j <> Z.to_nat ix -> j <> idxhigh ->
                        l3 !! j = l1 !! j) /\
             (forall y y', l1 !! idxhigh = Some y ->
                           l3 !! idxhigh = Some y' ->
                           t_flag y' = t_flag y)).
  { intros l1 l2 l3 (Hl12 & Hf12 & Ht12) (Hl23 & Hf23 & Ht23).
    split; [congruence|]. split.
    - intros j Hj1 Hj2. rewrite Hf23, Hf12 by done. reflexivity.
    - intros y y' Hy Hy'.
      destruct (l2 !! idxhigh) as [y2|] eqn:Hy2.
      + rewrite (Ht23 y2 y' eq_refl Hy'). by apply Ht12.
      + apply lookup_ge_None in Hy2. apply lookup_lt_Some in Hy. lia. }
  apply bind_Ok in Hrun as (us1 & Hmid & Hlast).
  assert (H1 : exists usa,
             (usa = us \/ fold_unit (Z.to_nat ix) idxhigh us = Ok usa) /\
             (us1 = usa \/ fold_unit (Z.to_nat ix) idxhigh usa = Ok us1)).
  { destruct ((u_ftype unit =? 1) || (u_ftype unit =? 3)
              || (u_ftype unit =? 5)); cycle 1.
    { injection Hmid as <-. exists us. auto. }
    apply bind_Ok in Hmid as (usa & Ha & Hb). exists usa. split.
    - destruct (totincx unit <=? 0); [by right | left; congruence].
    - destruct ((0 <? totincx unit) && (totincx unit <=? 3000));
        [by right | left; congruence]. }
  destruct H1 as (usa & Ha & Hb).
  assert (H3 : us' = us1 \/ fold_unit (Z.to_nat ix) idxhigh us1 = Ok us').
  { destruct (relcode unit =? 11); [by right | left; congruence]. }
  apply Hfold in Ha, Hb, H3.
  pose proof (Hchain _ _ _ (Hchain _ _ _ Ha Hb) H3) as (Hl & Hf & Ht).
  split; [exact Hl|]. split; [exact Ht|].
  right. exists unit. auto.
Qed.

(** The units [search] folds: whatever it changes, a unit that has stopped
    being a tax unit met the condition [convert1] as it stood before. *)
Lemma search_loop_guard (h : Z) (idxhigh : nat) (n : Z)
  (units units' : list tax_unit) :
  for_in (seqZ 0 n) (search_step h idxhigh) units = Ok units' ->
  forall ix u u',
    units !! ix = Some u -> units' !! ix = Some u' ->
    t_flag u' <> t_flag u ->
    convert1 h idxhigh ix u = true.
Proof.
  intros Hrun.
  pose (P := fun us : list tax_unit =>
    length us = length units /\
    (forall y y', units !! idxhigh = Some y -> us !! idxhigh = Some y' ->
                  t_flag y' = t_flag y) /\
    (forall j u u', j <> idxhigh -> units !! j = Some u ->
                    us !! j = Some u' ->
                    u' = u \/ convert1 h idxhigh j u = true)).
  assert (HP : P units').
  { apply (for_in_invariant P (seqZ 0 n) (search_step h idxhigh))
      with (s := units); [|exact Hrun|].
    - intros ix us us' Hix%elem_of_seqZ Hstep (Hlen & Htop & Hrest).
      apply search_step_frame in Hstep
        as (Hlen' & Htop' & Hcase); [|lia].
      split; [congruence|]. split.
      + intros y y' Hy Hy'.
        destruct (us !! idxhigh) as [y1|] eqn:Hy1.
        * rewrite (Htop' y1 y' eq_refl Hy'). by apply Htop.
        * apply lookup_ge_None in Hy1. apply lookup_lt_Some in Hy. lia.
      + intros j u u' Hj Hu Hu'.
        destruct Hcase as [-> | (unit & Hunit & Hc1 & Hframe)];
          [by eapply Hrest|].
        destruct (decide (j = Z.to_nat ix)) as [->|Hne].
        * right. destruct (Hrest _ _ _ Hj Hu Hunit) as [-> | Hc]; done.
        * rewrite Hframe in Hu' by done. by eapply Hrest.
    - split; [reflexivity|]. split; [congruence|].
      intros j u u' _ Hu Hu'. left. congruence. }
  destruct HP as (_ & Htop & Hrest).
  intros ix u u' Hu Hu' Hflag.
  destruct (decide (ix = idxhigh)) as [->|Hne].
  - destruct Hflag. by eapply Htop.
  - destruct (Hrest ix u u' Hne Hu Hu') as [-> | Hc]; [done | exact Hc].
Qed.

(** The target of [search] is the unit whose total income is the highest
    of the household, the last one among equals; and whatever the number
    of rounds of the second loop, a unit stops being a tax unit in [search]
    only if the target is no dependent and has a positive income and the
    unit is not the target, no dependent and no joint filer. *)
Lemma search_guard (n : Z) (units : list tax_unit) :
  NoDup units ->
  (exists u, u ∈ units /\ highest0 <= totincx u) ->
  exists highest idxhigh top,
    search_top units = Ok (highest, idxhigh) /\
    units !! idxhigh = Some top /\ totincx top = highest /\
    (forall u, u ∈ units -> totincx u <= highest) /\
    (forall j u, units !! j = Some u -> (idxhigh < j)%nat ->
                 totincx u < highest) /\
    forall units', search n units = Ok units' ->
      forall ix u u',
        units !! ix = Some u -> units' !! ix = Some u' ->
        t_flag u = true -> t_flag u' = false ->
        u_ifdept top = false /\ 0 < highest /\
        ix <> idxhigh /\ u_ifdept u = false /\ js u <> 2.
Proof.
  intros Hnd Hbound.
  destruct (search_top_spec units Hnd Hbound)
    as (h & i & top & Htop & Hi & Hh & Hmax & Hlast).
  exists h, i, top. do 5 (split; [assumption|]).
  intros units' Hrun ix u u' Hu Hu' Hf Hf'.
  unfold search in Hrun. rewrite Htop in Hrun.
  cbn [mbind result_bind] in Hrun. rewrite Hi in Hrun.
  destruct (u_ifdept top) eqn:Hdep; cbn [negb] in Hrun.
  - injection Hrun as <-. congruence.
  - assert (Hc : convert1 h i ix u = true).
    { eapply search_loop_guard; [exact Hrun | exact Hu | exact Hu' |].
      congruence. }
    apply convert1_true in Hc as (? & ? & ? & ?). auto.
Qed.

(** ** The constructor *)

Lemma insert_unflag (house : list person) (j : nat) (p p' : person) :
  house !! j = Some p -> unflag p' = unflag p ->
  unflag <$> <[j := p']> house = unflag <$> house.
Proof.
  intros Hj Hp. rewrite list_fmap_insert, Hp.
  apply list_insert_id. by rewrite list_lookup_fmap, Hj.
Qed.

(** [addept] and the dependent search set flags of the persons and leave
    the head of the unit alone. *)
Lemma addept_frame (j : nat) (house house' : list person)
  (u u' : tax_unit) (idx : Z) :
  addept j house u idx = Ok (house', u') ->
  unflag <$> house' = unflag <$> house /\
  (u_a_lineno u', xpid u', ageh u') = (u_a_lineno u, xpid u, ageh u).
Proof.
  unfold addept. destruct (house !! j) as [p|] eqn:Hj; [|discriminate].
  intros [= <- <-]. split; [|reflexivity].
  by apply (insert_unflag house j p).
Qed.

Lemma create_search_frame (ri j : nat) (house house' : list person)
  (u u' : tax_unit) :
  create_search ri j (house, u) = Ok (house', u') ->
  unflag <$> house' = unflag <$> house /\
  (u_a_lineno u', xpid u', ageh u') = (u_a_lineno u, xpid u, ageh u).
Proof.
  unfold create_search.
  destruct (house !! j) as [p|] eqn:Hj; [|discriminate].
  destruct (house !! ri) as [record|]; [|discriminate].
  intros Hrun.
  apply bind_Ok in Hrun as (ip & _ & Hrun).
  apply bind_Ok in Hrun as (ir & _ & Hrun).
  destruct (_ && _) in Hrun; [|by injection Hrun as <- <-].
  assert (Hins : unflag <$> <[j := set_d_flag (ifdept p u) p]> house
                 = unflag <$> house)
    by (by apply (insert_unflag house j p)).
  destruct (d_flag (set_d_flag (ifdept p u) p)).
  - apply bind_Ok in Hrun as (idx & _ & Hrun).
    apply addept_frame in Hrun as (Hh & Hu). split; [congruence | exact Hu].
  - by injection Hrun as <- <-.
Qed.

(** [create] succeeds only for a person of the household, whom it makes
    the head of the new unit; of the household it changes flags only. *)
Lemma create_head (n n' : Z) (ri : nat) (house house' : list person)
  (u : tax_unit) :
  create n ri house = Ok (n', house', u) ->
  n' = n + 1 /\ unflag <$> house' = unflag <$> house /\
  exists record,
    house !! ri = Some record /\
    (u_a_lineno u, xpid u, ageh u) =
      (a_lineno record, ph_seq record, a_age record).
Proof.
  unfold create. destruct (house !! ri) as [record|] eqn:Hri; [|discriminate].
  intros Hrun.
  apply bind_Ok in Hrun as ([[[[[[h1 sp] js1] inc1] ag1] ags1] c1] & Hsp & Hrun).
  apply bind_Ok in Hrun as (? & _ & Hrun).
  apply bind_Ok in Hrun as (u1 & Hu1 & Hrun).
  apply bind_Ok in Hrun as ([h2 u2] & Hloop & Hrun).
  injection Hrun as <- <- <-.
  assert (Hh1 : unflag <$> h1 = unflag <$> house).
  { destruct (_ =? 1) in Hsp; [by injection Hsp as <- |].
    destruct (negb _) in Hsp; [|by injection Hsp as <-].
    apply bind_Ok in Hsp as ([sj p] & Hfind & Hsp).
    injection Hsp as <-.
    unfold use_spouse in Hfind.
    destruct (find_spouse record house) as [[sj' p']|] eqn:Hf;
      [|discriminate].
    injection Hfind as -> ->.
    apply list_find_Some in Hf as (Hsj & _).
    by apply (insert_unflag house sj p). }
  assert (Hhead1 : (u_a_lineno u1, xpid u1, ageh u1) =
                   (a_lineno record, ph_seq record, a_age record)).
  { destruct (negb _) in Hu1.
    - apply bind_Ok in Hu1 as ([? ?] & _ & Hu1). by injection Hu1 as <-.
    - by injection Hu1 as <-. }
  assert (HP : unflag <$> h2 = unflag <$> house /\
               (u_a_lineno u2, xpid u2, ageh u2) =
               (a_lineno record, ph_seq record, a_age record)).
  { apply (for_in_invariant
             (fun st : list person * tax_unit =>
                unflag <$> st.1 = unflag <$> house /\
                (u_a_lineno st.2, xpid st.2, ageh st.2) =
                (a_lineno record, ph_seq record, a_age record))
             (seq 0 (length h1)) (create_search ri))
      with (s := (h1, set_ben_number 3 u1)) (s' := (h2, u2));
      [|exact Hloop|].
    - intros j [ha ua] [hb ub] _ Hstep [Hha Hua]; cbn [fst snd] in *.
      apply create_search_frame in Hstep as (Hh & Hu).
      split; congruence.
    - split; [exact Hh1 | exact Hhead1]. }
  destruct HP as (Hh2 & Hhead2).
  split; [reflexivity|]. split; [exact Hh2|].
  exists record. split; [reflexivity | exact Hhead2].
Qed.

(** ** The output reconciler *)

Lemma output_dep_loop (unit : tax_unit) (house : list person) (eflag : bool)
  (l : list Z) :
  forall x c x' c',
    for_in l (output_dep unit house eflag) (x, c) = Ok (x', c') ->
    x' = if eflag then x + Z.of_nat (length l) else x.
Proof.
  induction l as [|i l IH]; intros x c x' c' Hrun; simpl in Hrun.
  - injection Hrun as <- <-. destruct eflag; simpl; lia.
  - apply bind_Ok in Hrun as ([x1 c1] & Hstep & Hrest).
    unfold output_dep in Hstep.
    apply bind_Ok in Hstep as (dindex & _ & Hstep).
    apply bind_Ok in Hstep as (p & _ & Hstep).
    apply IH in Hrest. subst x'.
    destruct eflag; injection Hstep as <- <-;
      [rewrite length_cons; lia | reflexivity].
Qed.

(** The person count [output] emits: when the counts are computed again it
    is the number of filers plus the number of dependents; otherwise it is
    the count [output] started from. *)
Lemma output_xxtot_spec (unit : tax_unit) (house : list person)
  (r : out_record) :
  output unit house = Ok r -> 0 <= depne unit ->
  xxtot r = if output_eflag unit then filer_count unit + depne unit
            else output_xxtot unit.
Proof.
  unfold output. intros Hrun Hnn.
  destruct (output_eflag unit) eqn:Hflag.
  - unfold filer_count.
    destruct (js unit =? 2).
    all: apply bind_Ok in Hrun as ([x1 c1] & Hloop & Hrun).
    all: apply bind_Ok in Hrun as ([o1 y1] & _ & Hrun).
    all: apply bind_Ok in Hrun as (z1 & _ & Hrun).
    all: injection Hrun as <-; cbn [xxtot].
    all: destruct (0 <? depne unit) eqn:Hpos;
      [ apply output_dep_loop in Hloop; rewrite length_seqZ in Hloop; lia
      | apply Z.ltb_ge in Hpos; injection Hloop as <- _; lia ].
  - apply bind_Ok in Hrun as ([x1 c1] & Hloop & Hrun).
    apply bind_Ok in Hrun as ([o1 y1] & _ & Hrun).
    apply bind_Ok in Hrun as (z1 & _ & Hrun).
    injection Hrun as <-; cbn [xxtot].
    destruct (0 <? depne unit);
      [ by apply output_dep_loop in Hloop | by injection Hloop as <- _ ].
Qed.

(** ** Construction without exception *)

Lemma py_list_index_total {A : Type} `{EqDecision A} (l : list A) (x : A) :
  x ∈ l -> exists i, py_list_index x l = Ok i.
Proof.
  intros Hin. unfold py_list_index.
  destruct (list_find_elem_of (fun y => y = x) l x Hin eq_refl) as [[i y] ->].
  eauto.
Qed.

Lemma create_search_total (ri j : nat) (house : list person) (u : tax_unit) :
  (j < length house)%nat -> (ri < length house)%nat ->
  exists house' u',
    create_search ri j (house, u) = Ok (house', u') /\
    length house' = length house.
Proof.
  intros Hj Hri. unfold create_search.
  destruct (lookup_lt_is_Some_2 house j Hj) as [p Hp].
  destruct (lookup_lt_is_Some_2 house ri Hri) as [record Hrec].
  rewrite Hp, Hrec.
  destruct (py_list_index_total house p) as [ip ->];
    [by eapply list_elem_of_lookup_2|].
  destruct (py_list_index_total house record) as [ir ->];
    [by eapply list_elem_of_lookup_2|].
  cbn [mbind result_bind].
  destruct (_ && _); [|eauto].
  destruct (d_flag (set_d_flag (ifdept p u) p)); cycle 1.
  { eexists _, _. split; [reflexivity | by rewrite length_insert]. }
  set (p' := set_d_flag (ifdept p u) p).
  assert (Hp' : <[j := p']> house !! j = Some p')
    by (by apply list_lookup_insert_eq).
  destruct (py_list_index_total (<[j := p']> house) p') as [idx ->];
    [by eapply list_elem_of_lookup_2|].
  cbn [mbind result_bind]. unfold addept. rewrite Hp'.
  eexists _, _. split; [reflexivity | by rewrite !length_insert].
Qed.

Lemma find_spouse_is_Some (record : person) (house : list person) :
  is_Some (find_spouse record house) <->
  exists q, q ∈ house /\ a_lineno q = a_spouse record /\
            a_spouse q = a_lineno record.
Proof.
  unfold find_spouse. split.
  - intros [[i q] (Hq & Hm & _)%list_find_Some].
    exists q. split; [by eapply list_elem_of_lookup_2 | exact Hm].
  - intros (q & Hin & Hm). by eapply list_find_elem_of.
Qed.

(** [create] raises no exception for a person whose spouse pointer is
    sound. *)
Lemma create_total (n : Z) (ri : nat) (house : list person) (record : person) :
  house !! ri = Some record -> spouse_found house record ->
  exists n' house' u, create n ri house = Ok (n', house', u).
Proof.
  intros Hri Hsp. unfold create. rewrite Hri.
  pose proof (lookup_lt_Some _ _ _ Hri) as Hlt.
  assert (Hloop : forall h u, length h = length house ->
            exists h' u',
              for_in (seq 0 (length h)) (create_search ri) (h, u)
              = Ok (h', u')).
  { intros h u Hlen.
    destruct (for_in_total
                (fun st : list person * tax_unit => length st.1 = length h)
                (seq 0 (length h)) (create_search ri)) with (s := (h, u))
      as ([h' u'] & Hrun & _); [| reflexivity | eauto].
    intros j [ha ua] [_ Hj]%elem_of_seq Hla; cbn [fst] in Hla.
    destruct (create_search_total ri j ha ua) as (hb & ub & Hstep & Hlb);
      [lia | lia |].
    exists (hb, ub). split; [exact Hstep | cbn [fst]; congruence]. }
  destruct Hsp as [Hzero | (Hjoint & Hq)].
  - rewrite Hzero. cbn [Z.eqb negb].
    destruct ((if (a_maritl record =? 1) || (a_maritl record =? 2)
                   || (a_maritl record =? 3) then 2 else 1) =? 1);
      cbn [mbind result_bind].
    all: match goal with
         | |- context [for_in _ _ (?h, ?u)] =>
           destruct (Hloop h u eq_refl) as (h' & u' & ->)
         end.
    all: cbn [mbind result_bind]; eauto.
  - replace ((a_maritl record =? 1) || (a_maritl record =? 2)
             || (a_maritl record =? 3)) with true
      by (symmetry; rewrite !orb_true_iff, !Z.eqb_eq; tauto).
    cbn [Z.eqb Pos.eqb].
    apply find_spouse_is_Some in Hq as [[sj sp] Hfind].
    rewrite Hfind.
    destruct (negb (a_spouse record =? 0)); cbn [use_spouse mbind result_bind].
    all: match goal with
         | |- context [for_in (seq 0 (length ?h)) _ (?h, ?u)] =>
           destruct (Hloop h u) as (h' & u' & ->);
             [try reflexivity; by rewrite length_insert|]
         end.
    all: cbn [mbind result_bind]; eauto.
Qed.

(** [create] ends in an exception for a person whose spouse pointer is not
    sound: the local variable [spouse] is read but was never bound. *)
Lemma create_raises (n : Z) (ri : nat) (house : list person)
  (record : person) :
  house !! ri = Some record -> ~ spouse_found house record ->
  create n ri house = Raise UnboundLocalError.
Proof.
  intros Hri Hno. unfold create. rewrite Hri.
  assert (Hptr : a_spouse record <> 0)
    by (intros Hz; apply Hno; by left).
  apply Z.eqb_neq in Hptr. rewrite Hptr. cbn [negb].
  destruct ((a_maritl record =? 1) || (a_maritl record =? 2)
            || (a_maritl record =? 3)) eqn:Hms; cbn [Z.eqb Pos.eqb].
  - destruct (find_spouse record house) as [sp|] eqn:Hfind;
      [|reflexivity].
    destruct Hno. right. split.
    + rewrite !orb_true_iff, !Z.eqb_eq in Hms. tauto.
    + apply find_spouse_is_Some. by exists sp.
  - reflexivity.
Qed.

Lemma unflag_lookup (house house0 : list person) (k : nat) (p : person) :
  unflag <$> house = unflag <$> house0 -> house !! k = Some p ->
  exists p0, house0 !! k = Some p0 /\ unflag p = unflag p0.
Proof.
  intros Heq Hk.
  assert (H : (unflag <$> house0) !! k = Some (unflag p))
    by (by rewrite <- Heq, list_lookup_fmap, Hk).
  rewrite list_lookup_fmap in H.
  destruct (house0 !! k) as [p0|]; [|discriminate].
  exists p0. split; [reflexivity|]. symmetry. exact (Some_inj _ _ H).
Qed.

Lemma unflag_elem_of (house house0 : list person) (p : person) :
  unflag <$> house = unflag <$> house0 -> p ∈ house ->
  exists p0, p0 ∈ house0 /\ unflag p = unflag p0.
Proof.
  intros Heq [k Hk]%list_elem_of_lookup_1.
  destruct (unflag_lookup _ _ _ _ Heq Hk) as (p0 & Hp0 & Hun).
  exists p0. split; [by eapply list_elem_of_lookup_2 | exact Hun].
Qed.

(** The spouse pointers stay sound when flags only are set. *)
Lemma spouses_found_unflag (house house' : list person) :
  unflag <$> house' = unflag <$> house ->
  spouses_found house -> spouses_found house'.
Proof.
  intros Heq Hsound p' Hin'.
  destruct (unflag_elem_of _ _ _ Heq Hin') as (p & Hin & Hun).
  assert (Hsp : a_spouse p' = a_spouse p) by exact (f_equal a_spouse Hun).
  assert (Hms : a_maritl p' = a_maritl p) by exact (f_equal a_maritl Hun).
  assert (Hln : a_lineno p' = a_lineno p) by exact (f_equal a_lineno Hun).
  destruct (Hsound p Hin) as [Hzero | (Hjoint & q & Hq & Hq1 & Hq2)].
  - left. congruence.
  - right. split; [by rewrite Hms|].
    destruct (unflag_elem_of house house' q (eq_sym Heq) Hq)
      as (q' & Hq' & Hunq).
    exists q'. split; [exact Hq'|].
    rewrite Hsp, Hln, <- Hq1, <- Hq2.
    split; [exact (f_equal a_lineno (eq_sym Hunq))
           | exact (f_equal a_spouse (eq_sym Hunq))].
Qed.

(** ** Group quarters *)




(** ** The units of a family household are different records *)

Lemma insert_d_flag (house : list person) (j i : nat) (p p' : person) :
  house !! j = Some p -> d_flag p' = d_flag p ->
  d_flag <$> (<[j := p']> house !! i) = d_flag <$> (house !! i).
Proof.
  intros Hj Hp. destruct (decide (j = i)) as [<-|Hne].
  - rewrite list_lookup_insert_eq by (by eapply lookup_lt_Some).
    rewrite Hj. simpl. by rewrite Hp.
  - by rewrite list_lookup_insert_ne.
Qed.

(** The dependent search of [create] leaves the head as it is. *)
Lemma create_search_head_flag (ri j : nat) (house house' : list person)
  (u u' : tax_unit) :
  create_search ri j (house, u) = Ok (house', u') ->
  d_flag <$> (house' !! ri) = d_flag <$> (house !! ri).
Proof.
  unfold create_search.
  destruct (house !! j) as [p|] eqn:Hj; [|discriminate].
  destruct (house !! ri) as [record|] eqn:Hri; [|discriminate].
  intros Hrun.
  apply bind_Ok in Hrun as (ip & Hip & Hrun).
  apply bind_Ok in Hrun as (ir & Hir & Hrun).
  destruct (decide (j = ri)) as [->|Hne].
  - assert (p = record) by congruence. subst p.
    assert (ip = ir) by congruence. subst ip.
    rewrite bool_decide_eq_true_2 in Hrun by reflexivity.
    cbn [negb andb] in Hrun. injection Hrun as <- _. by rewrite Hri.
  - destruct (_ && _) in Hrun; [|injection Hrun as <- _; by rewrite Hri].
    destruct (d_flag (set_d_flag (ifdept p u) p)).
    + apply bind_Ok in Hrun as (idx & _ & Hrun).
      unfold addept in Hrun.
      destruct (<[j:=set_d_flag (ifdept p u) p]> house !! j); [|discriminate].
      injection Hrun as <- _.
      by rewrite !list_lookup_insert_ne, Hri.
    + injection Hrun as <- _. by rewrite list_lookup_insert_ne, Hri.
Qed.

(** [create] does not flag its head as a dependent. *)
Lemma create_head_flag (n n' : Z) (ri : nat) (house house' : list person)
  (u : tax_unit) :
  create n ri house = Ok (n', house', u) ->
  d_flag <$> (house' !! ri) = d_flag <$> (house !! ri).
Proof.
  unfold create. destruct (house !! ri) as [record|] eqn:Hri; [|discriminate].
  intros Hrun.
  apply bind_Ok in Hrun as ([[[[[[h1 sp] js1] inc1] ag1] ags1] c1] & Hsp & Hrun).
  apply bind_Ok in Hrun as (? & _ & Hrun).
  apply bind_Ok in Hrun as (u1 & _ & Hrun).
  apply bind_Ok in Hrun as ([h2 u2] & Hloop & Hrun).
  injection Hrun as _ <- _.
  assert (Hh1 : d_flag <$> (h1 !! ri) = Some (d_flag record)).
  { destruct ((if (a_maritl record =? 1) || (a_maritl record =? 2)
                     || (a_maritl record =? 3) then 2 else 1) =? 1) in Hsp;
      [injection Hsp as <-; by rewrite Hri |].
    destruct (negb _) in Hsp; [|injection Hsp as <-; by rewrite Hri].
    apply bind_Ok in Hsp as ([sj p] & Hfind & Hsp).
    injection Hsp as <-.
    unfold use_spouse in Hfind.
    destruct (find_spouse record house) as [[sj' p']|] eqn:Hf;
      [|discriminate].
    injection Hfind as -> ->.
    apply list_find_Some in Hf as (Hsj & _).
    rewrite (insert_d_flag house sj ri p) by done. by rewrite Hri. }
  apply (for_in_invariant
           (fun st : list person * tax_unit =>
              d_flag <$> (st.1 !! ri) = Some (d_flag record))
           (seq 0 (length h1)) (create_search ri))
    with (s := (h1, set_ben_number 3 u1)) (s' := (h2, u2));
    [|exact Hloop | exact Hh1].
  intros j [ha ua] [hb ub] _ Hstep Hinv; cbn [fst] in *.
  apply create_search_head_flag in Hstep. congruence.
Qed.

(** [search] changes no line number. *)
Lemma fold_unit_linenos (ix iy : nat) (us us' : list tax_unit) :
  ix <> iy -> fold_unit ix iy us = Ok us' ->
  u_a_lineno <$> us' = u_a_lineno <$> us.
Proof.
  intros Hne Hrun.
  destruct (us !! ix) as [x|] eqn:Hx; cycle 1.
  { unfold fold_unit, convert in Hrun.
    rewrite list_lookup_alter_eq, Hx in Hrun. discriminate. }
  destruct (us !! iy) as [y|] eqn:Hy; cycle 1.
  { unfold fold_unit, convert in Hrun.
    rewrite list_lookup_alter_eq, Hx, list_lookup_alter_ne, Hy in Hrun
      by done. discriminate. }
  rewrite (fold_unit_eq ix iy us x y Hx Hy Hne) in Hrun.
  apply bind_Ok in Hrun as ([x' y'] & Hp & Hrun).
  injection Hrun as <-. cbn [fst snd].
  apply convert_pair_spec in Hp as (Ex & Ey & _).
  rewrite !list_fmap_insert.
  replace (u_a_lineno y') with (u_a_lineno y)
    by (symmetry; exact (f_equal u_a_lineno Ey)).
  replace (u_a_lineno x') with (u_a_lineno x)
    by (symmetry; exact (f_equal u_a_lineno Ex)).
  rewrite (list_insert_id (u_a_lineno <$> us) ix)
    by (by rewrite list_lookup_fmap, Hx).
  apply list_insert_id. by rewrite list_lookup_fmap, Hy.
Qed.

Lemma search_linenos (n : Z) (units units' : list tax_unit) :
  search n units = Ok units' ->
  u_a_lineno <$> units' = u_a_lineno <$> units.
Proof.
  unfold search. intros Hrun.
  apply bind_Ok in Hrun as ([h i] & _ & Hrun).
  destruct (units !! i) as [top|]; [|discriminate].
  destruct (negb (u_ifdept top)); [|by injection Hrun as <-].
  apply (for_in_invariant
           (fun us : list tax_unit =>
              u_a_lineno <$> us = u_a_lineno <$> units)
           (seqZ 0 n) (search_step h i)) with (s := units);
    [|exact Hrun | reflexivity].
  intros ix us us' _ Hstep Hinv. rewrite <- Hinv. clear Hinv.
  unfold search_step in Hstep.
  apply bind_Ok in Hstep as (unit & _ & Hstep).
  destruct (convert1 h i (Z.to_nat ix) unit) eqn:Hc1;
    [|by injection Hstep as <-].
  apply convert1_true in Hc1 as (Hne & _).
  assert (Hfold : forall l l' : list tax_unit,
             l' = l \/ fold_unit (Z.to_nat ix) i l = Ok l' ->
             u_a_lineno <$> l' = u_a_lineno <$> l).
  { intros l l' [-> | Hf]; [reflexivity | by eapply fold_unit_linenos]. }
  apply bind_Ok in Hstep as (us1 & Hmid & Hlast).
  assert (H1 : u_a_lineno <$> us1 = u_a_lineno <$> us).
  { destruct ((u_ftype unit =? 1) || (u_ftype unit =? 3)
              || (u_ftype unit =? 5)); [|by injection Hmid as <-].
    apply bind_Ok in Hmid as (usa & Ha & Hb).
    transitivity (u_a_lineno <$> usa); apply Hfold.
    - destruct ((0 <? totincx unit) && (totincx unit <=? 3000));
        [by right | left; congruence].
    - destruct (totincx unit <=? 0); [by right | left; congruence]. }
  rewrite <- H1. apply Hfold.
  destruct (relcode unit =? 11); [by right | left; congruence].
Qed.

Lemma append_create_follow (house0 : list person) (k : nat) (st st' : state)
  (p0 : person) :
  house0 !! k = Some p0 ->
  units_follow house0 k st -> append_create k st = Ok st' ->
  units_follow house0 (S k) st' /\
  d_flag <$> (house_dicts st' !! k) = d_flag <$> (house_dicts st !! k).
Proof.
  intros Hp0 [Hhouse Hsub] Hrun. unfold append_create in Hrun.
  apply bind_Ok in Hrun as ([[n1 h1] u1] & Hcreate & Hrun).
  injection Hrun as <-. cbn [house_dicts house_units].
  pose proof (create_head_flag _ _ _ _ _ _ Hcreate) as Hflag.
  apply create_head in Hcreate as (_ & Hh1 & record & Hrec & Hhead).
  destruct (unflag_lookup _ _ _ _ Hhouse Hrec) as (p0' & Hp0' & Hun).
  assert (p0' = p0) by congruence. subst p0'.
  split; [|exact Hflag].
  unfold units_follow; cbn [house_dicts house_units].
  split; [by rewrite Hh1|].
  rewrite (take_S_r _ _ _ Hp0), !fmap_app.
  apply sublist_app; [exact Hsub|].
  assert (Hl : u_a_lineno u1 = a_lineno p0).
  { injection Hhead as -> _ _. exact (f_equal a_lineno Hun). }
  simpl. by rewrite Hl.
Qed.

Lemma units_follow_skip (house0 : list person) (k : nat) (st : state)
  (p0 : person) :
  house0 !! k = Some p0 ->
  units_follow house0 k st -> units_follow house0 (S k) st.
Proof.
  intros Hp0 [Hhouse Hsub]. split; [exact Hhouse|].
  rewrite (take_S_r _ _ _ Hp0), fmap_app. by apply sublist_inserts_r.
Qed.

(** The creations of a round keep that invariant: a person heads one new
    unit at most. *)
Lemma family_create_follow (house0 : list person) (k : nat) (st st' : state) :
  units_follow house0 k st -> family_create k st = Ok st' ->
  units_follow house0 (S k) st'.
Proof.
  intros Hinv Hrun. unfold family_create in Hrun.
  destruct (house_dicts st !! k) as [person|] eqn:Hperson; [|discriminate].
  destruct (unflag_lookup _ _ _ _ (proj1 Hinv) Hperson) as (p0 & Hp0 & _).
  apply bind_Ok in Hrun as (st1 & Hfirst & Hrun).
  destruct (house_dicts st1 !! k) as [person1|] eqn:Hperson1; [|discriminate].
  destruct (negb (h_flag person) && negb (s_flag person)
            && negb (d_flag person)) eqn:Hnf.
  - apply (append_create_follow house0 k st st1 p0 Hp0 Hinv) in Hfirst
      as [Hinv1 Hflag].
    rewrite Hperson, Hperson1 in Hflag. injection Hflag as Hflag.
    rewrite !andb_true_iff, !negb_true_iff in Hnf.
    destruct Hnf as [_ Hd]. rewrite Hflag, Hd, andb_false_r in Hrun.
    by injection Hrun as <-.
  - injection Hfirst as <-.
    destruct (negb (s_flag person1) && d_flag person1);
      [destruct (must_file person1)|].
    + by apply (append_create_follow house0 k st st' p0 Hp0 Hinv) in Hrun
        as [Hinv1 _].
    + injection Hrun as <-. by eapply units_follow_skip.
    + injection Hrun as <-. by eapply units_follow_skip.
Qed.

Lemma family_step_follow (house0 : list person) (k : nat) (st st' : state) :
  units_follow house0 k st -> family_step k st = Ok st' ->
  units_follow house0 (S k) st'.
Proof.
  intros Hinv Hrun. unfold family_step in Hrun.
  apply bind_Ok in Hrun as (st1 & Hcreate & Hrun).
  apply (family_create_follow house0 k st st1 Hinv) in Hcreate
    as [Hhouse Hsub].
  destruct (1 <? nunits st1); [|injection Hrun as <-; by split].
  apply bind_Ok in Hrun as (units & Hsearch & Hrun).
  injection Hrun as <-.
  apply search_linenos in Hsearch.
  unfold units_follow; cbn [house_dicts house_units].
  split; [exact Hhouse | by rewrite Hsearch].
Qed.

Lemma family_loop_follow (house0 : list person) (n : nat) :
  forall (a : nat) (st st' : state),
    units_follow house0 a st ->
    for_in (seq a n) family_step st = Ok st' ->
    units_follow house0 (a + n) st'.
Proof.
  induction n as [|n IH]; intros a st st' Hinv Hrun.
  - injection Hrun as <-. by rewrite Nat.add_0_r.
  - cbn [seq for_in] in Hrun.
    apply bind_Ok in Hrun as (st1 & Hstep & Hrest).
    apply (family_step_follow house0 a st st1 Hinv) in Hstep.
    replace (a + S n)%nat with (S a + n)%nat by lia.
    by apply (IH (S a) st1).
Qed.

(** In a family household whose persons are on different lines, every
    list of units [search] is called with consists of different records. *)
Lemma search_units_distinct (house : list person) (k : nat) (st st1 : state) :
  NoDup (a_lineno <$> house) ->
  for_in (seq 0 k) family_step (mkState 0 house []) = Ok st ->
  family_create k st = Ok st1 ->
  NoDup (house_units st1).
Proof.
  intros Hnd Hloop Hcreate.
  apply (family_loop_follow house k 0) in Hloop;
    [| split; [reflexivity | apply sublist_nil_l] ].
  apply (family_create_follow house k st st1 Hloop) in Hcreate as [_ Hsub].
  apply (NoDup_fmap_1 u_a_lineno).
  apply (sublist_NoDup _ (a_lineno <$> take (S k) house)); [|exact Hsub].
  rewrite fmap_take. eapply sublist_NoDup; [exact Hnd | apply sublist_take].
Qed.

(** ** Units with all their numbered keys *)

Lemma insert_keeps {V : Type} (m : gmap Z V) (i k : Z) (v : V) :
  is_Some (m !! k) -> is_Some (<[i := v]> m !! k).
Proof.
  intros H. apply lookup_insert_is_Some.
  destruct (decide (i = k)); auto.
Qed.

Lemma insert_has {V : Type} (m : gmap Z V) (i : Z) (v : V) :
  is_Some (<[i := v]> m !! i).
Proof. rewrite lookup_insert_eq. eauto. Qed.

(** The part of [unit_wf] that [create] builds up: the flag [t_flag] is set
    when the unit is complete. *)
Lemma addept_keys (j : nat) (house house' : list person) (u u' : tax_unit)
  (idx : Z) :
  addept j house u idx = Ok (house', u') ->
  0 <= depne u /\ deps_wf u /\ slots_wf u ->
  0 <= depne u' /\ deps_wf u' /\ slots_wf u'.
Proof.
  unfold addept. destruct (house !! j) as [p|]; [|discriminate].
  intros [= _ <-] (Hnn & Hdeps & Hslots).
  split; [simpl; lia|]. split.
  - intros k Hk. cbn in Hk |- *.
    destruct (decide (k = depne u + 1)) as [->|Hne].
    + split; apply insert_has.
    + destruct (Hdeps k) as [Hd Ha]; [lia|].
      split; by apply insert_keeps.
  - intros i Hi. cbn in Hi |- *.
    destruct (decide (i = ben_number u)) as [->|Hne].
    + apply insert_has.
    + apply insert_keeps, Hslots. lia.
Qed.

Lemma create_search_keys (ri j : nat) (house house' : list person)
  (u u' : tax_unit) :
  create_search ri j (house, u) = Ok (house', u') ->
  0 <= depne u /\ deps_wf u /\ slots_wf u ->
  0 <= depne u' /\ deps_wf u' /\ slots_wf u'.
Proof.
  unfold create_search.
  destruct (house !! j) as [p|]; [|discriminate].
  destruct (house !! ri) as [record|]; [|discriminate].
  intros Hrun Hwf.
  apply bind_Ok in Hrun as (ip & _ & Hrun).
  apply bind_Ok in Hrun as (ir & _ & Hrun).
  destruct (_ && _) in Hrun; [|by injection Hrun as _ <-].
  destruct (d_flag (set_d_flag (ifdept p u) p));
    [|by injection Hrun as _ <-].
  apply bind_Ok in Hrun as (idx & _ & Hrun).
  by eapply addept_keys.
Qed.

Lemma slots0_keys (i : Z) : 1 <= i < 3 -> is_Some (slots0 !! i).
Proof.
  intros Hi. assert (Hcase : i = 1 \/ i = 2) by lia.
  destruct Hcase as [-> | ->]; vm_compute; eauto.
Qed.

(** [create] returns a finished unit. *)
Lemma create_wf (n n' : Z) (ri : nat) (house house' : list person)
  (u : tax_unit) :
  create n ri house = Ok (n', house', u) -> unit_wf u.
Proof.
  unfold create. destruct (house !! ri) as [record|]; [|discriminate].
  intros Hrun.
  apply bind_Ok in Hrun as ([[[[[[h1 sp] js1] inc1] ag1] ags1] c1] & _ & Hrun).
  apply bind_Ok in Hrun as (? & _ & Hrun).
  apply bind_Ok in Hrun as (u1 & Hu1 & Hrun).
  apply bind_Ok in Hrun as ([h2 u2] & Hloop & Hrun).
  injection Hrun as _ _ <-.
  assert (H1 : 0 <= depne (set_ben_number 3 u1) /\
               deps_wf (set_ben_number 3 u1) /\
               slots_wf (set_ben_number 3 u1)).
  { assert (Hd : depne u1 = 0 /\
                 forall i, 1 <= i < 3 -> is_Some (slots u1 !! i)).
    { destruct (negb _) in Hu1.
      - apply bind_Ok in Hu1 as ([? ?] & _ & Hu1). injection Hu1 as <-.
        split; [reflexivity|]. intros i Hi. cbn.
        do 2 apply insert_keeps. by apply slots0_keys.
      - injection Hu1 as <-. split; [reflexivity|]. intros i Hi. cbn.
        apply insert_keeps. by apply slots0_keys. }
    destruct Hd as [Hd Hs]. split; [cbn; lia|]. split.
    - intros k Hk. cbn in Hk. lia.
    - intros i Hi. cbn in Hi |- *. by apply Hs. }
  apply (for_in_invariant
           (fun st : list person * tax_unit =>
              0 <= depne st.2 /\ deps_wf st.2 /\ slots_wf st.2)
           (seq 0 (length h1)) (create_search ri))
    with (s := (h1, set_ben_number 3 u1)) (s' := (h2, u2)) in H1;
    [| | exact Hloop].
  - destruct H1 as (Hnn & Hdeps & Hslots). cbn [snd] in *.
    split; [exact Hnn|]. split; [exact Hdeps|]. split; [exact Hslots|].
    reflexivity.
  - intros j [ha ua] [hb ub] _ Hstep Hinv; cbn [snd] in *.
    by eapply create_search_keys.
Qed.

Lemma convert_deps_loop_keys (b : Z) (l : list Z) :
  forall x y x' y',
    for_in l (convert_deps b) (x, y) = Ok (x', y') ->
    (forall k, is_Some (dep y !! k) -> is_Some (dep y' !! k)) /\
    (forall k, is_Some (depage y !! k) -> is_Some (depage y' !! k)) /\
    (forall nd, nd ∈ l ->
       is_Some (dep y' !! (b + nd)) /\ is_Some (depage y' !! (b + nd))).
Proof.
  induction l as [|nd l IH]; intros x y x' y' Hrun; simpl in Hrun.
  - injection Hrun as <- <-. split; [auto|]. split; [auto|].
    intros nd Hnd. by apply elem_of_nil in Hnd.
  - apply bind_Ok in Hrun as ([x1 y1] & Hstep & Hrest).
    unfold convert_deps in Hstep.
    apply bind_Ok in Hstep as (d & _ & Hstep).
    apply bind_Ok in Hstep as (a & _ & Hstep).
    injection Hstep as <- <-.
    apply IH in Hrest as (Hd & Ha & Hw).
    split; [|split].
    + intros k Hk. apply Hd. cbn. by apply insert_keeps.
    + intros k Hk. apply Ha. cbn. by apply insert_keeps.
    + intros nd' [-> | Hin]%elem_of_cons; [|by apply Hw].
      split; [apply Hd | apply Ha]; cbn; apply insert_has.
Qed.

Lemma convert_slot_loop_keys (x : tax_unit) (l : list Z) :
  forall y y',
    for_in l (convert_slot x) y = Ok y' ->
    ben_number y' = ben_number y + Z.of_nat (length l) /\
    (forall i, is_Some (slots y !! i) -> is_Some (slots y' !! i)) /\
    (forall i, ben_number y <= i < ben_number y' ->
               is_Some (slots y' !! i)).
Proof.
  induction l as [|i0 l IH]; intros y y' Hrun; simpl in Hrun.
  - injection Hrun as <-. split; [simpl; lia|]. split; [auto|].
    intros i Hi. lia.
  - apply bind_Ok in Hrun as (y1 & Hstep & Hrest).
    unfold convert_slot in Hstep.
    apply bind_Ok in Hstep as (pv & _ & Hstep).
    injection Hstep as <-.
    apply IH in Hrest as (Hb & Hkeep & Hnew). cbn in Hb, Hkeep, Hnew.
    split; [rewrite Hb, length_cons; lia|]. split.
    + intros i Hi. apply Hkeep. by apply insert_keeps.
    + intros i Hi. destruct (decide (i = ben_number y)) as [->|Hne].
      * apply Hkeep, insert_has.
      * apply Hnew. lia.
Qed.

(** [convert] leaves both units finished. *)
Lemma convert_pair_wf (ix : nat) (x y x' y' : tax_unit) :
  convert_pair ix x y = Ok (x', y') ->
  0 <= depne x -> deps_wf x -> slots_wf x -> unit_wf y ->
  unit_wf x' /\ unit_wf y'.
Proof.
  intros Hrun Hxn Hxd Hxs (Hyn & Hyd & Hys & Hyf).
  pose proof (convert_pair_spec ix x y x' y' Hrun) as (Ex & Ey & _).
  split.
  { split; [rewrite (f_equal depne Ex : depne x' = 0); lia|]. split.
    - intros k Hk. rewrite (f_equal depne Ex : depne x' = 0) in Hk. lia.
    - split.
      + intros i Hi.
        rewrite (f_equal slots Ex : slots x' = slots x). apply Hxs.
        by rewrite <- (f_equal ben_number Ex : ben_number x' = ben_number x).
      + intros Hf.
        by rewrite (f_equal u_ifdept Ex : u_ifdept x' = true) in Hf. }
  assert (Hdy : depne y' =
                depne y + (depne x + (if js x =? 2 then 2 else 1)))
    by exact (f_equal depne Ey).
  assert (Hfy : u_ifdept y' = u_ifdept y) by exact (f_equal u_ifdept Ey).
  assert (Hty : t_flag y' = t_flag y) by exact (f_equal t_flag Ey).
  split; [destruct (js x =? 2); lia|].
  cut (deps_wf y' /\ slots_wf y').
  { intros [Hd Hs]. split; [exact Hd|]. split; [exact Hs|].
    rewrite Hfy, Hty. exact Hyf. }
  clear Ex Ey Hfy Hty Hyf.
  unfold deps_wf, slots_wf. rewrite Hdy. clear Hdy.
  unfold convert_pair in Hrun.
  destruct (js x =? 2) eqn:Hjs; cbn [js set_depne set_ifdept] in Hrun;
    rewrite Hjs in Hrun.
  all: apply bind_Ok in Hrun as ([x1 y1] & Hdeps & Hrun).
  all: apply bind_Ok in Hrun as (y2 & Hslots & Hrun).
  all: injection Hrun as <- <-.
  all: pose proof (convert_slot_loop _ _ _ _ Hslots) as Es.
  all: apply convert_slot_loop_keys in Hslots as (Hb & Hkeep & Hnew).
  all: cbn [ben_number slots set_tot set_cnt] in Hb, Hkeep, Hnew.
  all: assert (Hd2 : dep y2 = dep y1) by exact (f_equal dep Es).
  all: assert (Ha2 : depage y2 = depage y1) by exact (f_equal depage Es).
  all: rewrite Hd2, Ha2; clear Es Hd2 Ha2.
  all: destruct (0 <? _) eqn:Hpos in Hdeps.
  all: cbn [depne set_ifdept] in Hpos.
  all: match type of Hdeps with
       | for_in _ _ _ = _ =>
         pose proof (convert_deps_loop _ _ _ _ _ _ Hdeps) as (_ & Ey1 & _);
         apply convert_deps_loop_keys in Hdeps as (Hd & Ha & Hw)
       | _ =>
         pose proof (convert_deps_loop 0 [] _ _ _ _ Hdeps) as (_ & Ey1 & _);
         apply (convert_deps_loop_keys 0 []) in Hdeps as (Hd & Ha & Hw)
       end.
  all: assert (Hs1 : slots y1 = slots y) by exact (f_equal slots Ey1).
  all: assert (Hb1 : ben_number y1 = ben_number y)
         by exact (f_equal ben_number Ey1).
  all: rewrite Hs1 in Hkeep; rewrite Hb1 in Hb, Hnew; clear Ey1 Hs1 Hb1.
  all: (split;
        [ intros k Hk | intros i Hi;
          destruct (decide (i < ben_number y));
            [ apply Hkeep, Hys; lia | apply Hnew; lia ] ]).
  all: cbn [dep depage set_dep set_depage set_depne] in Hd, Ha.
  (* joint unit, loop *)
  - destruct (decide (k <= depne y + 2)) as [Hle|Hgt].
    + split; [apply Hd | apply Ha].
      all: destruct (decide (k = depne y + 2)) as [->|];
        [apply insert_has || (apply insert_keeps, insert_has) |].
      all: destruct (decide (k = depne y + 1)) as [->|];
        [ repeat (apply insert_has || apply insert_keeps) |].
      all: repeat apply insert_keeps; apply Hyd; lia.
    + replace k with (depne y + 2 + (k - (depne y + 2))) by lia.
      apply Hw. apply elem_of_seqZ. cbn [depne set_ifdept].
      apply Z.ltb_lt in Hpos. lia.
  (* joint unit, no loop *)
  - apply Z.ltb_ge in Hpos.
    split; [apply Hd | apply Ha].
    all: destruct (decide (k = depne y + 2)) as [->|];
      [apply insert_has || (apply insert_keeps, insert_has) |].
    all: destruct (decide (k = depne y + 1)) as [->|];
      [ repeat (apply insert_has || apply insert_keeps) |].
    all: repeat apply insert_keeps; apply Hyd; lia.
  (* single unit, loop *)
  - destruct (decide (k <= depne y + 1)) as [Hle|Hgt].
    + split; [apply Hd | apply Ha].
      all: destruct (decide (k = depne y + 1)) as [->|];
        [ apply insert_has |].
      all: repeat apply insert_keeps; apply Hyd; lia.
    + replace k with (depne y + 1 + (k - (depne y + 1))) by lia.
      apply Hw. apply elem_of_seqZ. cbn [depne set_ifdept].
      apply Z.ltb_lt in Hpos. lia.
  (* single unit, no loop *)
  - apply Z.ltb_ge in Hpos.
    split; [apply Hd | apply Ha].
    all: destruct (decide (k = depne y + 1)) as [->|];
      [ apply insert_has |].
    all: repeat apply insert_keeps; apply Hyd; lia.
Qed.

Lemma fold_unit_wf (ix iy : nat) (us us' : list tax_unit) :
  ix <> iy -> fold_unit ix iy us = Ok us' ->
  Forall unit_wf us -> Forall unit_wf us'.
Proof.
  intros Hne Hrun Hwf.
  destruct (us !! ix) as [x|] eqn:Hx; cycle 1.
  { unfold fold_unit, convert in Hrun.
    rewrite list_lookup_alter_eq, Hx in Hrun. discriminate. }
  destruct (us !! iy) as [y|] eqn:Hy; cycle 1.
  { unfold fold_unit, convert in Hrun.
    rewrite list_lookup_alter_eq, Hx, list_lookup_alter_ne, Hy in Hrun
      by done. discriminate. }
  rewrite (fold_unit_eq ix iy us x y Hx Hy Hne) in Hrun.
  apply bind_Ok in Hrun as ([x' y'] & Hp & Hrun).
  injection Hrun as <-. cbn [fst snd].
  rewrite Forall_lookup in Hwf.
  destruct (Hwf ix x Hx) as (Hxn & Hxd & Hxs & _).
  apply convert_pair_wf in Hp as [Hx' Hy'];
    [| exact Hxn | exact Hxd | exact Hxs | by apply (Hwf iy y) ].
  apply Forall_insert; [|exact Hy']. apply Forall_insert; [|exact Hx'].
  by apply Forall_lookup.
Qed.

(** [search] leaves every unit finished. *)
Lemma search_wf (n : Z) (units units' : list tax_unit) :
  search n units = Ok units' ->
  Forall unit_wf units -> Forall unit_wf units'.
Proof.
  unfold search. intros Hrun Hwf.
  apply bind_Ok in Hrun as ([h i] & _ & Hrun).
  destruct (units !! i) as [top|]; [|discriminate].
  destruct (negb (u_ifdept top)); [|by injection Hrun as <-].
  apply (for_in_invariant (Forall unit_wf) (seqZ 0 n) (search_step h i))
    with (s := units); [|exact Hrun | exact Hwf].
  intros ix us us' _ Hstep Hinv.
  unfold search_step in Hstep.
  apply bind_Ok in Hstep as (unit & _ & Hstep).
  destruct (convert1 h i (Z.to_nat ix) unit) eqn:Hc1;
    [|by injection Hstep as <-].
  apply convert1_true in Hc1 as (Hne & _).
  assert (Hfold : forall l l' : list tax_unit,
             l' = l \/ fold_unit (Z.to_nat ix) i l = Ok l' ->
             Forall unit_wf l -> Forall unit_wf l').
  { intros l l' [-> | Hf]; [done | by eapply fold_unit_wf]. }
  apply bind_Ok in Hstep as (us1 & Hmid & Hlast).
  assert (H1 : Forall unit_wf us1).
  { destruct ((u_ftype unit =? 1) || (u_ftype unit =? 3)
              || (u_ftype unit =? 5)); [|by injection Hmid as <-].
    apply bind_Ok in Hmid as (usa & Ha & Hb).
    apply (Hfold usa).
    - destruct ((0 <? totincx unit) && (totincx unit <=? 3000));
        [by right | left; congruence].
    - apply (Hfold us); [|exact Hinv].
      destruct (totincx unit <=? 0); [by right | left; congruence]. }
  apply (Hfold us1); [|exact H1].
  destruct (relcode unit =? 11); [by right | left; congruence].
Qed.

Lemma append_create_wf (k : nat) (st st' : state) :
  append_create k st = Ok st' ->
  Forall unit_wf (house_units st) -> Forall unit_wf (house_units st').
Proof.
  unfold append_create. intros Hrun Hwf.
  apply bind_Ok in Hrun as ([[n1 h1] u1] & Hcreate & Hrun).
  injection Hrun as <-. cbn [house_units].
  apply Forall_app. split; [exact Hwf|].
  apply Forall_singleton. by eapply create_wf.
Qed.

Lemma family_create_wf (k : nat) (st st' : state) :
  family_create k st = Ok st' ->
  Forall unit_wf (house_units st) -> Forall unit_wf (house_units st').
Proof.
  unfold family_create. intros Hrun Hwf.
  destruct (house_dicts st !! k) as [person|]; [|discriminate].
  apply bind_Ok in Hrun as (st1 & Hfirst & Hrun).
  assert (H1 : Forall unit_wf (house_units st1)).
  { destruct (_ && _) in Hfirst;
      [by eapply append_create_wf | by injection Hfirst as <-]. }
  destruct (house_dicts st1 !! k) as [person1|]; [|discriminate].
  destruct (_ && _) in Hrun; [|by injection Hrun as <-].
  destruct (must_file person1);
    [by eapply append_create_wf | by injection Hrun as <-].
Qed.

Lemma family_step_wf (k : nat) (st st' : state) :
  family_step k st = Ok st' ->
  Forall unit_wf (house_units st) -> Forall unit_wf (house_units st').
Proof.
  unfold family_step. intros Hrun Hwf.
  apply bind_Ok in Hrun as (st1 & Hcreate & Hrun).
  apply family_create_wf in Hcreate; [|exact Hwf].
  destruct (1 <? nunits st1); [|by injection Hrun as <-].
  apply bind_Ok in Hrun as (units & Hsearch & Hrun).
  injection Hrun as <-. cbn [house_units]. by eapply search_wf.
Qed.

(** In a family household every list of units [search] is called with
    consists of finished units. *)
Lemma search_units_wf (house : list person) (k : nat) (st st1 : state) :
  for_in (seq 0 k) family_step (mkState 0 house []) = Ok st ->
  family_create k st = Ok st1 ->
  Forall unit_wf (house_units st1).
Proof.
  intros Hloop Hcreate.
  apply family_create_wf in Hcreate; [exact Hcreate|].
  apply (for_in_invariant
           (fun s : state => Forall unit_wf (house_units s))
           (seq 0 k) family_step) with (s := mkState 0 house []);
    [| exact Hloop | by apply Forall_nil].
  intros j sa sb _ Hstep Hinv. by eapply family_step_wf.
Qed.

(** The folds of [search] meet the conditions under which a merge was
    studied above: a unit whose round of [search] begins with [convert1]
    true, and the target, are finished units that are still tax units. *)
Lemma search_fold_conditions (units : list tax_unit) (h : Z) (i ix : nat)
  (top x : tax_unit) :
  Forall unit_wf units ->
  units !! i = Some top -> u_ifdept top = false ->
  units !! ix = Some x -> convert1 h i ix x = true ->
  ix <> i /\ t_flag x = true /\ t_flag top = true /\
  0 <= depne x /\ deps_wf x /\ slots_wf x.
Proof.
  intros Hwf Htop Hdep Hx (Hne & Hnd & _ & _)%convert1_true.
  rewrite Forall_lookup in Hwf.
  destruct (Hwf ix x Hx) as (Hxn & Hxd & Hxs & Hxf).
  destruct (Hwf i top Htop) as (_ & _ & _ & Htf).
  auto 10.
Qed.

(** ** The target of the folds *)

(** A fold of a finished unit into another one: it raises no exception,
    the folded unit is a dependent and no tax unit afterwards, and the
    target has the position of the folded unit under the first [dep] key
    that was free, its earlier keys being kept. *)
Lemma fold_unit_target (ix iy : nat) (us : list tax_unit) (x y : tax_unit) :
  ix <> iy -> us !! ix = Some x -> us !! iy = Some y ->
  Forall unit_wf us ->
  exists us' x' y',
    fold_unit ix iy us = Ok us' /\
    Forall unit_wf us' /\ length us' = length us /\
    us' !! ix = Some x' /\ us' !! iy = Some y' /\
    (forall j, j <> ix -> j <> iy -> us' !! j = us !! j) /\
    t_flag x' = false /\ u_ifdept x' = true /\
    u_ifdept y' = u_ifdept y /\ t_flag y' = t_flag y /\
    depne y < depne y' /\
    dep y' !! (depne y + 1) = Some (Z.of_nat ix) /\
    (forall k, k <= depne y -> dep y' !! k = dep y !! k).
Proof.
  intros Hne Hx Hy Hwf.
  pose proof Hwf as Hall. rewrite Forall_lookup in Hall.
  destruct (Hall ix x Hx) as (Hxn & Hxd & Hxs & _).
  destruct (convert_pair_total ix (set_t_flag false x) y Hxd Hxs)
    as (x' & y' & Hp).
  pose proof (fold_unit_eq ix iy us x y Hx Hy Hne) as Hf.
  rewrite Hp in Hf. cbn [mbind result_bind fst snd] in Hf.
  exists (<[iy := y']> (<[ix := x']> us)), x', y'.
  split; [exact Hf|].
  split; [exact (fold_unit_wf ix iy us _ Hne Hf Hwf)|].
  split; [by rewrite !length_insert|].
  pose proof (lookup_lt_Some _ _ _ Hx) as Hlx.
  pose proof (lookup_lt_Some _ _ _ Hy) as Hly.
  split.
  { rewrite list_lookup_insert_ne by done. by apply list_lookup_insert_eq. }
  split.
  { apply list_lookup_insert_eq. by rewrite length_insert. }
  split.
  { intros j Hj1 Hj2. by rewrite !list_lookup_insert_ne. }
  apply convert_pair_spec in Hp as (Ex & Ey & Hd & Hk).
  split; [exact (f_equal t_flag Ex)|].
  split; [exact (f_equal u_ifdept Ex)|].
  split; [exact (f_equal u_ifdept Ey)|].
  split; [exact (f_equal t_flag Ey)|].
  split.
  { pose proof (f_equal depne Ey) as H. cbn in H. rewrite H.
    destruct (js x =? 2); lia. }
  split; [exact Hd | exact Hk].
Qed.

(** What the round of [search] for a unit other than the target does: it
    raises no exception; it leaves the units as they are unless the unit
    meets [convert1] and one of the two tests, and then the unit is folded
    into the target, once or twice. *)
Lemma search_step_folds (h : Z) (i ix : nat) (us : list tax_unit)
  (x y : tax_unit) :
  ix <> i -> us !! ix = Some x -> us !! i = Some y ->
  Forall unit_wf us ->
  exists us',
    search_step h i (Z.of_nat ix) us = Ok us' /\
    ((~ (0 < h /\ u_ifdept x = false /\ js x <> 2 /\
         (((u_ftype x = 1 \/ u_ftype x = 3 \/ u_ftype x = 5) /\
           totincx x <= 3000) \/ relcode x = 11)) /\
      us' = us) \/
     ((0 < h /\ u_ifdept x = false /\ js x <> 2 /\
       (((u_ftype x = 1 \/ u_ftype x = 3 \/ u_ftype x = 5) /\
         totincx x <= 3000) \/ relcode x = 11)) /\
      exists x' y',
        Forall unit_wf us' /\ length us' = length us /\
        us' !! ix = Some x' /\ us' !! i = Some y' /\
        (forall j, j <> ix -> j <> i -> us' !! j = us !! j) /\
        t_flag x' = false /\ u_ifdept x' = true /\
        u_ifdept y' = u_ifdept y /\ t_flag y' = t_flag y /\
        depne y < depne y' /\
        dep y' !! (depne y + 1) = Some (Z.of_nat ix) /\
        (forall k, k <= depne y -> dep y' !! k = dep y !! k))).
Proof.
  intros Hne Hx Hy Hwf.
  (* the first fold, and the second *)
  destruct (fold_unit_target ix i us x y Hne Hx Hy Hwf)
    as (us1 & x1 & y1 & Hf1 & Hwf1 & Hl1 & Hx1 & Hy1 & Hfr1 &
        Ht1 & Hd1 & Hdy1 & Hty1 & Hn1 & Hk1 & Hkeep1).
  destruct (fold_unit_target ix i us1 x1 y1 Hne Hx1 Hy1 Hwf1)
    as (us2 & x2 & y2 & Hf2 & Hwf2 & Hl2 & Hx2 & Hy2 & Hfr2 &
        Ht2 & Hd2 & Hdy2 & Hty2 & Hn2 & Hk2 & Hkeep2).
  set (E := fun us' : list tax_unit =>
    exists x' y',
      Forall unit_wf us' /\ length us' = length us /\
      us' !! ix = Some x' /\ us' !! i = Some y' /\
      (forall j, j <> ix -> j <> i -> us' !! j = us !! j) /\
      t_flag x' = false /\ u_ifdept x' = true /\
      u_ifdept y' = u_ifdept y /\ t_flag y' = t_flag y /\
      depne y < depne y' /\
      dep y' !! (depne y + 1) = Some (Z.of_nat ix) /\
      (forall k, k <= depne y -> dep y' !! k = dep y !! k)).
  assert (E1 : E us1).
  { exists x1, y1. auto 15. }
  assert (E2 : E us2).
  { exists x2, y2. split; [exact Hwf2|]. split; [congruence|].
    split; [exact Hx2|]. split; [exact Hy2|].
    split; [intros j Hj1 Hj2; by rewrite Hfr2, Hfr1|].
    split; [exact Ht2|]. split; [exact Hd2|].
    split; [congruence|]. split; [congruence|]. split; [lia|].
    split; [rewrite Hkeep2 by lia; exact Hk1|].
    intros k Hk. rewrite Hkeep2 by lia. by apply Hkeep1. }
  unfold search_step. rewrite (py_index_nat _ _ _ Hx).
  cbn [mbind result_bind]. rewrite Nat2Z.id.
  destruct (convert1 h i ix x) eqn:Hc1; cycle 1.
  { exists us. split; [reflexivity|]. left. split; [|reflexivity].
    intros (Hh & Hdx & Hjs & _).
    assert (Hc : convert1 h i ix x = true) by (by apply convert1_true).
    congruence. }
  apply convert1_true in Hc1 as (_ & Hdx & Hh & Hjs).
  set (T := (u_ftype x = 1 \/ u_ftype x = 3 \/ u_ftype x = 5) /\
            totincx x <= 3000).
  assert (Hmid : exists usm,
            (if (u_ftype x =? 1) || (u_ftype x =? 3) || (u_ftype x =? 5)
             then
               units ← (if totincx x <=? 0 then fold_unit ix i us
                        else Ok us);
               if (0 <? totincx x) && (totincx x <=? 3000)
               then fold_unit ix i units else Ok units
             else Ok us) = Ok usm /\
            ((usm = us /\ ~ T) \/ (usm = us1 /\ T))).
  { destruct ((u_ftype x =? 1) || (u_ftype x =? 3) || (u_ftype x =? 5))
      eqn:Hft.
    - assert (Hty : u_ftype x = 1 \/ u_ftype x = 3 \/ u_ftype x = 5).
      { rewrite !orb_true_iff, !Z.eqb_eq in Hft. tauto. }
      destruct (Z.leb_spec (totincx x) 0) as [Hle|Hgt].
      + rewrite Hf1. cbn [mbind result_bind].
        replace (0 <? totincx x) with false
          by (symmetry; apply Z.ltb_ge; lia).
        cbn [andb]. exists us1. split; [reflexivity|]. right.
        split; [reflexivity|]. split; [exact Hty | lia].
      + cbn [mbind result_bind].
        replace (0 <? totincx x) with true
          by (symmetry; apply Z.ltb_lt; lia).
        cbn [andb].
        destruct (Z.leb_spec (totincx x) 3000) as [Hle3|Hgt3].
        * exists us1. split; [exact Hf1|]. right.
          split; [reflexivity|]. split; [exact Hty | lia].
        * exists us. split; [reflexivity|]. left.
          split; [reflexivity|]. intros [_ H]. lia.
    - exists us. split; [reflexivity|]. left. split; [reflexivity|].
      intros [Hty _]. rewrite !orb_false_iff, !Z.eqb_neq in Hft. tauto. }
  destruct Hmid as (usm & -> & Hcase). cbn [mbind result_bind].
  destruct (Z.eqb_spec (relcode x) 11) as [Hrel|Hrel].
  - destruct Hcase as [[-> HT] | [-> HT]].
    + exists us1. split; [exact Hf1|]. right. split; [|exact E1]. auto.
    + exists us2. split; [exact Hf2|]. right. split; [|exact E2]. auto.
  - destruct Hcase as [[-> HT] | [-> HT]].
    + exists us. split; [reflexivity|]. left. split; [|reflexivity].
      intros (_ & _ & _ & [H | H]); [by apply HT | by apply Hrel].
    + exists us1. split; [reflexivity|]. right. split; [|exact E1]. auto.
Qed.

(** The second loop of [search] after its first [m] rounds, for a target
    that is no dependent: the rounds raise no exception, every unit among
    the first [m] that was to be folded is a dependent and no tax unit any
    more, and the target holds its position among its dependents; every
    other unit but the target is as it was. *)
Lemma search_loop_folds (h : Z) (i : nat) (units : list tax_unit)
  (top : tax_unit) :
  Forall unit_wf units -> units !! i = Some top -> u_ifdept top = false ->
  forall m : nat, (m <= length units)%nat ->
  exists us topm,
    for_in (seqZ 0 (Z.of_nat m)) (search_step h i) units = Ok us /\
    Forall unit_wf us /\ length us = length units /\
    us !! i = Some topm /\
    u_ifdept topm = u_ifdept top /\ t_flag topm = t_flag top /\
    depne top <= depne topm /\
    forall ix u, units !! ix = Some u -> ix <> i ->
      ((ix < m)%nat -> folded h top u ->
       exists u' k,
         us !! ix = Some u' /\ t_flag u' = false /\ u_ifdept u' = true /\
         depne top < k <= depne topm /\
         dep topm !! k = Some (Z.of_nat ix)) /\
      (~ ((ix < m)%nat /\ folded h top u) -> us !! ix = Some u).
Proof.
  intros Hwf Htop Hdep. induction m as [|m IH]; intros Hm.
  { exists units, top. split; [reflexivity|]. split; [exact Hwf|].
    split; [reflexivity|]. split; [exact Htop|].
    split; [reflexivity|]. split; [reflexivity|]. split; [lia|].
    intros ix u Hu Hne. split; [lia | auto]. }
  destruct IH as (us & topm & Hrun & Hwfm & Hlen & Htopm & Hdm & Htm & Hnm
                  & Hinv); [lia|].
  replace (Z.of_nat (S m)) with (Z.of_nat m + 1) by lia.
  rewrite seqZ_app by lia. rewrite for_in_app, Hrun.
  cbn [mbind result_bind].
  change (seqZ (0 + Z.of_nat m) 1) with [0 + Z.of_nat m].
  rewrite Z.add_0_l. cbn [for_in].
  destruct (lookup_lt_is_Some_2 units m) as [um Hum]; [lia|].
  destruct (decide (m = i)) as [->|Hmi].
  - (* the round of the target *)
    unfold search_step. rewrite (py_index_nat _ _ _ Htopm).
    cbn [mbind result_bind]. rewrite Nat2Z.id.
    replace (convert1 h i i topm) with false
      by (unfold convert1; by rewrite bool_decide_eq_true_2).
    cbn [mbind result_bind].
    exists us, topm. do 7 (split; [first [reflexivity | assumption]|]).
    intros ix u Hu Hne. destruct (Hinv ix u Hu Hne) as [H1 H2]. split.
    + intros Hlt. apply H1. lia.
    + intros Hn. apply H2. intros [Hlt Hf]. apply Hn. split; [lia | exact Hf].
  - (* the round of another unit *)
    assert (Hm' : us !! m = Some um).
    { apply (Hinv m um Hum Hmi). intros [Hlt _]. lia. }
    destruct (search_step_folds h i m us um topm Hmi Hm' Htopm Hwfm)
      as (us' & -> & [[Hno ->] | [Hyes (x' & y' & Hwf' & Hlen' & Hx' & Hy' & Hfr
            & Htx & Hdx & Hdy & Hty & Hny & Hk & Hkeep)]]);
      cbn [mbind result_bind].
    + exists us, topm. do 7 (split; [first [reflexivity | assumption]|]).
      intros ix u Hu Hne. destruct (Hinv ix u Hu Hne) as [H1 H2]. split.
      * intros Hlt Hf. apply H1; [|exact Hf].
        destruct (decide (ix = m)) as [->|]; [|lia].
        exfalso. apply Hno. rewrite Hum in Hu. injection Hu as <-.
        destruct Hf as (_ & Hf). exact Hf.
      * intros Hn. destruct (decide (ix = m)) as [->|Hne'].
        -- congruence.
        -- apply H2. intros [Hlt Hf]. apply Hn. split; [lia | exact Hf].
    + exists us', y'. split; [reflexivity|]. split; [exact Hwf'|].
      split; [congruence|]. split; [exact Hy'|].
      split; [congruence|]. split; [congruence|]. split; [lia|].
      intros ix u Hu Hne. destruct (Hinv ix u Hu Hne) as [H1 H2].
      destruct (decide (ix = m)) as [->|Hne'].
      * rewrite Hum in Hu. injection Hu as <-. split.
        -- intros _ _. exists x', (depne topm + 1).
           split; [exact Hx'|]. split; [exact Htx|]. split; [exact Hdx|].
           split; [lia | exact Hk].
        -- intros Hn. exfalso. apply Hn. split; [lia|].
           split; [exact Hdep | exact Hyes].
      * rewrite (Hfr ix Hne' Hne). split.
        -- intros Hlt Hf.
           destruct H1 as (u' & k & Hu' & Htu & Hdu & Hk' & Hdk);
             [lia | exact Hf |].
           exists u', k. split; [exact Hu'|]. split; [exact Htu|].
           split; [exact Hdu|]. split; [lia|].
           rewrite Hkeep by lia. exact Hdk.
        -- intros Hn. apply H2. intros [Hlt Hf]. apply Hn.
           split; [lia | exact Hf].
Qed.

(** C4.  [search], called for all the units of a household, returns; its
    target is the unit whose total income is the highest of the household,
    the last one among equals; and it folds into that target the units
    [folded] describes, and no other: such a unit is a dependent and no tax
    unit afterwards, and its position stands under a [dep] key the target
    has gained, while every other unit but the target is as it was.  The
    target keeps its flags [t_flag] and [ifdept].  The units of a
    household are finished units and different records (they are built by
    [create] for persons on different lines), and one of them at least has
    an income that is not below the initial value of [highest]. *)
Theorem search_folds_into_top (units : list tax_unit) :
  NoDup units -> Forall unit_wf units ->
  (exists u, u ∈ units /\ highest0 <= totincx u) ->
  exists highest idxhigh top units' top',
    search_top units = Ok (highest, idxhigh) /\
    units !! idxhigh = Some top /\ totincx top = highest /\
    (forall u, u ∈ units -> totincx u <= highest) /\
    (forall j u, units !! j = Some u -> (idxhigh < j)%nat ->
                 totincx u < highest) /\
    search (Z.of_nat (length units)) units = Ok units' /\
    length units' = length units /\
    units' !! idxhigh = Some top' /\
    u_ifdept top' = u_ifdept top /\ t_flag top' = t_flag top /\
    forall ix u, units !! ix = Some u -> ix <> idxhigh ->
      (folded highest top u ->
       exists u' k,
         units' !! ix = Some u' /\ t_flag u' = false /\ u_ifdept u' = true /\
         depne top < k <= depne top' /\
         dep top' !! k = Some (Z.of_nat ix)) /\
      (~ folded highest top u -> units' !! ix = Some u).
Proof.
  intros Hnd Hwf Hbound.
  destruct (search_top_spec units Hnd Hbound)
    as (h & i & top & Htop & Hi & Hh & Hmax & Hlast).
  exists h, i, top.
  unfold search. rewrite Htop. cbn [mbind result_bind]. rewrite Hi.
  destruct (u_ifdept top) eqn:Hdep; cbn [negb].
  - exists units, top. do 5 (split; [first [reflexivity | assumption]|]).
    split; [reflexivity|]. split; [reflexivity|]. split; [exact Hi|].
    split; [exact Hdep|]. split; [reflexivity|].
    intros ix u Hu Hne. split; [|auto].
    intros (Hf & _). congruence.
  - destruct (search_loop_folds h i units top Hwf Hi Hdep (length units))
      as (us & topm & Hrun & _ & Hlen & Htopm & Hdm & Htm & _ & Hinv); [lia|].
    exists us, topm. do 5 (split; [first [reflexivity | assumption]|]).
    split; [exact Hrun|]. split; [exact Hlen|]. split; [exact Htopm|].
    split; [congruence|]. split; [exact Htm|].
    intros ix u Hu Hne. destruct (Hinv ix u Hu Hne) as [H1 H2]. split.
    + apply H1. by eapply lookup_lt_Some.
    + intros Hn. apply H2. intros [_ Hf]. by apply Hn.
Qed.

(** * Further properties of the code *)

(** ** Ages, relationships and the dependent tests *)

(** Decides the comparisons of the goal that follow from the hypotheses,
    and splits the goal on those that remain. *)
Ltac decide_tests :=
  repeat match goal with
  | |- context [?a <? ?b] =>
    first [ rewrite (proj2 (Z.ltb_lt a b)) by lia
          | rewrite (proj2 (Z.ltb_ge a b)) by lia ]
  | |- context [?a <=? ?b] =>
    first [ rewrite (proj2 (Z.leb_le a b)) by lia
          | rewrite (proj2 (Z.leb_gt a b)) by lia ]
  | |- context [?a =? ?b] =>
    first [ rewrite (proj2 (Z.eqb_eq a b)) by lia
          | rewrite (proj2 (Z.eqb_neq a b)) by lia ]
  end.

Ltac split_tests :=
  repeat match goal with
  | |- context [?a <? ?b] => destruct (Z.ltb_spec a b)
  | |- context [?a <=? ?b] => destruct (Z.leb_spec a b)
  | |- context [?a =? ?b] => destruct (Z.eqb_spec a b)
  end.

(** The age brackets [check_age] tells apart. *)
Lemma age_cases (a : Z) :
  a <= 0 \/ 1 <= a <= 5 \/ 6 <= a <= 13 \/ 14 <= a <= 17 \/
  18 <= a <= 20 \/ 21 <= a <= 64 \/ 65 <= a.
Proof. lia. Qed.

(** [check_age] as the increments it makes, counter by counter. *)
Lemma check_age_Some (c : counters) (a : Z) (dependent : bool) :
  check_age c (Some a) dependent =
    let child := dependent && (0 <? a) && (a <? 18) in
    mkCounters
      (nu05 c + if child && (a <=? 5) then 1 else 0)
      (nu13 c + if child && (5 <? a) && (a <=? 13) then 1 else 0)
      (nu18_dep c + if child then 1 else 0)
      (nu18 c + if (0 <? a) && (a <? 18) then 1 else 0)
      (n1820 c + if (18 <=? a) && (a <=? 20) then 1 else 0)
      (n21 c + if 21 <=? a then 1 else 0)
      (elderly_dependent c + if dependent && (65 <=? a) then 1 else 0)
      (f2441 c + if child && (5 <? a) && (a <=? 13) then 1 else 0)
      (EIC c + if child then 1 else 0)
      (n24 c + if child then 1 else 0).
Proof.
  unfold check_age. cbv zeta.
  destruct c as [c1 c2 c3 c4 c5 c6 c7 c8 c9 c10].
  cbn [nu05 nu13 nu18_dep nu18 n1820 n21 elderly_dependent f2441 EIC n24].
  destruct dependent;
    destruct (age_cases a) as [H|[H|[H|[H|[H|[H|H]]]]]];
    decide_tests; cbn; f_equal; lia.
Qed.

(** X1.  [check_age] counts a person in exactly one of the three age
    brackets [nu18], [n1820] and [n21] when the age is positive, and in
    none of them when the age is zero, negative or not a number. *)
Theorem check_age_one_bracket (c : counters) (age : option Z)
  (dependent : bool) :
  nu18 (check_age c age dependent) + n1820 (check_age c age dependent) +
  n21 (check_age c age dependent) =
    nu18 c + n1820 c + n21 c +
    match age with
    | Some a => if 0 <? a then 1 else 0
    | None => 0
    end.
Proof.
  destruct age as [a|]; [|simpl; lia].
  rewrite check_age_Some. cbn.
  destruct (age_cases a) as [H|[H|[H|[H|[H|[H|H]]]]]];
    decide_tests; cbn; lia.
Qed.

Lemma check_age_cnt_wf (c : counters) (age : option Z) (dependent : bool) :
  cnt_wf c -> cnt_wf (check_age c age dependent).
Proof.
  unfold cnt_wf. intros H.
  destruct age as [a|]; [|exact H].
  rewrite check_age_Some. cbn.
  destruct dependent;
    destruct (age_cases a) as [Ha|[Ha|[Ha|[Ha|[Ha|[Ha|Ha]]]]]];
    decide_tests; cbn; lia.
Qed.

Lemma counters0_cnt_wf : cnt_wf counters0.
Proof. unfold cnt_wf. simpl. lia. Qed.

Lemma counters_add_cnt_wf (a b : counters) :
  cnt_wf a -> cnt_wf b -> cnt_wf (counters_add a b).
Proof. unfold cnt_wf. simpl. lia. Qed.

(** X2.  [relation] is -1, the value the income test of [ifdept] reads as
    "child of the head", for these pairs of relationship codes only: a
    person of code 5 or 11 in a unit whose head has code 9, a person of code
    9 in a unit headed by code 8, and a person of code 7 in a unit headed by
    code 5 or 11. *)
Theorem relation_child (p : person) (record : tax_unit) :
  relation p record = -1 <->
  ((a_exprrp p = 5 \/ a_exprrp p = 11) /\ relcode record = 9) \/
  (a_exprrp p = 9 /\ relcode record = 8) \/
  (a_exprrp p = 7 /\ (relcode record = 5 \/ relcode record = 11)).
Proof.
  unfold relation, generation.
  generalize (a_exprrp p) (relcode record). intros e r.
  split_tests; simpl; split; intros; lia.
Qed.

(** X3.  Whatever the relationship and the age: a person whose income, as
    [ifdept] adds it up, is at most 2500 and below the income of the unit,
    or leaves the sum of the two at zero or less, is a dependent of the
    unit. *)
Theorem ifdept_low_income (p : person) (record : tax_unit) :
  ifdept_income p <= 2500 ->
  totincx record + ifdept_income p <= 0 \/ ifdept_income p < totincx record ->
  ifdept p record = true.
Proof.
  intros H4 H5. unfold ifdept, ifdept_test4, ifdept_test5.
  generalize dependent (ifdept_income p). generalize (totincx record).
  intros t i H4 H5.
  destruct ((a_exprrp p =? 5) || (relation p record =? -1));
    [destruct ((a_age p <=? 18) || ((a_age p <=? 23) && (0 <? a_enrlw p)))|];
    split_tests; simpl; lia.
Qed.

(** X4.  The support test: a person whose income is at least that of the
    unit, the two having a positive sum, is no dependent of the unit, child
    or not. *)
Theorem ifdept_half_support (p : person) (record : tax_unit) :
  0 < totincx record + ifdept_income p ->
  totincx record <= ifdept_income p ->
  ifdept p record = false.
Proof.
  intros H1 H2. unfold ifdept, ifdept_test5.
  generalize dependent (ifdept_income p). generalize (totincx record).
  intros t i H1 H2.
  destruct (ifdept_test4 p record); split_tests; simpl; lia.
Qed.

(** ** The unit [create] builds *)

Lemma set_d_flag_id (p : person) : set_d_flag (d_flag p) p = p.
Proof. by destruct p. Qed.

(** [create] in two parts: the unit of the head and the spouse, and the
    search for dependents. *)
Lemma create_inv (n n' : Z) (ri : nat) (house house' : list person)
  (u : tax_unit) :
  create n ri house = Ok (n', house', u) ->
  exists (record : person) (h1 : list person) (u1 u2 : tax_unit),
    house !! ri = Some record /\
    h1 = match spouse_of record house with
         | Some (sj, sp) => <[sj := set_s_flag true sp]> house
         | None => house
         end /\
    (a_spouse record <> 0 -> is_Some (spouse_of record house)) /\
    inc u1 =
      match spouse_of record house with
      | Some (_, sp) =>
        mkIncomes (wsal_val record + wsal_val sp)
          (int_val record + int_val sp) (div_val record + div_val sp)
          (alm_val record + alm_val sp) (semp_val record + semp_val sp)
          (rtm_val record + rtm_val sp) (rnt_val record + rnt_val sp)
          (frse_val record + frse_val sp) (uc_val record + uc_val sp)
          (ss_val record + ss_val_y sp)
      | None =>
        mkIncomes (wsal_val record) (int_val record) (div_val record)
          (alm_val record) (semp_val record) (rtm_val record)
          (rnt_val record) (frse_val record) (uc_val record) (ss_val record)
      end /\
    js u1 = (if (a_maritl record =? 1) || (a_maritl record =? 2) ||
                (a_maritl record =? 3) then 2 else 1) /\
    ages u1 = (a_age ∘ snd) <$> spouse_of record house /\
    cnt u1 =
      match spouse_of record house with
      | Some (_, sp) =>
        check_age (check_age counters0 (Some (a_age record)) false)
          (Some (a_age sp)) false
      | None => check_age counters0 (Some (a_age record)) false
      end /\
    tot u1 =
      match spouse_of record house with
      | Some (_, sp) => bens_add (bens_add bens0 (ben_vals record)) (ben_vals sp)
      | None => bens_add bens0 (ben_vals record)
      end /\
    u_ifdept u1 = d_flag record /\ xfid u1 = ffpos record /\
    relcode u1 = a_exprrp record /\ u_ftype u1 = ftype record /\
    sp_ptr u1 = a_spouse record /\
    depne u1 = 0 /\ dep u1 = ∅ /\ depage u1 = ∅ /\ ben_number u1 = 3 /\
    (forall i, is_Some (slots0 !! i) -> is_Some (slots u1 !! i)) /\
    for_in (seq 0 (length h1)) (create_search ri) (h1, u1) = Ok (house', u2) /\
    u = set_t_flag true u2.
Proof.
  unfold create, spouse_of.
  destruct (house !! ri) as [record|] eqn:Hri; [|discriminate].
  intros Hrun. exists record.
  destruct ((a_maritl record =? 1) || (a_maritl record =? 2)
            || (a_maritl record =? 3)) eqn:Hms; cbn [Z.eqb Pos.eqb andb] in *.
  - destruct (negb (a_spouse record =? 0)) eqn:Hptr.
    + destruct (find_spouse record house) as [[sj sp]|] eqn:Hf;
        [|discriminate].
      cbn [use_spouse mbind result_bind] in Hrun.
      apply bind_Ok in Hrun as ([h2 u2] & Hloop & Hrun).
      injection Hrun as <- <- <-.
      match type of Hloop with
      | for_in _ _ (?h, ?u1) = _ => exists h, u1, u2
      end.
      split; [reflexivity|]. split; [reflexivity|].
      split; [eauto|].
      repeat (split; [reflexivity|]).
      split; [intros i Hi; cbn [slots set_ben_number add_benefit set_slot set_tot];
               repeat (first [exact Hi | apply insert_keeps])|].
      split; [exact Hloop | reflexivity].
    + cbn [mbind result_bind] in Hrun.
      apply bind_Ok in Hrun as ([h2 u2] & Hloop & Hrun).
      injection Hrun as <- <- <-.
      match type of Hloop with
      | for_in _ _ (?h, ?u1) = _ => exists h, u1, u2
      end.
      split; [reflexivity|]. split; [reflexivity|].
      split. { intros Hz. apply Z.eqb_neq in Hz. rewrite Hz in Hptr.
               discriminate. }
      repeat (split; [reflexivity|]).
      split; [intros i Hi; cbn [slots set_ben_number add_benefit set_slot set_tot];
               repeat (first [exact Hi | apply insert_keeps])|].
      split; [exact Hloop | reflexivity].
  - destruct (negb (a_spouse record =? 0)) eqn:Hptr;
      cbn [use_spouse mbind result_bind] in Hrun; [discriminate|].
    apply bind_Ok in Hrun as ([h2 u2] & Hloop & Hrun).
    injection Hrun as <- <- <-.
    match type of Hloop with
      | for_in _ _ (?h, ?u1) = _ => exists h, u1, u2
      end.
    split; [reflexivity|]. split; [reflexivity|].
    split. { intros Hz. apply Z.eqb_neq in Hz. rewrite Hz in Hptr.
             discriminate. }
    repeat (split; [reflexivity|]).
    split; [intros i Hi; cbn [slots set_ben_number add_benefit set_slot set_tot];
               repeat (first [exact Hi | apply insert_keeps])|].
    split; [exact Hloop | reflexivity].
Qed.

(** One round of the dependent search: nothing changes, or the person at
    [j], unflagged so far and of the family of the unit, passes [ifdept],
    gets the dependent flag and is added to the unit with the position
    [house.index(person)] gives. *)
Lemma create_search_inv (ri j : nat) (house house' : list person)
  (u u' : tax_unit) :
  create_search ri j (house, u) = Ok (house', u') ->
  (house' = house /\ u' = u) \/
  exists (p : person) (idx : nat),
    house !! j = Some p /\ d_flag p = false /\ s_flag p = false /\
    ffpos p = xfid u /\ ifdept p u = true /\
    house' = <[j := set_d_flag true p]> house /\
    house' !! idx = Some (set_d_flag true p) /\
    u' = set_ben_number (ben_number u + 1)
           (add_benefit (set_d_flag true p)
              (set_depage (depne u + 1) (Some (a_age p))
                 (set_cnt (check_age (cnt u) (Some (a_age p)) true)
                    (set_dep (depne u + 1) (Z.of_nat idx)
                       (set_depne (depne u + 1) u))))
              (ben_number u)).
Proof.
  unfold create_search.
  destruct (house !! j) as [p|] eqn:Hj; [|discriminate].
  destruct (house !! ri) as [record|]; [|discriminate].
  intros Hrun.
  apply bind_Ok in Hrun as (ip & _ & Hrun).
  apply bind_Ok in Hrun as (ir & _ & Hrun).
  destruct (_ && _) eqn:Hsearch in Hrun; [|left; by injection Hrun as <- <-].
  rewrite !andb_true_iff, !negb_true_iff in Hsearch.
  destruct Hsearch as ((((_ & Hfam) & Hd) & Hs) & Hh).
  apply Z.eqb_eq in Hfam.
  destruct (ifdept p u) eqn:Hdep; cbn [d_flag set_d_flag] in Hrun.
  - right.
    apply bind_Ok in Hrun as (idx & Hidx & Hrun).
    unfold py_list_index in Hidx.
    destruct (list_find _ _) as [[i y]|] eqn:Hfind in Hidx; [|discriminate].
    injection Hidx as ->.
    apply list_find_Some in Hfind as (Hlook & -> & _).
    unfold addept in Hrun.
    rewrite list_lookup_insert_eq in Hrun by (by eapply lookup_lt_Some).
    injection Hrun as <- <-.
    exists p, idx.
    rewrite list_insert_insert_eq.
    repeat (split; [done|]). reflexivity.
  - left. injection Hrun as <- <-. split; [|reflexivity].
    apply list_insert_id. rewrite Hj. f_equal.
    rewrite <- Hd. symmetry. apply set_d_flag_id.
Qed.

(** The dependent search of [create] as a whole. *)
Lemma create_search_loop (ri : nat) (P : list person * tax_unit -> Prop)
  (l : list nat) :
  (forall j house u house' u',
     create_search ri j (house, u) = Ok (house', u') ->
     P (house, u) -> P (house', u')) ->
  forall house u house' u',
    for_in l (create_search ri) (house, u) = Ok (house', u') ->
    P (house, u) -> P (house', u').
Proof.
  intros Hstep house u house' u' Hrun HP.
  apply (for_in_invariant P l (create_search ri)) with (s := (house, u));
    [|exact Hrun | exact HP].
  intros j [ha ua] [hb ub] _ Hs HP0. exact (Hstep j ha ua hb ub Hs HP0).
Qed.

Lemma raised_refl (p : person) : raised p p.
Proof. unfold raised. auto. Qed.

Lemma raised_trans (p q r : person) : raised p q -> raised q r -> raised p r.
Proof.
  unfold raised. intros (H1 & H2 & H3 & H4) (H5 & H6 & H7 & H8).
  repeat split; [congruence | congruence | auto | auto].
Qed.

Lemma Forall2_raised_refl (house : list person) : Forall2 raised house house.
Proof. apply Forall_Forall2_diag, Forall_forall. intros. apply raised_refl. Qed.

Lemma Forall2_raised_trans (h1 h2 h3 : list person) :
  Forall2 raised h1 h2 -> Forall2 raised h2 h3 -> Forall2 raised h1 h3.
Proof.
  intros H12. revert h3.
  induction H12 as [|p q l k Hpq _ IH]; intros h3 H23.
  - by apply Forall2_nil_inv_l in H23 as ->.
  - apply Forall2_cons_inv_l in H23 as (r & k' & Hqr & Hk & ->).
    constructor; [by eapply raised_trans | by apply IH].
Qed.

Lemma Forall2_raised_insert (house : list person) (j : nat) (p p' : person) :
  house !! j = Some p -> raised p p' ->
  Forall2 raised house (<[j := p']> house).
Proof.
  intros Hj Hp.
  rewrite <- (list_insert_id house j p Hj) at 1.
  apply Forall2_insert; [apply Forall2_raised_refl | exact Hp].
Qed.

Lemma Forall2_raised_unflag (h1 h2 : list person) :
  Forall2 raised h1 h2 -> unflag <$> h2 = unflag <$> h1.
Proof.
  induction 1 as [|p q l k (Hun & _) _ IH]; [reflexivity|].
  rewrite !fmap_cons. by f_equal.
Qed.

Lemma create_search_raised (ri j : nat) (house house' : list person)
  (u u' : tax_unit) :
  create_search ri j (house, u) = Ok (house', u') ->
  Forall2 raised house house'.
Proof.
  intros [[-> _] | (p & idx & Hj & Hd & _ & _ & _ & -> & _)]%create_search_inv.
  - apply Forall2_raised_refl.
  - apply (Forall2_raised_insert house j p); [exact Hj|].
    unfold raised. by destruct p.
Qed.

Lemma create_raised (n n' : Z) (ri : nat) (house house' : list person)
  (u : tax_unit) :
  create n ri house = Ok (n', house', u) ->
  Forall2 raised house house'.
Proof.
  intros (record & h1 & u1 & u2 & Hri & Hh1 & _ & _ & _ & _ & _ & _ & _ & _
          & _ & _ & _ & _ & _ & _ & _ & _ & Hloop & _)%create_inv.
  assert (H1 : Forall2 raised house h1).
  { rewrite Hh1.
    destruct (spouse_of record house) as [[sj sp]|] eqn:Hsp;
      [|apply Forall2_raised_refl].
    unfold spouse_of in Hsp. destruct (_ && _) in Hsp; [|discriminate].
    apply list_find_Some in Hsp as (Hsj & _).
    apply (Forall2_raised_insert house sj sp); [exact Hsj|].
    unfold raised. by destruct sp. }
  apply (create_search_loop ri
           (fun st => Forall2 raised house st.1) _) in Hloop;
    [exact Hloop | | exact H1].
  intros j ha ua hb ub Hstep Ha; cbn [fst] in *.
  eapply Forall2_raised_trans; [exact Ha|].
  by eapply create_search_raised.
Qed.

(** X5.  Of the household, [create] changes the spouse and dependent flags
    only, and it only sets them: no flag is cleared, the head flag [h_flag]
    of no person is set, and no other column of a row changes. *)
Theorem create_sets_flags_only (n n' : Z) (ri : nat)
  (house house' : list person) (u : tax_unit) :
  create n ri house = Ok (n', house', u) ->
  length house' = length house /\
  forall k p', house' !! k = Some p' ->
    exists p, house !! k = Some p /\ raised p p'.
Proof.
  intros Hr%create_raised.
  split; [symmetry; by eapply Forall2_length|].
  intros k p' Hp'.
  destruct (Forall2_lookup_r _ _ _ _ _ Hr Hp') as (p & Hp & Hpp). eauto.
Qed.

Lemma create_search_head_part (ri j : nat) (house house' : list person)
  (u u' : tax_unit) :
  create_search ri j (house, u) = Ok (house', u') ->
  head_part u' = head_part u /\ u_ifdept u' = u_ifdept u.
Proof.
  intros [[_ ->] | (p & idx & _ & _ & _ & _ & _ & _ & _ & ->)]%create_search_inv;
    split; reflexivity.
Qed.

Lemma create_head_part (n n' : Z) (ri : nat) (house house' : list person)
  (u : tax_unit) :
  create n ri house = Ok (n', house', u) ->
  exists (record : person) (u1 : tax_unit),
    house !! ri = Some record /\ head_part u = head_part u1 /\
    u_ifdept u = u_ifdept u1 /\
    inc u1 =
      match spouse_of record house with
      | Some (_, sp) =>
        mkIncomes (wsal_val record + wsal_val sp)
          (int_val record + int_val sp) (div_val record + div_val sp)
          (alm_val record + alm_val sp) (semp_val record + semp_val sp)
          (rtm_val record + rtm_val sp) (rnt_val record + rnt_val sp)
          (frse_val record + frse_val sp) (uc_val record + uc_val sp)
          (ss_val record + ss_val_y sp)
      | None =>
        mkIncomes (wsal_val record) (int_val record) (div_val record)
          (alm_val record) (semp_val record) (rtm_val record)
          (rnt_val record) (frse_val record) (uc_val record) (ss_val record)
      end /\
    js u1 = (if (a_maritl record =? 1) || (a_maritl record =? 2) ||
                (a_maritl record =? 3) then 2 else 1) /\
    ages u1 = (a_age ∘ snd) <$> spouse_of record house /\
    u_ifdept u1 = d_flag record /\ xfid u1 = ffpos record /\
    relcode u1 = a_exprrp record /\ u_ftype u1 = ftype record /\
    sp_ptr u1 = a_spouse record /\
    (a_spouse record <> 0 -> is_Some (spouse_of record house)) /\
    t_flag u = true.
Proof.
  intros (record & h1 & u1 & u2 & Hri & Hh1 & Hptr & Hinc & Hjs & Hages & _
          & _ & Hdep & Hfid & Hrel & Hft & Hsp & _ & _ & _ & _ & _ & Hloop
          & ->)%create_inv.
  exists record, u1.
  apply (create_search_loop ri
           (fun st => head_part st.2 = head_part u1 /\
                      u_ifdept st.2 = u_ifdept u1) _) in Hloop;
    [| | by split].
  - cbn [snd] in Hloop. destruct Hloop as [Hh Hd].
    repeat (split; [assumption|]). reflexivity.
  - intros j ha ua hb ub Hstep [Ha Hb]; cbn [snd] in *.
    rewrite <- Ha, <- Hb. by eapply create_search_head_part.
Qed.

(** X6.  The unit [create] builds for a person has the income of that
    person, or of the person and the spouse found for a joint head with a
    spouse pointer: stream by stream the sum of the two rows, the social
    security of the head being the column [ss_val] and that of the spouse
    the column [ss_val_y].  The dependents add nothing to it. *)
Theorem create_income (n n' : Z) (ri : nat) (house house' : list person)
  (u : tax_unit) (record : person) :
  create n ri house = Ok (n', house', u) -> house !! ri = Some record ->
  inc u =
    match spouse_of record house with
    | Some (_, sp) =>
      mkIncomes (wsal_val record + wsal_val sp)
        (int_val record + int_val sp) (div_val record + div_val sp)
        (alm_val record + alm_val sp) (semp_val record + semp_val sp)
        (rtm_val record + rtm_val sp) (rnt_val record + rnt_val sp)
        (frse_val record + frse_val sp) (uc_val record + uc_val sp)
        (ss_val record + ss_val_y sp)
    | None =>
      mkIncomes (wsal_val record) (int_val record) (div_val record)
        (alm_val record) (semp_val record) (rtm_val record)
        (rnt_val record) (frse_val record) (uc_val record) (ss_val record)
    end.
Proof.
  intros (record' & u1 & Hri & Hhead & _ & Hinc & _)%create_head_part Hrec.
  assert (record' = record) as -> by congruence.
  rewrite <- Hinc. exact (f_equal (fun t => t.1.1.1.1.1.1.1.1.1.1.1) Hhead).
Qed.

(** X7.  A unit [create] builds for a person who carries the dependent
    flag, as [computation] does for a dependent who must file, is marked as
    a dependent filer and passes [filst] whatever its income. *)
Theorem create_dependent_filer (n n' : Z) (ri : nat)
  (house house' : list person) (u : tax_unit) (record : person) :
  create n ri house = Ok (n', house', u) -> house !! ri = Some record ->
  d_flag record = true ->
  u_ifdept u = true /\ t_flag u = true /\ filst u = 1.
Proof.
  intros (record' & u1 & Hri & _ & Hu1 & _ & _ & _ & Hdep & _ & _ & _ & _ & _
          & Ht)%create_head_part Hrec Hflag.
  assert (record' = record) as -> by congruence.
  assert (Hu : u_ifdept u = true) by congruence.
  split; [exact Hu|]. split; [exact Ht|].
  unfold filst. rewrite Hu. by destruct (filst_tests u).
Qed.

Lemma create_search_deps_in (ri j : nat) (house house' : list person)
  (u u' : tax_unit) :
  create_search ri j (house, u) = Ok (house', u') ->
  0 <= depne u /\ ben_number u = depne u + 3 /\ deps_in house u ->
  0 <= depne u' /\ ben_number u' = depne u' + 3 /\ deps_in house' u'.
Proof.
  intros [[-> ->] | (p & idx & Hj & Hd & _ & Hfam & _ & -> & Hidx & ->)]
    %create_search_inv (Hpos & Hben & Hdeps); [done|].
  cbn. split; [lia|]. split; [lia|].
  intros k Hk. cbn in Hk.
  destruct (decide (k = depne u + 1)) as [->|Hne].
  - exists idx, (set_d_flag true p). cbn.
    rewrite !lookup_insert_eq. by rewrite Hidx.
  - destruct (Hdeps k) as (idx0 & p0 & Hdep0 & Hp0 & Hflag & Hfam0 & Hage0);
      [lia|].
    exists idx0, p0. cbn.
    rewrite !lookup_insert_ne by done.
    repeat (split; [try done|]); [|done].
    rewrite list_lookup_insert_ne; [done|].
    intros ->. rewrite Hj in Hp0. injection Hp0 as ->. congruence.
Qed.

(** X8.  The dependents of a unit [create] builds are persons of the
    household: for every number from 1 to [depne] the key [dep<n>] holds
    the position of a person who carries the dependent flag and has the
    family position of the unit, and [depage<n>] holds the age of that
    person.  The counter of benefit slots stands three above the number of
    dependents. *)
Theorem create_dependents (n n' : Z) (ri : nat) (house house' : list person)
  (u : tax_unit) :
  create n ri house = Ok (n', house', u) ->
  0 <= depne u /\ ben_number u = depne u + 3 /\ deps_in house' u.
Proof.
  intros (record & h1 & u1 & u2 & _ & _ & _ & _ & _ & _ & _ & _ & _ & _
          & _ & _ & _ & Hdepne & _ & _ & Hben & _ & Hloop & ->)%create_inv.
  apply (create_search_loop ri
           (fun st => 0 <= depne st.2 /\ ben_number st.2 = depne st.2 + 3 /\
                      deps_in st.1 st.2) _) in Hloop.
  - exact Hloop.
  - intros j ha ua hb ub. apply create_search_deps_in.
  - cbn [fst snd]. rewrite Hdepne, Hben.
    split; [lia|]. split; [lia|]. intros k Hk. rewrite Hdepne in Hk. lia.
Qed.

Lemma create_cnt_wf (n n' : Z) (ri : nat) (house house' : list person)
  (u : tax_unit) :
  create n ri house = Ok (n', house', u) -> cnt_wf (cnt u).
Proof.
  intros (record & h1 & u1 & u2 & _ & _ & _ & _ & _ & _ & Hcnt & _ & _ & _
          & _ & _ & _ & _ & _ & _ & _ & _ & Hloop & ->)%create_inv.
  apply (create_search_loop ri (fun st => cnt_wf (cnt st.2)) _) in Hloop.
  - exact Hloop.
  - intros j ha ua hb ub Hstep Hwf. cbn [snd] in *.
    apply create_search_inv in Hstep
      as [[_ ->] | (p & idx & _ & _ & _ & _ & _ & _ & _ & ->)];
      [exact Hwf|].
    change (cnt_wf (check_age (cnt ua) (Some (a_age p)) true)).
    by apply check_age_cnt_wf.
  - cbn [snd]. rewrite Hcnt.
    destruct (spouse_of record house) as [[sj sp]|];
      repeat apply check_age_cnt_wf; apply counters0_cnt_wf.
Qed.

(** X9.  [create] returns a unit for a person of the household exactly when
    the spouse pointer of the person is sound; when it is not, [create]
    ends in the exception [UnboundLocalError]. *)
Theorem create_returns_iff (n : Z) (ri : nat) (house : list person)
  (record : person) :
  house !! ri = Some record ->
  (spouse_found house record <->
   exists n' house' u, create n ri house = Ok (n', house', u)) /\
  (~ spouse_found house record <->
   create n ri house = Raise UnboundLocalError).
Proof.
  intros Hri.
  assert (Hno : ~ spouse_found house record ->
                create n ri house = Raise UnboundLocalError)
    by (by apply create_raises).
  assert (Hyes : spouse_found house record ->
                 exists n' house' u, create n ri house = Ok (n', house', u))
    by (by apply create_total).
  assert (Hinv : (exists n' house' u, create n ri house = Ok (n', house', u))
                 -> spouse_found house record).
  { intros (n' & house' & u & Hrun).
    apply create_inv in Hrun
      as (record' & h1 & u1 & u2 & Hri' & _ & Hptr & _).
    assert (record' = record) as -> by congruence.
    destruct (decide (a_spouse record = 0)) as [Hz|Hnz]; [by left|].
    right. destruct (Hptr Hnz) as [[sj sp] Hsp].
    unfold spouse_of in Hsp.
    destruct ((a_maritl record =? 1) || (a_maritl record =? 2)
              || (a_maritl record =? 3)) eqn:Hms; [|discriminate].
    destruct (negb _) in Hsp; [|discriminate]. cbn [andb] in Hsp.
    split.
    - rewrite !orb_true_iff, !Z.eqb_eq in Hms. tauto.
    - apply find_spouse_is_Some. by exists (sj, sp). }
  split; split; auto.
  - intros Hrun Hsp. destruct (Hyes Hsp) as (? & ? & ? & Hok). congruence.
Qed.

(** ** The dependents [convert] hands over *)

(** [convert] in its parts: the slots of the folded filers, the loop over
    the dependents of the folded unit, the sums, and the loop over its
    benefit slots. *)
Lemma convert_pair_inv (ix : nat) (x y x' y' : tax_unit) :
  convert_pair ix x y = Ok (x', y') ->
  exists (y0 y1 : tax_unit),
    y0 = (if js x =? 2 then
            set_depage (depne y + 2) (ages x)
              (set_depage (depne y + 1) (Some (ageh x))
                 (set_dep (depne y + 2) (sp_ptr x)
                    (set_dep (depne y + 1) (Z.of_nat ix)
                       (set_depne (depne y + (depne x + 2)) y))))
          else
            set_depage (depne y + 1) (Some (ageh x))
              (set_dep (depne y + 1) (Z.of_nat ix)
                 (set_depne (depne y + (depne x + 1)) y))) /\
    for_in (seqZ 1 (depne x))
      (convert_deps (depne y + (if js x =? 2 then 2 else 1)))
      (set_depne 0 (set_ifdept true x), y0) = Ok (x', y1) /\
    for_in (seqZ 1 (ben_number x' - 1)) (convert_slot x')
      (set_tot (bens_add (tot y1) (tot x'))
         (set_cnt (counters_add (cnt y1) (cnt x')) y1)) = Ok y'.
Proof.
  unfold convert_pair. intros Hrun.
  assert (Hnil : forall n, (0 <? n) = false -> seqZ 1 n = []).
  { intros n Hn%Z.ltb_ge. unfold seqZ.
    replace (Z.to_nat n) with 0%nat by lia. reflexivity. }
  destruct (js x =? 2) eqn:Hjs; cbn [js set_depne set_ifdept] in Hrun;
    rewrite Hjs in Hrun.
  all: apply bind_Ok in Hrun as ([x1 y1] & Hdeps & Hrun).
  all: apply bind_Ok in Hrun as (y2 & Hslots & Hrun).
  all: injection Hrun as <- <-.
  all: eexists _, y1; split; [reflexivity|]; split; [|exact Hslots].
  all: cbn [depne set_depne set_ifdept] in Hdeps.
  all: destruct (0 <? depne x) eqn:Hpos; [exact Hdeps|].
  all: rewrite (Hnil _ Hpos); exact Hdeps.
Qed.

(** The loop of [convert] over the dependents of the folded unit [x], for a
    target that has [b - 1] dependents or more: the ages are copied, the
    positions of the first [b] dependents as well; the round for the
    dependent [nd] leaves a zero under the key [b + nd] of [x], which the
    rounds after [b] read as the position. *)
Lemma convert_deps_copies (b : Z) (m : nat) :
  1 <= b ->
  forall x y x' y',
    for_in (seqZ 1 (Z.of_nat m)) (convert_deps b) (x, y) = Ok (x', y') ->
    depage x' = depage x /\
    (forall k, dep x' !! k =
               if (b + 1 <=? k) && (k <=? b + Z.of_nat m) then Some 0
               else dep x !! k) /\
    (forall k, k <= b ->
       dep y' !! k = dep y !! k /\ depage y' !! k = depage y !! k) /\
    (forall nd, 1 <= nd <= Z.of_nat m ->
       dep y' !! (b + nd) = (if nd <=? b then dep x !! nd else Some 0) /\
       depage y' !! (b + nd) = depage x !! nd).
Proof.
  intros Hb. induction m as [|m IH]; intros x y x' y' Hrun.
  - injection Hrun as <- <-.
    split; [reflexivity|]. split; [|split; [done | intros; lia]].
    intros k.
    destruct (Z.leb_spec (b + 1) k), (Z.leb_spec k (b + Z.of_nat 0));
      try reflexivity; lia.
  - replace (Z.of_nat (S m)) with (Z.of_nat m + 1) in * by lia.
    rewrite seqZ_app, for_in_app in Hrun by lia.
    apply bind_Ok in Hrun as ([x1 y1] & Hpre & Hstep).
    apply IH in Hpre as (Hage & Hx & Hlow & Hy).
    cbn [seqZ] in Hstep.
    change (seqZ (1 + Z.of_nat m) 1) with [1 + Z.of_nat m] in Hstep.
    cbn [for_in] in Hstep.
    apply bind_Ok in Hstep as ([x2 y2] & Hstep & Hret).
    injection Hret as <- <-.
    unfold convert_deps in Hstep.
    apply bind_Ok in Hstep as (d & Hd & Hstep).
    apply bind_Ok in Hstep as (a & Ha & Hstep).
    injection Hstep as <- <-.
    unfold getkey in Hd, Ha. cbn [depage set_dep] in Ha.
    destruct (dep x1 !! (1 + Z.of_nat m)) as [d'|] eqn:Hd'; [|discriminate].
    injection Hd as ->.
    destruct (depage x1 !! (1 + Z.of_nat m)) as [a'|] eqn:Ha'; [|discriminate].
    injection Ha as ->.
    cbn [dep depage set_dep set_depage].
    split; [exact Hage|]. split; [|split].
    + intros k. destruct (decide (k = b + (1 + Z.of_nat m))) as [->|Hne].
      * rewrite lookup_insert_eq.
        rewrite (proj2 (Z.leb_le _ _)), (proj2 (Z.leb_le _ _)) by lia.
        reflexivity.
      * rewrite lookup_insert_ne by done. rewrite Hx.
        destruct (b + 1 <=? k) eqn:H1; [|reflexivity]. cbn [andb].
        destruct (Z.leb_spec k (b + Z.of_nat m)).
        -- by rewrite (proj2 (Z.leb_le _ _)) by lia.
        -- by rewrite (proj2 (Z.leb_gt _ _)) by lia.
    + intros k Hk. rewrite !lookup_insert_ne by lia. by apply Hlow.
    + intros nd Hnd.
      destruct (decide (nd = 1 + Z.of_nat m)) as [->|Hne].
      * rewrite !lookup_insert_eq. rewrite <- Hage, Ha'.
        split; [|reflexivity].
        rewrite Hx in Hd'.
        assert (Hc : (b + 1 <=? 1 + Z.of_nat m)
                     && (1 + Z.of_nat m <=? b + Z.of_nat m)
                     = negb (1 + Z.of_nat m <=? b)).
        { destruct (Z.leb_spec (b + 1) (1 + Z.of_nat m)),
            (Z.leb_spec (1 + Z.of_nat m) (b + Z.of_nat m)),
            (Z.leb_spec (1 + Z.of_nat m) b); try reflexivity; lia. }
        rewrite Hc in Hd'.
        destruct (1 + Z.of_nat m <=? b); cbn [negb] in Hd'; congruence.
      * rewrite !lookup_insert_ne by lia. apply Hy. lia.
Qed.

(** X10.  When [convert] folds the unit [x] into a target [y], the target
    takes the dependents of [x] under the keys after its own and those of
    the filers of [x]: all their ages, but of their positions only as many
    as the target has dependents by then; the later positions are 0.  The
    first of the new keys holds the position of [x] among the units. *)
Theorem convert_dependents (ix : nat) (x y x' y' : tax_unit) :
  convert_pair ix x y = Ok (x', y') -> 0 <= depne y ->
  dep y' !! (depne y + 1) = Some (Z.of_nat ix) /\
  (forall k, k <= depne y ->
     dep y' !! k = dep y !! k /\ depage y' !! k = depage y !! k) /\
  forall nd, 1 <= nd <= depne x ->
    dep y' !! (depne y + (if js x =? 2 then 2 else 1) + nd) =
      (if nd <=? depne y + (if js x =? 2 then 2 else 1)
       then dep x !! nd else Some 0) /\
    depage y' !! (depne y + (if js x =? 2 then 2 else 1) + nd) =
      depage x !! nd.
Proof.
  intros (y0 & y1 & Hy0 & Hdeps & Hslots)%convert_pair_inv Hpos.
  apply convert_slot_loop in Hslots.
  assert (Hd : dep y' = dep y1) by exact (f_equal dep Hslots).
  assert (Ha : depage y' = depage y1) by exact (f_equal depage Hslots).
  rewrite Hd, Ha. clear Hslots Hd Ha.
  set (b := depne y + (if js x =? 2 then 2 else 1)) in *.
  assert (Hb : depne y + 1 <= b) by (unfold b; destruct (js x =? 2); lia).
  clearbody b.
  pose proof (convert_deps_loop _ _ _ _ _ _ Hdeps) as (_ & Hera & _).
  destruct (Z.le_gt_cases (depne x) 0) as [Hle|Hgt].
  - assert (Hnil : seqZ 1 (depne x) = []).
    { unfold seqZ. replace (Z.to_nat (depne x)) with 0%nat by lia. done. }
    rewrite Hnil in Hdeps. injection Hdeps as <- <-.
    split; [|split; [|intros; lia]].
    + rewrite Hy0. destruct (js x =? 2); cbn [dep set_dep set_depage];
        rewrite ?lookup_insert_eq; try rewrite lookup_insert_ne by lia;
        by rewrite ?lookup_insert_eq.
    + intros k Hk. rewrite Hy0.
      destruct (js x =? 2); cbn [dep depage set_dep set_depage set_depne];
        by rewrite !lookup_insert_ne by lia.
  - replace (depne x) with (Z.of_nat (Z.to_nat (depne x))) in Hdeps by lia.
    apply (convert_deps_copies b _ ltac:(lia)) in Hdeps
      as (_ & _ & Hlow & Hcopy).
    assert (Hb1 : depne y + 1 <= b) by lia.
    split; [|split].
    + rewrite (proj1 (Hlow (depne y + 1) Hb1)), Hy0.
      destruct (js x =? 2); cbn [dep set_dep set_depage];
        rewrite ?lookup_insert_eq; try rewrite lookup_insert_ne by lia;
        by rewrite ?lookup_insert_eq.
    + intros k Hk.
      assert (Hkb : k <= b) by lia.
      rewrite (proj1 (Hlow k Hkb)), (proj2 (Hlow k Hkb)), Hy0.
      destruct (js x =? 2); cbn [dep depage set_dep set_depage set_depne];
        by rewrite !lookup_insert_ne by lia.
    + intros nd Hnd. apply Hcopy. lia.
Qed.

(** ** What [search] leaves alone *)

Lemma fold_unit_inv (ix iy : nat) (us us' : list tax_unit) :
  ix <> iy -> fold_unit ix iy us = Ok us' ->
  exists x y x' y',
    us !! ix = Some x /\ us !! iy = Some y /\
    convert_pair ix (set_t_flag false x) y = Ok (x', y') /\
    us' = <[iy := y']> (<[ix := x']> us).
Proof.
  intros Hne Hrun.
  destruct (us !! ix) as [x|] eqn:Hx; cycle 1.
  { unfold fold_unit, convert in Hrun.
    rewrite list_lookup_alter_eq, Hx in Hrun. discriminate. }
  destruct (us !! iy) as [y|] eqn:Hy; cycle 1.
  { unfold fold_unit, convert in Hrun.
    rewrite list_lookup_alter_eq, Hx, list_lookup_alter_ne, Hy in Hrun
      by done. discriminate. }
  rewrite (fold_unit_eq ix iy us x y Hx Hy Hne) in Hrun.
  apply bind_Ok in Hrun as ([x' y'] & Hp & Hrun).
  injection Hrun as <-. by exists x, y, x', y'.
Qed.

(** [convert] moves dependents, counters and benefits; what the two units
    hold of their heads stays. *)
Lemma convert_pair_head_part (ix : nat) (x y x' y' : tax_unit) :
  convert_pair ix x y = Ok (x', y') ->
  head_part x' = head_part x /\ head_part y' = head_part y /\
  u_ifdept x' = true /\ u_ifdept y' = u_ifdept y /\
  t_flag x' = t_flag x /\ t_flag y' = t_flag y /\ depne x' = 0.
Proof.
  intros (Ex & Ey & _)%convert_pair_spec.
  split; [exact (f_equal head_part Ex)|].
  split; [exact (f_equal head_part Ey)|].
  split; [exact (f_equal u_ifdept Ex)|].
  split; [exact (f_equal u_ifdept Ey)|].
  split; [exact (f_equal t_flag Ex)|].
  split; [exact (f_equal t_flag Ey) | exact (f_equal depne Ex)].
Qed.

Lemma fold_unit_head_part (ix iy : nat) (us us' : list tax_unit) :
  ix <> iy -> fold_unit ix iy us = Ok us' ->
  head_part <$> us' = head_part <$> us.
Proof.
  intros Hne (x & y & x' & y' & Hx & Hy & Hp & ->)%fold_unit_inv; [|done].
  apply convert_pair_head_part in Hp as (Ex & Ey & _).
  rewrite !list_fmap_insert, Ex, Ey.
  rewrite (list_insert_id (head_part <$> us) ix)
    by (by rewrite list_lookup_fmap, Hx).
  apply list_insert_id. by rewrite list_lookup_fmap, Hy.
Qed.

(** A round of the second loop of [search] changes nothing, or folds the
    unit it looks at, once or twice. *)
Lemma search_step_cases (h : Z) (i : nat) (ix : Z) (us us' : list tax_unit) :
  0 <= ix -> search_step h i ix us = Ok us' ->
  us' = us \/
  exists unit us1,
    us !! Z.to_nat ix = Some unit /\
    convert1 h i (Z.to_nat ix) unit = true /\
    fold_unit (Z.to_nat ix) i us = Ok us1 /\
    (us' = us1 \/ fold_unit (Z.to_nat ix) i us1 = Ok us').
Proof.
  intros Hix Hrun. unfold search_step in Hrun.
  apply bind_Ok in Hrun as (unit & Hunit & Hrun).
  apply py_index_nonneg in Hunit; [|exact Hix].
  destruct (convert1 h i (Z.to_nat ix) unit) eqn:Hc1;
    [|left; by injection Hrun as <-].
  apply bind_Ok in Hrun as (us1 & Hmid & Hlast).
  destruct ((u_ftype unit =? 1) || (u_ftype unit =? 3)
            || (u_ftype unit =? 5)).
  - apply bind_Ok in Hmid as (usa & Ha & Hb).
    destruct (Z.leb_spec (totincx unit) 0) as [Hle|Hgt].
    + replace ((0 <? totincx unit) && (totincx unit <=? 3000)) with false
        in Hb by (symmetry; apply andb_false_iff; left; apply Z.ltb_ge; lia).
      injection Hb as <-.
      destruct (relcode unit =? 11).
      * right. exists unit, usa. auto.
      * injection Hlast as <-. right. exists unit, usa. auto.
    + injection Ha as <-.
      destruct ((0 <? totincx unit) && (totincx unit <=? 3000)).
      * destruct (relcode unit =? 11).
        -- right. exists unit, us1. auto.
        -- injection Hlast as <-. right. exists unit, us1. auto.
      * injection Hb as <-.
        destruct (relcode unit =? 11).
        -- right. exists unit, us'. auto.
        -- left. by injection Hlast as <-.
  - injection Hmid as <-.
    destruct (relcode unit =? 11).
    + right. exists unit, us'. auto.
    + left. by injection Hlast as <-.
Qed.

(** [search] returns the units as they are, or runs its second loop for a
    target that is no dependent. *)
Lemma search_inv (n : Z) (units units' : list tax_unit) :
  search n units = Ok units' ->
  exists h i top,
    search_top units = Ok (h, i) /\ units !! i = Some top /\
    ((u_ifdept top = true /\ units' = units) \/
     (u_ifdept top = false /\
      for_in (seqZ 0 n) (search_step h i) units = Ok units')).
Proof.
  unfold search. intros Hrun.
  apply bind_Ok in Hrun as ([h i] & Htop & Hrun).
  destruct (units !! i) as [top|] eqn:Hi; [|discriminate].
  exists h, i, top. split; [exact Htop|]. split; [exact Hi|].
  destruct (u_ifdept top); cbn [negb] in Hrun.
  - left. by injection Hrun as <-.
  - right. auto.
Qed.

(** A property of the list of units that every fold of a unit other than
    the target keeps is kept by [search]. *)
Lemma search_invariant (P : list tax_unit -> Prop) (n : Z)
  (units units' : list tax_unit) :
  (forall (h : Z) (i ix : nat) (top unit : tax_unit) (us us1 : list tax_unit),
     units !! i = Some top -> u_ifdept top = false ->
     us !! ix = Some unit -> convert1 h i ix unit = true ->
     P us -> fold_unit ix i us = Ok us1 ->
     P us1 /\ forall us2, fold_unit ix i us1 = Ok us2 -> P us2) ->
  search n units = Ok units' -> P units -> P units'.
Proof.
  intros Hfold (h & i & top & _ & Hi & [[_ ->] | [Hdep Hloop]])%search_inv HP;
    [exact HP|].
  apply (for_in_invariant P (seqZ 0 n) (search_step h i)) with (s := units);
    [|exact Hloop | exact HP].
  intros ix us us' Hix%elem_of_seqZ Hstep Hus.
  apply search_step_cases in Hstep
    as [-> | (unit & us1 & Hunit & Hc1 & Hf1 & Hrest)]; [exact Hus | | lia].
  destruct (Hfold h i (Z.to_nat ix) top unit us us1 Hi Hdep Hunit Hc1 Hus Hf1)
    as [H1 H2].
  destruct Hrest as [-> | Hf2]; [exact H1 | by apply H2].
Qed.

(** X11.  [search] moves dependents, counters and benefits from unit to
    unit, and nothing else: after it every unit, the target included, has
    the income, the filing status, the ages and the identifiers of its head
    and spouse that it had before.  The income of a folded unit is not
    added to the target. *)
Theorem search_keeps_heads (n : Z) (units units' : list tax_unit) :
  search n units = Ok units' ->
  head_part <$> units' = head_part <$> units.
Proof.
  intros Hrun.
  apply (search_invariant
           (fun us => head_part <$> us = head_part <$> units) n units units');
    [|exact Hrun | reflexivity].
  intros h i ix top unit us us1 _ _ _ (Hne & _)%convert1_true Hus Hf1.
  apply fold_unit_head_part in Hf1; [|exact Hne].
  split; [congruence|].
  intros us2 Hf2. apply fold_unit_head_part in Hf2; [|exact Hne]. congruence.
Qed.

(** X12.  [search] leaves alone every unit that is a dependent filer
    already: no such unit is folded again, and none is a target. *)
Theorem search_leaves_dependents (n : Z) (units units' : list tax_unit)
  (j : nat) (u : tax_unit) :
  search n units = Ok units' ->
  units !! j = Some u -> u_ifdept u = true ->
  units' !! j = Some u.
Proof.
  intros Hrun Hj Hdep.
  apply (search_invariant (fun us => us !! j = Some u) n units units');
    [|exact Hrun | exact Hj].
  intros h i ix top unit us us1 Hi Htop Hunit
    (Hne & Hnd & _)%convert1_true Hus Hf1.
  assert (Hji : j <> i) by (intros ->; congruence).
  assert (Hjx : j <> ix) by (intros ->; congruence).
  apply fold_unit_frame in Hf1 as (_ & Hframe1 & _); [|exact Hne].
  split; [by rewrite Hframe1|].
  intros us2 Hf2.
  apply fold_unit_frame in Hf2 as (_ & Hframe2 & _); [|exact Hne].
  by rewrite Hframe2, Hframe1.
Qed.

Lemma for_in_unchanged {A S : Type} (l : list A) (body : A -> S -> result S)
  (s : S) :
  (forall x, x ∈ l -> body x s = Ok s) -> for_in l body s = Ok s.
Proof.
  induction l as [|x l IH]; intros Hbody; [reflexivity|].
  cbn [for_in]. rewrite Hbody by left. cbn [mbind result_bind].
  apply IH. intros y Hy. apply Hbody. by right.
Qed.

(** The first loop of [search] raises no exception; what it returns is the
    initial value of [highest] and the position 0, or the income of the
    unit on the position it returns. *)
Lemma search_top_total (units : list tax_unit) :
  exists h i,
    search_top units = Ok (h, i) /\
    ((h = highest0 /\ i = 0%nat) \/
     exists u, units !! i = Some u /\ totincx u = h).
Proof.
  unfold search_top.
  destruct (for_in_total
              (fun st : Z * nat =>
                 (st.1 = highest0 /\ st.2 = 0%nat) \/
                 exists u, units !! st.2 = Some u /\ totincx u = st.1)
              units
              (fun unit '(highest, idxhigh) =>
                 let totinc := totincx unit in
                 if highest <=? totinc then
                   i ← py_list_index unit units; Ok (totinc, i)
                 else Ok (highest, idxhigh)))
    with (s := (highest0, 0%nat)) as ([h i] & Hrun & HP).
  - intros unit [h i] Hin HP. cbn zeta.
    destruct (h <=? totincx unit); [|eauto].
    unfold py_list_index.
    destruct (list_find_elem_of (fun y => y = unit) units unit Hin eq_refl)
      as [[j y] Hfind].
    rewrite Hfind. cbn [mbind result_bind].
    apply list_find_Some in Hfind as (Hj & -> & _).
    eexists. split; [reflexivity|]. right. by exists unit.
  - by left.
  - exists h, i. split; [exact Hrun | exact HP].
Qed.

(** X13.  In a household where no unit has a positive income [search]
    folds nothing: it returns the units as they are. *)
Theorem search_without_income (n : Z) (units : list tax_unit) :
  units <> [] -> n <= Z.of_nat (length units) ->
  (forall u, u ∈ units -> totincx u <= 0) ->
  search n units = Ok units.
Proof.
  intros Hne Hn Hinc. unfold search.
  destruct (search_top_total units) as (h & i & -> & Hcase).
  cbn [mbind result_bind].
  assert (Hh : h <= 0).
  { destruct Hcase as [[-> _] | (u & Hu & <-)]; [by vm_compute|].
    apply Hinc. by eapply list_elem_of_lookup_2. }
  assert (Hi : is_Some (units !! i)).
  { destruct Hcase as [[_ ->] | (u & Hu & _)]; [|by exists u].
    destruct units; [done | by eexists]. }
  destruct Hi as [top ->].
  destruct (negb (u_ifdept top)); [|reflexivity].
  apply for_in_unchanged. intros ix Hix%elem_of_seqZ.
  unfold search_step.
  destruct (lookup_lt_is_Some_2 units (Z.to_nat ix)) as [unit Hunit]; [lia|].
  replace ix with (Z.of_nat (Z.to_nat ix)) at 1 by lia.
  rewrite (py_index_nat _ _ _ Hunit). cbn [mbind result_bind].
  unfold convert1.
  rewrite (proj2 (Z.ltb_ge 0 h)) by lia.
  by rewrite andb_false_r.
Qed.

(** ** The head of household status *)

Lemma hhstatus_any_position (k : nat) (units : list tax_unit) :
  hhstatus k units = hhstatus 0 units.
Proof. destruct units; reflexivity. Qed.

Lemma hhstatus_cases (k : nat) (units : list tax_unit) :
  hhstatus k units = units \/
  exists u,
    units !! (length units - 1)%nat = Some u /\
    hhstatus k units = <[(length units - 1)%nat := set_js 3 u]> units /\
    js u = 1 /\ u_ifdept u = false /\ 0 < depne u /\
    0 < foldl (fun acc u => acc + totincx u) 0 units /\
    99 * foldl (fun acc u => acc + totincx u) 0 units < 100 * totincx u.
Proof.
  rewrite hhstatus_any_position.
  destruct units as [|u0 units]; [by left|].
  unfold hhstatus.
  set (l := u0 :: units). set (total := foldl _ 0 l).
  destruct (Z.ltb_spec 0 total) as [Hpos|]; [|by left].
  destruct (l !! (length l - 1)%nat) as [u|] eqn:Hu; [|by left].
  destruct (Z.eqb_spec (js u) 1) as [Hjs|]; [|by left].
  destruct (Z.ltb_spec (99 * total) (100 * totincx u)) as [Hshare|];
    [|by left].
  destruct (u_ifdept u) eqn:Hdep; [by left|].
  destruct (Z.ltb_spec 0 (depne u)) as [Hdeps|]; [|by left].
  right. exists u. cbn [andb negb]. auto 10.
Qed.

(** X14.  A call of [hhstatus], for whichever unit, keeps every unit of
    the household as it is, except that it may turn the last unit from
    single into head of household: it sets the key [js] of that unit from 1
    to 3 when the household has a positive income of which the last unit
    has more than 99 percent, and that unit is no dependent filer and has a
    dependent. *)
Theorem hhstatus_last_unit (k : nat) (units : list tax_unit) :
  length (hhstatus k units) = length units /\
  forall j u u',
    units !! j = Some u -> hhstatus k units !! j = Some u' ->
    u' = u \/
    (j = (length units - 1)%nat /\ u' = set_js 3 u /\
     js u = 1 /\ u_ifdept u = false /\ 0 < depne u /\
     0 < foldl (fun acc u => acc + totincx u) 0 units /\
     99 * foldl (fun acc u => acc + totincx u) 0 units < 100 * totincx u).
Proof.
  destruct (hhstatus_cases k units)
    as [-> | (u0 & Hu0 & -> & Hjs & Hdep & Hdeps & Hpos & Hshare)].
  - split; [reflexivity|]. intros j u u' Hu Hu'. left. congruence.
  - split; [apply length_insert|]. intros j u u' Hu Hu'.
    destruct (decide (j = (length units - 1)%nat)) as [->|Hne].
    + rewrite list_lookup_insert_eq in Hu' by (by eapply lookup_lt_Some).
      assert (u0 = u) as -> by congruence.
      right. injection Hu' as <-. auto 10.
    + rewrite list_lookup_insert_ne in Hu' by done. left. congruence.
Qed.

Lemma hhstatus_idempotent (k k' : nat) (units : list tax_unit) :
  hhstatus k' (hhstatus k units) = hhstatus k units.
Proof.
  destruct (hhstatus_cases k units)
    as [Heq | (u & Hu & -> & Hjs & _)].
  { rewrite Heq, hhstatus_any_position, <- (hhstatus_any_position k).
    exact Heq. }
  assert (Hlt : (length units - 1 < length units)%nat)
    by (by eapply lookup_lt_Some).
  set (l2 := <[(length units - 1)%nat := set_js 3 u]> units).
  assert (Hlen : length l2 = length units) by apply length_insert.
  assert (Hpos : match l2 with
                 | [] => k'
                 | _ => (length l2 - 1)%nat
                 end = (length units - 1)%nat).
  { destruct l2; [simpl in Hlen; lia | by rewrite Hlen]. }
  unfold hhstatus. rewrite Hpos. unfold l2 at 2.
  rewrite list_lookup_insert_eq by exact Hlt.
  cbn [js set_js Z.eqb Pos.eqb andb].
  by destruct (0 <? _).
Qed.

(** X15.  Under Python 2, where [map] calls its function at once, the calls
    of [hhstatus] for all the units of a household have the effect of one
    call: only the last unit of the household is ever examined. *)
Theorem map_hhstatus_one_call (units : list tax_unit) :
  map_hhstatus Python2 units = hhstatus 0 units.
Proof.
  unfold map_hhstatus.
  destruct units as [|u0 units]; [reflexivity|].
  set (l := u0 :: units).
  change (seq 0 (length l)) with (0%nat :: seq 1 (length units)).
  cbn [foldl]. generalize (seq 1 (length units)). intros ks.
  induction ks as [|k' ks IH]; [reflexivity|].
  cbn [foldl]. by rewrite hhstatus_idempotent.
Qed.

(** ** The record [output] builds *)

(** X16.  The person count of the record [output] builds: when the test on
    the counters fails and the persons are counted again, it is the number
    of filers (2 for a joint unit, 1 otherwise) plus the number of
    dependents; when the test passes, it is the count [output] started
    from, 2 for a single unit and 1 otherwise plus the number of
    dependents, and the record has the counters of the unit. *)
Theorem output_person_count (unit : tax_unit) (house : list person)
  (r : out_record) :
  output unit house = Ok r -> 0 <= depne unit ->
  (output_eflag unit = true ->
   xxtot r = (if js unit =? 2 then 2 else 1) + depne unit) /\
  (output_eflag unit = false ->
   xxtot r = (if js unit =? 1 then 2 else 1) + depne unit /\
   o_cnt r = cnt unit).
Proof.
  intros Hrun Hnn.
  pose proof (output_xxtot_spec unit house r Hrun Hnn) as Hx.
  split; intros Hflag; rewrite Hflag in Hx; [exact Hx|].
  split; [exact Hx|].
  unfold output in Hrun. rewrite Hflag in Hrun.
  apply bind_Ok in Hrun as ([x1 c1] & Hloop & Hrun).
  apply bind_Ok in Hrun as ([o1 y1] & _ & Hrun).
  apply bind_Ok in Hrun as (z1 & _ & Hrun).
  injection Hrun as <-; cbn [o_cnt].
  destruct (0 <? depne unit); [|by injection Hloop as _ <-].
  apply (for_in_invariant (fun st : Z * counters => st.2 = cnt unit)
           (seqZ 1 (depne unit)) (output_dep unit house false))
    with (s := (output_xxtot unit, cnt unit)) (s' := (x1, c1)) in Hloop;
    [exact Hloop | | reflexivity].
  intros i [xa ca] [xb cb] _ Hstep Ha. cbn [snd] in *.
  unfold output_dep in Hstep.
  apply bind_Ok in Hstep as (dindex & _ & Hstep).
  apply bind_Ok in Hstep as (p & _ & Hstep).
  injection Hstep as _ <-. exact Ha.
Qed.

Lemma output_ages_loop (unit : tax_unit) (l : list Z) :
  forall o y o' y',
    for_in l (output_ages unit) (o, y) = Ok (o', y') ->
    o <= o' /\ y' <= y /\
    forall i a, i ∈ l -> depage unit !! i = Some (Some a) -> y' <= a <= o'.
Proof.
  induction l as [|i l IH]; intros o y o' y' Hrun; cbn [for_in] in Hrun.
  - injection Hrun as <- <-. split; [lia|]. split; [lia|].
    intros i a Hi. by apply elem_of_nil in Hi.
  - apply bind_Ok in Hrun as ([o1 y1] & Hstep & Hrest).
    apply IH in Hrest as (Ho & Hy & Hl).
    unfold output_ages in Hstep.
    apply bind_Ok in Hstep as (dage & Hkey & Hstep).
    unfold getkey in Hkey.
    destruct (depage unit !! i) as [dage'|] eqn:Hi; [|discriminate].
    injection Hkey as ->.
    assert (Hstep' : o <= o1 /\ y1 <= y /\
                     forall a, dage = Some a -> y1 <= a <= o1).
    { destruct dage as [a|]; injection Hstep as <- <-.
      - destruct (Z.ltb_spec o a), (Z.ltb_spec a y);
          (split; [lia|]; split; [lia|]; intros a' [= <-]; lia).
      - split; [lia|]. split; [lia|]. discriminate. }
    destruct Hstep' as (Ho1 & Hy1 & Ha).
    split; [lia|]. split; [lia|].
    intros j a [-> | Hj]%elem_of_cons Hda.
    + rewrite Hi in Hda. injection Hda as Hda.
      specialize (Ha a Hda). lia.
    + by apply (Hl j).
Qed.

(** X17.  The keys [oldest] and [youngest] of the record [output] builds
    bound the ages the unit holds for its dependents, the ages that are not
    a number left aside; for a unit without dependents both are 0. *)
Theorem output_age_range (unit : tax_unit) (house : list person)
  (r : out_record) :
  output unit house = Ok r ->
  (depne unit <= 0 -> oldest r = 0 /\ youngest r = 0) /\
  forall k a, 1 <= k <= depne unit -> depage unit !! k = Some (Some a) ->
    youngest r <= a <= oldest r.
Proof.
  unfold output. intros Hrun.
  destruct (output_eflag unit); destruct (js unit =? 2).
  all: apply bind_Ok in Hrun as ([x1 c1] & _ & Hrun).
  all: apply bind_Ok in Hrun as ([o1 y1] & Hages & Hrun).
  all: apply bind_Ok in Hrun as (z1 & _ & Hrun).
  all: injection Hrun as <-; cbn [oldest youngest].
  all: destruct (Z.ltb_spec 0 (depne unit)) as [Hpos|Hle].
  all: try (injection Hages as <- <-; split; [done | intros; lia]).
  all: split; [lia|].
  all: apply output_ages_loop in Hages as (_ & _ & Hl).
  all: intros k a Hk Ha; apply (Hl k); [apply elem_of_seqZ; lia | exact Ha].
Qed.

(** X18.  The dependent income [zdepin] of the record [output] builds is
    the income of one person, the last dependent of the unit (a person
    whose general flag is not set): wages, self-employment income twice,
    farm income, unemployment compensation, social security, pension,
    interest, dividends and alimony.  The incomes of the other dependents
    are overwritten. *)
Theorem output_zdepin_last (unit : tax_unit) (house : list person)
  (r : out_record) (d : Z) (p : person) :
  output unit house = Ok r -> 0 < depne unit ->
  dep unit !! depne unit = Some d -> py_index house d = Ok p ->
  flag p = false ->
  zdepin r = wsal_val p + semp_val p + frse_val p + uc_val p + ss_val p +
             semp_val p + rtm_val p + int_val p + div_val p + alm_val p.
Proof.
  unfold output. intros Hrun Hpos Hd Hp Hflag.
  apply Z.ltb_lt in Hpos. rewrite Hpos in Hrun.
  destruct (output_eflag unit); destruct (js unit =? 2).
  all: apply bind_Ok in Hrun as ([x1 c1] & _ & Hrun).
  all: apply bind_Ok in Hrun as ([o1 y1] & _ & Hrun).
  all: apply bind_Ok in Hrun as (z1 & Hz & Hrun).
  all: injection Hrun as <-; cbn [zdepin].
  all: apply Z.ltb_lt in Hpos.
  all: replace (depne unit) with (depne unit - 1 + 1) in Hz at 1 by lia.
  all: rewrite seqZ_app, for_in_app in Hz by lia.
  all: apply bind_Ok in Hz as (z0 & _ & Hz).
  all: replace (1 + (depne unit - 1)) with (depne unit) in Hz by lia.
  all: change (seqZ (depne unit) 1) with [depne unit] in Hz.
  all: cbn [for_in] in Hz.
  all: apply bind_Ok in Hz as (z2 & Hlast & Hret).
  all: injection Hret as <-.
  all: unfold output_depin, getkey in Hlast.
  all: rewrite Hd in Hlast; cbn [mbind result_bind] in Hlast.
  all: rewrite Hp in Hlast; cbn [mbind result_bind] in Hlast.
  all: rewrite Hflag in Hlast; cbn [negb] in Hlast.
  all: by injection Hlast as <-.
Qed.

(** ** The units of a household *)

(** How [computation] builds the units of a household, as rules of
    induction: a property of the state that a new unit for the person in
    turn and a run of [search] keep, and that passing over a flagged person
    keeps (or any person, in a household that gets one unit only), holds at
    the end if it holds at the start. *)
Lemma family_create_invariant (Q : nat -> state -> Prop) :
  (forall k st st', Q k st -> append_create k st = Ok st' -> Q (S k) st') ->
  (forall k st p, Q k st -> house_dicts st !! k = Some p ->
     h_flag p = true \/ s_flag p = true \/
     (d_flag p = true /\ must_file p = false) ->
     Q (S k) st) ->
  forall k s s', family_create k s = Ok s' -> Q k s -> Q (S k) s'.
Proof.
  intros Happend Hskip k s s' Hc Hq. unfold family_create in Hc.
  destruct (house_dicts s !! k) as [person|] eqn:Hperson; [|discriminate].
  apply bind_Ok in Hc as (s1 & Hfirst & Hc).
  destruct (house_dicts s1 !! k) as [person1|] eqn:Hperson1; [|discriminate].
  destruct (negb (h_flag person) && negb (s_flag person)
            && negb (d_flag person)) eqn:Hnf.
  - pose proof (Happend _ _ _ Hq Hfirst) as Hq1.
    unfold append_create in Hfirst.
    apply bind_Ok in Hfirst as ([[n1 h1] u1] & Hcr & Hfirst).
    injection Hfirst as <-. cbn [house_dicts] in *.
    apply create_head_flag in Hcr.
    rewrite Hperson, Hperson1 in Hcr. injection Hcr as Hflag.
    rewrite !andb_true_iff, !negb_true_iff in Hnf.
    destruct Hnf as [_ Hd]. rewrite Hflag, Hd, andb_false_r in Hc.
    by injection Hc as <-.
  - injection Hfirst as <-.
    assert (person1 = person) as -> by congruence.
    destruct (negb (s_flag person) && d_flag person) eqn:Hsd;
      [destruct (must_file person) eqn:Hmf|].
    + exact (Happend _ _ _ Hq Hc).
    + injection Hc as <-. apply (Hskip _ _ _ Hq Hperson).
      apply andb_true_iff in Hsd as [_ Hd]. auto.
    + injection Hc as <-. apply (Hskip _ _ _ Hq Hperson).
      destruct (h_flag person), (s_flag person), (d_flag person);
        auto; discriminate.
Qed.

Lemma family_step_invariant (Q : nat -> state -> Prop) :
  (forall k st st', Q k st -> append_create k st = Ok st' -> Q (S k) st') ->
  (forall k st p, Q k st -> house_dicts st !! k = Some p ->
     h_flag p = true \/ s_flag p = true \/
     (d_flag p = true /\ must_file p = false) ->
     Q (S k) st) ->
  (forall k st units, Q k st -> 1 < nunits st ->
     search (nunits st) (house_units st) = Ok units ->
     Q k (mkState (nunits st) (house_dicts st) units)) ->
  forall k s s', family_step k s = Ok s' -> Q k s -> Q (S k) s'.
Proof.
  intros Happend Hskip Hsearch k s s' Hst Hq. unfold family_step in Hst.
  apply bind_Ok in Hst as (s1 & Hc & Hst).
  apply (family_create_invariant Q Happend Hskip) in Hc; [|exact Hq].
  destruct (Z.ltb_spec 1 (nunits s1)); [|by injection Hst as <-].
  apply bind_Ok in Hst as (units & Hsr & Hst).
  injection Hst as <-. by apply Hsearch.
Qed.

Lemma build_units_invariant (Q : nat -> state -> Prop) (house : list person) :
  Q 0%nat (mkState 0 house []) ->
  (forall k st st', Q k st -> append_create k st = Ok st' -> Q (S k) st') ->
  (forall k st p, Q k st -> house_dicts st !! k = Some p ->
     single_household house = true \/
     h_flag p = true \/ s_flag p = true \/
     (d_flag p = true /\ must_file p = false) ->
     Q (S k) st) ->
  (forall k st units, Q k st -> 1 < nunits st ->
     search (nunits st) (house_units st) = Ok units ->
     Q k (mkState (nunits st) (house_dicts st) units)) ->
  forall st, build_units house = Ok st -> Q (length house) st.
Proof.
  intros Hinit Happend Hskip Hsearch st Hrun.
  unfold build_units in Hrun.
  destruct house as [|head rest] eqn:Hhouse; [discriminate|].
  rewrite <- Hhouse in *.
  assert (Hsingle : single_household house =
                    ((h_type head =? 6) || (h_type head =? 7))
                    && (h_numper head =? 1)) by (by rewrite Hhouse).
  rewrite <- Hsingle in Hrun.
  destruct (single_household house) eqn:Hs.
  - (* one unit *)
    pose proof (Happend _ _ _ Hinit Hrun) as H1.
    assert (Hlen : length (house_dicts st) = length house).
    { unfold append_create in Hrun.
      apply bind_Ok in Hrun as ([[n1 h1] u1] & Hcreate & Hrun).
      injection Hrun as <-. cbn [house_dicts].
      apply create_head in Hcreate as (_ & Hh1 & _).
      rewrite <- (length_fmap unflag h1), Hh1. apply length_fmap. }
    assert (Hall : forall m, (1 + m <= length house)%nat -> Q (1 + m)%nat st).
    { induction m as [|m IH]; intros Hm; [exact H1|].
      destruct (lookup_lt_is_Some_2 (house_dicts st) (1 + m)) as [p Hp];
        [lia|].
      apply (Hskip (1 + m)%nat st p); [apply IH; lia | exact Hp | by left]. }
    replace (length house) with (1 + (length house - 1))%nat
      by (rewrite Hhouse; simpl; lia).
    apply Hall. rewrite Hhouse. simpl. lia.
  - assert (Hloop : forall (step : nat -> state -> result state),
              (forall k s s', step k s = Ok s' -> Q k s -> Q (S k) s') ->
              forall n a s s',
                for_in (seq a n) step s = Ok s' -> Q a s -> Q (a + n)%nat s').
    { intros step Hstep. induction n as [|n IH]; intros a s s' Hl Hq.
      - injection Hl as <-. by rewrite Nat.add_0_r.
      - cbn [seq for_in] in Hl.
        apply bind_Ok in Hl as (s1 & Hst & Hrest).
        replace (a + S n)%nat with (S a + n)%nat by lia.
        apply (IH (S a) s1 s' Hrest). exact (Hstep _ _ _ Hst Hq). }
    destruct (h_type head =? 9).
    + (* group quarters *)
      apply (Hloop append_create) in Hrun; [exact Hrun | | exact Hinit].
      intros k s s' Happ Hq. exact (Happend _ _ _ Hq Happ).
    + (* families *)
      apply (Hloop family_step) in Hrun; [exact Hrun | | exact Hinit].
      apply family_step_invariant; [exact Happend | | exact Hsearch].
      intros k s p Hq Hp Hfl. exact (Hskip _ _ _ Hq Hp (or_intror Hfl)).
Qed.

Lemma append_create_inv (k : nat) (st st' : state) :
  append_create k st = Ok st' ->
  exists n' house' u,
    create (nunits st) k (house_dicts st) = Ok (n', house', u) /\
    st' = mkState n' house' (house_units st ++ [u]).
Proof.
  unfold append_create. intros Hrun.
  apply bind_Ok in Hrun as ([[n1 h1] u1] & Hcreate & Hrun).
  injection Hrun as <-. by exists n1, h1, u1.
Qed.

Lemma build_units_follow (house : list person) (st : state) :
  build_units house = Ok st -> units_follow house (length house) st.
Proof.
  apply (build_units_invariant (units_follow house)).
  - split; [reflexivity | apply sublist_nil_l].
  - intros k s s' Hq Happ.
    pose proof Happ as (n' & h' & u & Hcreate & _)%append_create_inv.
    apply create_head in Hcreate as (_ & _ & record & Hrec & _).
    destruct (unflag_lookup _ _ _ _ (proj1 Hq) Hrec) as (p0 & Hp0 & _).
    by apply (append_create_follow house k s s' p0 Hp0 Hq) in Happ as [? _].
  - intros k s p Hq Hp _.
    destruct (unflag_lookup _ _ _ _ (proj1 Hq) Hp) as (p0 & Hp0 & _).
    by eapply units_follow_skip.
  - intros k s units [Hh Hsub] _ Hsearch.
    apply search_linenos in Hsearch.
    split; cbn [house_dicts house_units]; [exact Hh | by rewrite Hsearch].
Qed.

(** X19.  Whatever the type of the household, the units [computation]
    builds for it are headed by persons of the household and come in the
    order of their heads, no person being the head of two units: the line
    numbers of the units are a sublist of the line numbers of the rows. *)
Theorem units_in_order (house : list person) (st : state) :
  build_units house = Ok st ->
  (u_a_lineno <$> house_units st) `sublist_of` (a_lineno <$> house).
Proof.
  intros [_ Hsub]%build_units_follow.
  by rewrite firstn_all in Hsub.
Qed.

Lemma build_units_raised (house : list person) (st : state) :
  build_units house = Ok st -> Forall2 raised house (house_dicts st).
Proof.
  apply (build_units_invariant
           (fun _ s => Forall2 raised house (house_dicts s))).
  - apply Forall2_raised_refl.
  - intros k s s' Hq (n' & h' & u & Hcreate & ->)%append_create_inv.
    cbn [house_dicts]. eapply Forall2_raised_trans; [exact Hq|].
    by eapply create_raised.
  - auto.
  - auto.
Qed.

(** X20.  Of the rows of a household, [computation] changes the spouse and
    dependent flags only, and it only sets them.  The head flag of no
    person is ever set, so that a person who is the head of a unit stays
    open to the dependent search of the units built later. *)
Theorem computation_sets_flags_only (house : list person) (st : state) :
  build_units house = Ok st ->
  length (house_dicts st) = length house /\
  forall k p', house_dicts st !! k = Some p' ->
    exists p, house !! k = Some p /\ raised p p'.
Proof.
  intros Hr%build_units_raised.
  split; [symmetry; by eapply Forall2_length|].
  intros k p' Hp'.
  destruct (Forall2_lookup_r _ _ _ _ _ Hr Hp') as (p & Hp & Hpp). eauto.
Qed.

Lemma search_length (n : Z) (units units' : list tax_unit) :
  search n units = Ok units' -> length units' = length units.
Proof.
  intros Hrun%search_linenos.
  rewrite <- (length_fmap u_a_lineno units'), Hrun. apply length_fmap.
Qed.

(** X21.  The counter [nunits], which [search] takes as the number of
    units to go through, is the length of [house_units] whenever the units
    of a household have been built. *)
Theorem nunits_counts_units (house : list person) (st : state) :
  build_units house = Ok st ->
  nunits st = Z.of_nat (length (house_units st)).
Proof.
  apply (build_units_invariant
           (fun _ s => nunits s = Z.of_nat (length (house_units s)))).
  - reflexivity.
  - intros k s s' Hq (n' & h' & u & Hcreate & ->)%append_create_inv.
    cbn [nunits house_units].
    apply create_head in Hcreate as (-> & _).
    rewrite length_app. simpl. lia.
  - auto.
  - intros k s units Hq _ Hsearch%search_length.
    cbn [nunits house_units]. by rewrite Hsearch.
Qed.

Lemma placed_raised (st st' : state) (p p' : person) :
  raised p p' ->
  (forall l, l ∈ (u_a_lineno <$> house_units st) ->
             l ∈ (u_a_lineno <$> house_units st')) ->
  placed st p -> placed st' p'.
Proof.
  intros (Hun & Hh & Hs & Hd) Hunits [H | [H | [H | H]]].
  - left. congruence.
  - right. left. auto.
  - right. right. left. auto.
  - right. right. right.
    replace (a_lineno p') with (a_lineno p)
      by (symmetry; exact (f_equal a_lineno Hun)).
    by apply Hunits.
Qed.

(** X22.  In a household for which [computation] does not stop at one
    unit, every person has a place when the units are built: the person
    carries the spouse, the dependent or the head flag, or is the head of a
    unit. *)
Theorem everyone_placed (house : list person) (st : state) :
  build_units house = Ok st -> single_household house = false ->
  forall p, p ∈ house_dicts st -> placed st p.
Proof.
  intros Hrun Hsingle.
  assert (Hall : forall j p,
             (j < length house)%nat -> house_dicts st !! j = Some p ->
             placed st p).
  { revert st Hrun.
    apply (build_units_invariant
             (fun k s => forall j p, (j < k)%nat ->
                           house_dicts s !! j = Some p -> placed s p)).
    - intros j p Hj. lia.
    - intros k s s' Hq Happ j p' Hj Hp'.
      pose proof Happ as (n' & h' & u & Hcreate & ->)%append_create_inv.
      cbn [house_dicts] in Hp'.
      pose proof (create_raised _ _ _ _ _ _ Hcreate) as Hraised.
      destruct (Forall2_lookup_r _ _ _ _ _ Hraised Hp') as (p & Hp & Hpp').
      destruct (decide (j = k)) as [->|Hne].
      + right. right. right. cbn [house_units].
        apply create_head in Hcreate as (_ & _ & record & Hrec & Hhead).
        assert (record = p) as -> by congruence.
        replace (a_lineno p') with (a_lineno p)
          by (symmetry; exact (f_equal a_lineno (proj1 Hpp'))).
        rewrite fmap_app. apply elem_of_app. right.
        injection Hhead as Hl _ _. simpl. rewrite Hl. by left.
      + apply (placed_raised s _ p p' Hpp').
        * intros l Hl. cbn [house_units]. rewrite fmap_app.
          apply elem_of_app. by left.
        * apply (Hq j); [lia | exact Hp].
    - intros k s p Hq Hp [Hs | Hfl] j p' Hj Hp'; [congruence|].
      destruct (decide (j = k)) as [->|Hne].
      + assert (p' = p) as -> by congruence.
        destruct Hfl as [H | [H | [H _]]]; unfold placed; auto.
      + apply (Hq j); [lia | exact Hp'].
    - intros k s units Hq _ Hsearch%search_linenos j p Hj Hp.
      cbn [house_dicts] in Hp.
      destruct (Hq j p Hj Hp) as [H | [H | [H | H]]]; unfold placed; auto.
      right. right. right. cbn [house_units]. by rewrite Hsearch. }
  intros p [j Hj]%list_elem_of_lookup_1.
  apply (Hall j); [|exact Hj].
  apply lookup_lt_Some in Hj.
  apply build_units_raised, Forall2_length in Hrun. lia.
Qed.

(** ** What holds of every unit of a household *)

Lemma slots0_15 (i : Z) : 1 <= i <= 15 -> is_Some (slots0 !! i).
Proof.
  intros Hi.
  assert (Hcase : i = 1 \/ i = 2 \/ i = 3 \/ i = 4 \/ i = 5 \/ i = 6 \/
                  i = 7 \/ i = 8 \/ i = 9 \/ i = 10 \/ i = 11 \/ i = 12 \/
                  i = 13 \/ i = 14 \/ i = 15) by lia.
  repeat (destruct Hcase as [-> | Hcase]; [vm_compute; eauto|]).
  subst i. vm_compute. eauto.
Qed.

Lemma create_unit_ok (n n' : Z) (ri : nat) (house house' : list person)
  (u : tax_unit) :
  create n ri house = Ok (n', house', u) -> unit_ok (length house) u.
Proof.
  intros Hrun. split; [by eapply create_wf|].
  split; [by eapply create_cnt_wf|].
  pose proof (create_raised _ _ _ _ _ _ Hrun) as Hlen%Forall2_length.
  apply create_inv in Hrun
    as (record & h1 & u1 & u2 & _ & Hh1 & _ & _ & _ & _ & _ & _ & _ & _
        & _ & _ & _ & _ & Hdep & _ & _ & Hslots & Hloop & ->).
  assert (Hlen1 : length h1 = length house).
  { rewrite Hh1. destruct (spouse_of record house) as [[sj sp]|];
      [apply length_insert | reflexivity]. }
  apply (create_search_loop ri
           (fun st => length st.1 = length house /\
                      (forall i, 1 <= i <= 15 -> is_Some (slots st.2 !! i)) /\
                      (forall k d, dep st.2 !! k = Some d ->
                                   0 <= d < Z.of_nat (length house))) _)
    in Hloop.
  - destruct Hloop as (_ & Hs & Hd). split; [exact Hs | exact Hd].
  - intros j ha ua hb ub Hstep (Hl & Hs & Hd). cbn [fst snd] in *.
    apply create_search_inv in Hstep
      as [[-> ->] | (p & idx & Hj & _ & _ & _ & _ & -> & Hidx & ->)];
      [done|].
    split; [by rewrite length_insert|]. split.
    + intros i Hi.
      change (is_Some (<[ben_number ua :=
                          (probs (set_d_flag true p),
                           ben_vals (set_d_flag true p))]> (slots ua) !! i)).
      apply insert_keeps. by apply Hs.
    + intros k d.
      change (<[depne ua + 1 := Z.of_nat idx]> (dep ua) !! k = Some d ->
              0 <= d < Z.of_nat (length house)).
      destruct (decide (k = depne ua + 1)) as [->|Hne].
      * rewrite lookup_insert_eq. intros [= <-].
        apply lookup_lt_Some in Hidx. rewrite length_insert in Hidx. lia.
      * rewrite lookup_insert_ne by done. apply Hd.
  - cbn [fst snd]. split; [exact Hlen1|]. split.
    + intros i Hi. apply Hslots. by apply slots0_15.
    + intros k d. rewrite Hdep, lookup_empty. discriminate.
Qed.

Lemma convert_deps_range (N : nat) (b : Z) (l : list Z) :
  forall x y x' y',
    for_in l (convert_deps b) (x, y) = Ok (x', y') ->
    (0 < N)%nat ->
    (forall k d, dep x !! k = Some d -> 0 <= d < Z.of_nat N) ->
    (forall k d, dep y !! k = Some d -> 0 <= d < Z.of_nat N) ->
    (forall k d, dep x' !! k = Some d -> 0 <= d < Z.of_nat N) /\
    (forall k d, dep y' !! k = Some d -> 0 <= d < Z.of_nat N).
Proof.
  induction l as [|nd l IH]; intros x y x' y' Hrun HN Hx Hy;
    cbn [for_in] in Hrun.
  - injection Hrun as <- <-. auto.
  - apply bind_Ok in Hrun as ([x1 y1] & Hstep & Hrest).
    unfold convert_deps in Hstep.
    apply bind_Ok in Hstep as (d0 & Hd0 & Hstep).
    apply bind_Ok in Hstep as (a & _ & Hstep).
    injection Hstep as <- <-.
    unfold getkey in Hd0.
    destruct (dep x !! nd) as [d1|] eqn:Hd1; [|discriminate].
    injection Hd0 as ->.
    apply (IH _ _ _ _ Hrest HN).
    + intros k d. cbn [dep set_dep].
      destruct (decide (k = b + nd)) as [->|Hne].
      * rewrite lookup_insert_eq. intros [= <-]. lia.
      * rewrite lookup_insert_ne by done. apply Hx.
    + intros k d. cbn [dep set_dep set_depage].
      destruct (decide (k = b + nd)) as [->|Hne].
      * rewrite lookup_insert_eq. intros [= <-]. by eapply Hx.
      * rewrite lookup_insert_ne by done. apply Hy.
Qed.

Lemma convert_unit_ok (N ix : nat) (x y x' y' : tax_unit) :
  (ix < N)%nat -> js x <> 2 -> unit_ok N x -> unit_ok N y ->
  convert_pair ix (set_t_flag false x) y = Ok (x', y') ->
  unit_ok N x' /\ unit_ok N y'.
Proof.
  intros Hix Hjs (Hxw & Hxc & Hxs & Hxd) (Hyw & Hyc & Hys & Hyd) Hrun.
  destruct Hxw as (Hxn & Hxdw & Hxsw & Hxt).
  pose proof (convert_pair_wf _ _ _ _ _ Hrun Hxn Hxdw Hxsw Hyw) as [Hw1 Hw2].
  pose proof (convert_pair_spec _ _ _ _ _ Hrun) as (Ex & Ey & _).
  apply convert_pair_inv in Hrun as (y0 & y1 & Hy0 & Hdeps & Hslots).
  apply Z.eqb_neq in Hjs.
  cbn [js depne set_t_flag] in Hy0, Hdeps. rewrite Hjs in Hy0, Hdeps.
  pose proof (convert_deps_loop _ _ _ _ _ _ Hdeps) as (Ex1 & Ey1 & _).
  apply (convert_deps_range N) in Hdeps as [Hx'd Hy1d]; [| lia | exact Hxd |].
  2:{ rewrite Hy0. intros k d. cbn [dep set_dep set_depage set_depne].
      destruct (decide (k = depne y + 1)) as [->|Hne].
      - rewrite lookup_insert_eq. intros [= <-]. lia.
      - rewrite lookup_insert_ne by done. apply Hyd. }
  pose proof (convert_slot_loop_keys _ _ _ _ Hslots) as (_ & Hkeep & _).
  apply convert_slot_loop in Hslots.
  split.
  - split; [exact Hw1|]. split; [|split; [|exact Hx'd]].
    + replace (cnt x') with (cnt x) by (symmetry; exact (f_equal cnt Ex)).
      exact Hxc.
    + replace (slots x') with (slots x)
        by (symmetry; exact (f_equal slots Ex)).
      exact Hxs.
  - split; [exact Hw2|]. split; [|split].
    + replace (cnt y') with (counters_add (cnt y) (cnt x))
        by (symmetry; exact (f_equal cnt Ey)).
      by apply counters_add_cnt_wf.
    + intros i Hi. apply Hkeep.
      change (is_Some (slots y1 !! i)).
      replace (slots y1) with (slots y0)
        by (symmetry; exact (f_equal slots Ey1)).
      rewrite Hy0. by apply Hys.
    + replace (dep y') with (dep y1)
        by (symmetry; exact (f_equal dep Hslots)).
      exact Hy1d.
Qed.

Lemma fold_unit_ok (N ix iy : nat) (us us' : list tax_unit) (x : tax_unit) :
  ix <> iy -> (ix < N)%nat -> us !! ix = Some x -> js x <> 2 ->
  Forall (unit_ok N) us -> fold_unit ix iy us = Ok us' ->
  Forall (unit_ok N) us'.
Proof.
  intros Hne Hix Hx Hjs Hok
    (x0 & y & x' & y' & Hx0 & Hy & Hp & ->)%fold_unit_inv; [|done].
  assert (x0 = x) as -> by congruence.
  rewrite Forall_lookup in Hok.
  apply (convert_unit_ok N) in Hp as [Hx' Hy'];
    [| exact Hix | exact Hjs | by apply (Hok ix) | by apply (Hok iy)].
  apply Forall_insert; [|exact Hy']. apply Forall_insert; [|exact Hx'].
  by apply Forall_lookup.
Qed.

Lemma search_unit_ok (N : nat) (n : Z) (units units' : list tax_unit) :
  (length units <= N)%nat -> Forall (unit_ok N) units ->
  search n units = Ok units' -> Forall (unit_ok N) units'.
Proof.
  intros Hlen Hok Hrun.
  apply (search_invariant
           (fun us => Forall (unit_ok N) us /\ length us = length units)
           n units units') in Hrun; [by destruct Hrun | | by split].
  intros h i ix top unit us us1 _ _ Hunit (Hne & _ & _ & Hjs)%convert1_true
    [Hus Hl] Hf1.
  assert (Hix : (ix < N)%nat) by (apply lookup_lt_Some in Hunit; lia).
  pose proof (fold_unit_ok N ix i us us1 unit Hne Hix Hunit Hjs Hus Hf1)
    as Hok1.
  pose proof (fold_unit_frame ix i us us1 Hne Hf1) as (Hl1 & _).
  pose proof (fold_unit_head_part ix i us us1 Hne Hf1) as Hhead.
  split; [split; [exact Hok1 | congruence]|].
  intros us2 Hf2.
  assert (Hunit1 : exists x1, us1 !! ix = Some x1 /\ js x1 = js unit).
  { assert (H : (head_part <$> us1) !! ix = Some (head_part unit))
      by (by rewrite Hhead, list_lookup_fmap, Hunit).
    rewrite list_lookup_fmap in H.
    destruct (us1 !! ix) as [x1|]; [|discriminate].
    exists x1. split; [reflexivity|].
    apply (inj Some) in H. exact (f_equal (fun t => t.2) H). }
  destruct Hunit1 as (x1 & Hx1 & Hjs1).
  pose proof (fold_unit_frame ix i us1 us2 Hne Hf2) as (Hl2 & _).
  split; [|congruence].
  apply (fold_unit_ok N ix i us1 us2 x1); auto. congruence.
Qed.

Lemma hhstatus_unit_ok (N k : nat) (units : list tax_unit) :
  Forall (unit_ok N) units -> Forall (unit_ok N) (hhstatus k units).
Proof.
  intros Hok.
  destruct (hhstatus_cases k units) as [-> | (u & Hu & -> & _)]; [exact Hok|].
  apply Forall_insert; [exact Hok|].
  rewrite Forall_lookup in Hok. exact (Hok _ _ Hu).
Qed.

Lemma map_hhstatus_unit_ok (N : nat) (py : python) (units : list tax_unit) :
  Forall (unit_ok N) units -> Forall (unit_ok N) (map_hhstatus py units).
Proof.
  destruct py; [|done]. unfold map_hhstatus.
  generalize (seq 0 (length units)). intros ks. revert units.
  induction ks as [|k ks IH]; intros units Hok; cbn [foldl]; [exact Hok|].
  by apply IH, hhstatus_unit_ok.
Qed.

Lemma follow_append (house : list person) (k : nat) (s s' : state) :
  units_follow house k s -> append_create k s = Ok s' ->
  units_follow house (S k) s'.
Proof.
  intros Hq Happ.
  pose proof Happ as (n' & h' & u & Hcreate & _)%append_create_inv.
  apply create_head in Hcreate as (_ & _ & record & Hrec & _).
  destruct (unflag_lookup _ _ _ _ (proj1 Hq) Hrec) as (p0 & Hp0 & _).
  by apply (append_create_follow house k s s' p0 Hp0 Hq) in Happ as [? _].
Qed.

Lemma follow_skip (house : list person) (k : nat) (s : state) (p : person) :
  units_follow house k s -> house_dicts s !! k = Some p ->
  units_follow house (S k) s.
Proof.
  intros Hq Hp.
  destruct (unflag_lookup _ _ _ _ (proj1 Hq) Hp) as (p0 & Hp0 & _).
  by eapply units_follow_skip.
Qed.

Lemma follow_search (house : list person) (k : nat) (s : state)
  (units : list tax_unit) :
  units_follow house k s ->
  search (nunits s) (house_units s) = Ok units ->
  units_follow house k (mkState (nunits s) (house_dicts s) units).
Proof.
  intros [Hh Hsub] Hsearch%search_linenos.
  split; cbn [house_dicts house_units]; [exact Hh | by rewrite Hsearch].
Qed.

Lemma follow_lengths (house : list person) (k : nat) (s : state) :
  units_follow house k s ->
  length (house_dicts s) = length house /\
  (length (house_units s) <= length house)%nat.
Proof.
  intros [Hh Hsub]. split.
  - rewrite <- (length_fmap unflag (house_dicts s)), Hh. apply length_fmap.
  - apply sublist_length in Hsub.
    rewrite !length_fmap, length_take in Hsub. lia.
Qed.

Lemma build_units_ok (house : list person) (st : state) :
  build_units house = Ok st ->
  Forall (unit_ok (length house)) (house_units st).
Proof.
  intros Hrun.
  assert (H : units_follow house (length house) st /\
              Forall (unit_ok (length house)) (house_units st));
    [|by destruct H].
  revert st Hrun.
  apply (build_units_invariant
           (fun k s => units_follow house k s /\
                       Forall (unit_ok (length house)) (house_units s))).
  - split; [|by apply Forall_nil].
    split; [reflexivity | apply sublist_nil_l].
  - intros k s s' [Hf Hok] Happ.
    split; [by eapply follow_append|].
    apply append_create_inv in Happ as (n' & h' & u & Hcreate & ->).
    cbn [house_units]. apply Forall_app. split; [exact Hok|].
    apply Forall_singleton.
    rewrite <- (proj1 (follow_lengths _ _ _ Hf)).
    by eapply create_unit_ok.
  - intros k s p [Hf Hok] Hp _. split; [by eapply follow_skip | exact Hok].
  - intros k s units [Hf Hok] _ Hsearch.
    split; [by apply follow_search|]. cbn [house_units].
    apply (search_unit_ok _ _ _ _ (proj2 (follow_lengths _ _ _ Hf)) Hok
             Hsearch).
Qed.

(** X23.  Every unit [computation] builds for a household, folded or not:
    has a dependent count that is not negative and the keys [dep<n>],
    [depage<n>] for every n up to it, and a benefit slot for every position
    below [ben_number] and for each of the fifteen positions [output]
    copies; has consistent counters (the three counters of dependent
    children are equal and at most [nu18], [f2441] equals [nu13], the
    elderly dependents are at most [n21]); holds under every [dep] key a
    position of the household; and is a tax unit unless it is a dependent
    filer. *)
Theorem computation_units_ok (py : python) (house : list person)
  (units : list tax_unit) (outs : list out_record) :
  computation py house = Ok (units, outs) ->
  Forall (unit_ok (length house)) units.
Proof.
  unfold computation. intros Hrun.
  apply bind_Ok in Hrun as (st & Hbuild & Hrun).
  apply bind_Ok in Hrun as (outs' & _ & Hrun).
  injection Hrun as <- _.
  apply map_hhstatus_unit_ok. by apply build_units_ok.
Qed.

(** ** The exceptions of [computation] *)

Lemma fold_unit_total (N ix iy : nat) (us : list tax_unit) (x : tax_unit) :
  ix <> iy -> us !! ix = Some x -> is_Some (us !! iy) ->
  Forall (unit_ok N) us ->
  exists us', fold_unit ix iy us = Ok us'.
Proof.
  intros Hne Hx [y Hy] Hok.
  rewrite (fold_unit_eq ix iy us x y Hx Hy Hne).
  rewrite Forall_lookup in Hok.
  destruct (Hok ix x Hx) as ((_ & Hd & Hs & _) & _).
  destruct (convert_pair_total ix (set_t_flag false x) y Hd Hs)
    as (x' & y' & ->).
  cbn [mbind result_bind]. eauto.
Qed.

(** A fold that [search] makes or leaves out, for a unit that is no joint
    filer, in a list of units that stays as [computation] keeps it. *)
Lemma fold_or_keep (N ix i : nat) (b : bool) (us : list tax_unit)
  (unit : tax_unit) :
  ix <> i -> (ix < N)%nat -> js unit <> 2 ->
  Forall (unit_ok N) us ->
  (exists x, us !! ix = Some x /\ js x = js unit) -> is_Some (us !! i) ->
  exists us',
    (if b then fold_unit ix i us else Ok us) = Ok us' /\
    Forall (unit_ok N) us' /\ length us' = length us /\
    (exists x, us' !! ix = Some x /\ js x = js unit) /\ is_Some (us' !! i).
Proof.
  intros Hne Hix Hjs Hok (x & Hx & Hjx) Hi.
  destruct b; [|exists us; eauto 10].
  destruct (fold_unit_total N ix i us x Hne Hx Hi Hok) as [us' Hf].
  exists us'. split; [exact Hf|].
  assert (Hjs' : js x <> 2) by congruence.
  split; [exact (fold_unit_ok N ix i us us' x Hne Hix Hx Hjs' Hok Hf)|].
  pose proof (fold_unit_frame ix i us us' Hne Hf) as (Hl & _).
  pose proof (fold_unit_head_part ix i us us' Hne Hf) as Hhead.
  split; [exact Hl|]. split.
  - assert (H : (head_part <$> us') !! ix = Some (head_part x))
      by (by rewrite Hhead, list_lookup_fmap, Hx).
    rewrite list_lookup_fmap in H.
    destruct (us' !! ix) as [x1|]; [|discriminate].
    exists x1. split; [reflexivity|].
    apply (inj Some) in H. rewrite <- Hjx.
    exact (f_equal (fun t => t.2) H).
  - apply lookup_lt_is_Some. rewrite Hl. by apply lookup_lt_is_Some.
Qed.

Lemma search_step_total (N : nat) (h : Z) (i : nat) (ix : Z)
  (us : list tax_unit) :
  Forall (unit_ok N) us -> (length us <= N)%nat ->
  0 <= ix < Z.of_nat (length us) -> is_Some (us !! i) ->
  exists us',
    search_step h i ix us = Ok us' /\
    Forall (unit_ok N) us' /\ length us' = length us.
Proof.
  intros Hok Hlen Hix Hi. unfold search_step.
  destruct (lookup_lt_is_Some_2 us (Z.to_nat ix)) as [unit Hunit]; [lia|].
  pose proof (py_index_nat us (Z.to_nat ix) unit Hunit) as Hpy.
  rewrite Z2Nat.id in Hpy by lia.
  rewrite Hpy. cbn [mbind result_bind].
  destruct (convert1 h i (Z.to_nat ix) unit) eqn:Hc1; [|eauto].
  apply convert1_true in Hc1 as (Hne & _ & _ & Hjs).
  assert (HN : (Z.to_nat ix < N)%nat) by lia.
  assert (Hfold : forall (b : bool) l,
            Forall (unit_ok N) l /\ length l = length us /\
            (exists x, l !! Z.to_nat ix = Some x /\ js x = js unit) /\
            is_Some (l !! i) ->
            exists l',
              (if b then fold_unit (Z.to_nat ix) i l else Ok l) = Ok l' /\
              (Forall (unit_ok N) l' /\ length l' = length us /\
               (exists x, l' !! Z.to_nat ix = Some x /\ js x = js unit) /\
               is_Some (l' !! i))).
  { intros b l (H1 & H2 & H3 & H4).
    destruct (fold_or_keep N (Z.to_nat ix) i b l unit Hne HN Hjs H1 H3 H4)
      as (l' & Hrun & Hok' & Hl' & Hx' & Hi').
    exists l'. split; [exact Hrun|]. repeat split; auto. congruence. }
  assert (H0 : Forall (unit_ok N) us /\ length us = length us /\
               (exists x, us !! Z.to_nat ix = Some x /\ js x = js unit) /\
               is_Some (us !! i)) by eauto 10.
  assert (Hmid : exists us1,
            (if (u_ftype unit =? 1) || (u_ftype unit =? 3)
                || (u_ftype unit =? 5)
             then
               units ← (if totincx unit <=? 0
                        then fold_unit (Z.to_nat ix) i us else Ok us);
               if (0 <? totincx unit) && (totincx unit <=? 3000)
               then fold_unit (Z.to_nat ix) i units else Ok units
             else Ok us) = Ok us1 /\
            (Forall (unit_ok N) us1 /\ length us1 = length us /\
             (exists x, us1 !! Z.to_nat ix = Some x /\ js x = js unit) /\
             is_Some (us1 !! i))).
  { destruct ((u_ftype unit =? 1) || (u_ftype unit =? 3)
              || (u_ftype unit =? 5)); [|eauto].
    destruct (Hfold (totincx unit <=? 0) us H0) as (usa & -> & Ha).
    cbn [mbind result_bind].
    exact (Hfold ((0 <? totincx unit) && (totincx unit <=? 3000)) usa Ha). }
  destruct Hmid as (us1 & -> & H1). cbn [mbind result_bind].
  destruct (Hfold (relcode unit =? 11) us1 H1) as (us' & -> & H2 & H3 & _).
  eauto.
Qed.

Lemma search_total (N : nat) (n : Z) (units : list tax_unit) :
  units <> [] -> n <= Z.of_nat (length units) ->
  (length units <= N)%nat -> Forall (unit_ok N) units ->
  exists units', search n units = Ok units'.
Proof.
  intros Hne Hn Hlen Hok. unfold search.
  destruct (search_top_total units) as (h & i & -> & Hcase).
  cbn [mbind result_bind].
  assert (Hi : is_Some (units !! i)).
  { destruct Hcase as [[_ ->] | (u & Hu & _)]; [|by exists u].
    destruct units; [done | by eexists]. }
  destruct Hi as [top Htop]. rewrite Htop.
  destruct (negb (u_ifdept top)); [|eauto].
  destruct (for_in_total
              (fun us => Forall (unit_ok N) us /\ length us = length units)
              (seqZ 0 n) (search_step h i)) with (s := units)
    as (units' & Hrun & _); [| by split | eauto].
  intros ix us Hix%elem_of_seqZ [Hus Hl].
  destruct (search_step_total N h i ix us) as (us' & Hstep & Hus' & Hl');
    [exact Hus | lia | lia | |].
  - apply lookup_lt_is_Some. rewrite Hl. by eapply lookup_lt_Some.
  - exists us'. split; [exact Hstep|]. split; [exact Hus' | congruence].
Qed.

Lemma state_ok_append (house : list person) (k : nat) (s s' : state) :
  state_ok house k s -> append_create k s = Ok s' ->
  state_ok house (S k) s'.
Proof.
  intros (Hf & Hok & Hn) Happ.
  split; [by eapply follow_append|].
  apply append_create_inv in Happ as (n' & h' & u & Hcreate & ->).
  cbn [house_units nunits]. split.
  - apply Forall_app. split; [exact Hok|]. apply Forall_singleton.
    rewrite <- (proj1 (follow_lengths _ _ _ Hf)). by eapply create_unit_ok.
  - apply create_head in Hcreate as (-> & _).
    rewrite length_app. simpl. lia.
Qed.

Lemma state_ok_skip (house : list person) (k : nat) (s : state) (p : person) :
  state_ok house k s -> house_dicts s !! k = Some p ->
  state_ok house (S k) s.
Proof.
  intros (Hf & Hok & Hn) Hp. split; [by eapply follow_skip | by split].
Qed.

Lemma state_ok_search (house : list person) (k : nat) (s : state)
  (units : list tax_unit) :
  state_ok house k s ->
  search (nunits s) (house_units s) = Ok units ->
  state_ok house k (mkState (nunits s) (house_dicts s) units).
Proof.
  intros (Hf & Hok & Hn) Hsearch.
  split; [by apply follow_search|]. cbn [house_units nunits]. split.
  - exact (search_unit_ok _ _ _ _ (proj2 (follow_lengths _ _ _ Hf)) Hok
             Hsearch).
  - apply search_length in Hsearch. by rewrite Hsearch.
Qed.

Lemma family_create_state_ok (house : list person) (k : nat) (s s' : state) :
  family_create k s = Ok s' -> state_ok house k s -> state_ok house (S k) s'.
Proof.
  apply (family_create_invariant (state_ok house)).
  - intros. by eapply state_ok_append.
  - intros. by eapply state_ok_skip.
Qed.

Lemma family_step_state_ok (house : list person) (k : nat) (s s' : state) :
  family_step k s = Ok s' -> state_ok house k s -> state_ok house (S k) s'.
Proof.
  apply (family_step_invariant (state_ok house)).
  - intros. by eapply state_ok_append.
  - intros. by eapply state_ok_skip.
  - intros. by apply state_ok_search.
Qed.

(** The one exception of [create]. *)
Lemma create_err (n : Z) (ri : nat) (house : list person) (record : person)
  (e : exn) :
  house !! ri = Some record -> create n ri house = Raise e ->
  e = UnboundLocalError /\ ~ spouse_found house record.
Proof.
  intros Hri Hrun.
  assert (Hno : ~ spouse_found house record).
  { intros Hsp.
    destruct (create_total n ri house record Hri Hsp) as (? & ? & ? & Hok).
    congruence. }
  split; [|exact Hno].
  rewrite (create_raises n ri house record Hri Hno) in Hrun. congruence.
Qed.

Lemma append_create_err (house : list person) (k : nat) (s : state) (e : exn) :
  unflag <$> house_dicts s = unflag <$> house -> (k < length house)%nat ->
  append_create k s = Raise e ->
  e = UnboundLocalError /\ ~ spouses_found house.
Proof.
  intros Hun Hk Hrun.
  assert (Hlen : length (house_dicts s) = length house)
    by (rewrite <- (length_fmap unflag (house_dicts s)), Hun;
        apply length_fmap).
  destruct (lookup_lt_is_Some_2 (house_dicts s) k) as [record Hrec]; [lia|].
  unfold append_create in Hrun.
  destruct (create (nunits s) k (house_dicts s)) as [[[n1 h1] u1]|e1]
    eqn:Hcreate; [discriminate|].
  injection Hrun as ->.
  apply (create_err _ _ _ record) in Hcreate as [-> Hno]; [|exact Hrec].
  split; [reflexivity|]. intros Hsound. apply Hno.
  apply (spouses_found_unflag house (house_dicts s) Hun Hsound).
  by eapply list_elem_of_lookup_2.
Qed.

Lemma family_create_err (house : list person) (k : nat) (s : state) (e : exn) :
  state_ok house k s -> (k < length house)%nat ->
  family_create k s = Raise e ->
  e = UnboundLocalError /\ ~ spouses_found house.
Proof.
  intros Hs Hk Hrun. unfold family_create in Hrun.
  pose proof (follow_lengths _ _ _ (proj1 Hs)) as [Hlen _].
  destruct (lookup_lt_is_Some_2 (house_dicts s) k) as [person Hperson];
    [lia|].
  rewrite Hperson in Hrun.
  assert (Hfirst : forall s1,
            (if negb (h_flag person) && negb (s_flag person)
                && negb (d_flag person)
             then append_create k s else Ok s) = Ok s1 ->
            unflag <$> house_dicts s1 = unflag <$> house /\
            length (house_dicts s1) = length house).
  { intros s1 H1.
    assert (Hun1 : unflag <$> house_dicts s1 = unflag <$> house).
    { destruct (_ && _) in H1; [|injection H1 as <-; exact (proj1 (proj1 Hs))].
      apply (state_ok_append house k s s1 Hs) in H1. exact (proj1 (proj1 H1)). }
    split; [exact Hun1|].
    rewrite <- (length_fmap unflag (house_dicts s1)), Hun1.
    apply length_fmap. }
  destruct (if negb (h_flag person) && negb (s_flag person)
               && negb (d_flag person)
            then append_create k s else Ok s) as [s1|e1] eqn:H1.
  - destruct (Hfirst s1 eq_refl) as [Hun1 Hlen1].
    cbn [mbind result_bind] in Hrun.
    destruct (lookup_lt_is_Some_2 (house_dicts s1) k) as [person1 Hperson1];
      [lia|].
    rewrite Hperson1 in Hrun.
    destruct (negb (s_flag person1) && d_flag person1); [|discriminate].
    destruct (must_file person1); [|discriminate].
    by eapply append_create_err.
  - cbn [mbind result_bind] in Hrun. injection Hrun as <-.
    destruct (_ && _) in H1; [|discriminate].
    eapply append_create_err; [exact (proj1 (proj1 Hs)) | exact Hk | exact H1].
Qed.

Lemma family_step_err (house : list person) (k : nat) (s : state) (e : exn) :
  state_ok house k s -> (k < length house)%nat ->
  family_step k s = Raise e ->
  e = UnboundLocalError /\ ~ spouses_found house.
Proof.
  intros Hs Hk Hrun. unfold family_step in Hrun.
  destruct (family_create k s) as [s1|e1] eqn:Hc.
  - cbn [mbind result_bind] in Hrun.
    apply (family_create_state_ok house) in Hc; [|exact Hs].
    destruct Hc as (Hf & Hok & Hn).
    destruct (Z.ltb_spec 1 (nunits s1)) as [Hgt|]; [|discriminate].
    destruct (search_total (length house) (nunits s1) (house_units s1))
      as [units Hsearch].
    + intros Hnil. rewrite Hnil in Hn. simpl in Hn. lia.
    + lia.
    + exact (proj2 (follow_lengths _ _ _ Hf)).
    + exact Hok.
    + rewrite Hsearch in Hrun. discriminate.
  - cbn [mbind result_bind] in Hrun. injection Hrun as <-.
    by eapply family_create_err.
Qed.

Lemma loop_err (house : list person) (step : nat -> state -> result state) :
  (forall k s s', step k s = Ok s' -> state_ok house k s ->
                  state_ok house (S k) s') ->
  (forall k s e, state_ok house k s -> (k < length house)%nat ->
                 step k s = Raise e ->
                 e = UnboundLocalError /\ ~ spouses_found house) ->
  forall n a s e,
    (a + n <= length house)%nat -> state_ok house a s ->
    for_in (seq a n) step s = Raise e ->
    e = UnboundLocalError /\ ~ spouses_found house.
Proof.
  intros Hok Herr. induction n as [|n IH]; intros a s e Hlen Hs Hrun;
    [discriminate|].
  cbn [seq for_in] in Hrun.
  destruct (step a s) as [s1|e1] eqn:Hstep.
  - cbn [mbind result_bind] in Hrun.
    apply (IH (S a) s1 e); [lia | by eapply Hok | exact Hrun].
  - cbn [mbind result_bind] in Hrun. injection Hrun as <-.
    apply (Herr a s); [exact Hs | lia | exact Hstep].
Qed.

Lemma state_ok_init (house : list person) :
  state_ok house 0 (mkState 0 house []).
Proof.
  split; [split; [reflexivity | apply sublist_nil_l]|].
  split; [by apply Forall_nil | reflexivity].
Qed.

(** In a family household every call of [search] has the number of the
    units of the household as [nunits]. *)
Lemma search_units_counted (house : list person) (k : nat) (st st1 : state) :
  for_in (seq 0 k) family_step (mkState 0 house []) = Ok st ->
  family_create k st = Ok st1 ->
  nunits st1 = Z.of_nat (length (house_units st1)).
Proof.
  intros Hloop Hcreate.
  assert (Hall : forall n a s s',
            for_in (seq a n) family_step s = Ok s' ->
            state_ok house a s -> state_ok house (a + n) s').
  { induction n as [|n IH]; intros a s s' Hl Hs.
    - injection Hl as <-. by rewrite Nat.add_0_r.
    - cbn [seq for_in] in Hl.
      apply bind_Ok in Hl as (s1 & Hst & Hrest).
      replace (a + S n)%nat with (S a + n)%nat by lia.
      apply (IH (S a) s1 s' Hrest).
      exact (family_step_state_ok house a s s1 Hst Hs). }
  pose proof (Hall k 0%nat _ _ Hloop (state_ok_init house)) as Hk.
  apply (family_create_state_ok house k st st1 Hcreate) in Hk.
  apply Hk.
Qed.

Lemma build_units_err (house : list person) (e : exn) :
  house <> [] -> build_units house = Raise e ->
  e = UnboundLocalError /\ ~ spouses_found house.
Proof.
  intros Hne Hrun. unfold build_units in Hrun.
  destruct house as [|head rest] eqn:Hhouse; [done|].
  rewrite <- Hhouse in *.
  destruct (((h_type head =? 6) || (h_type head =? 7))
            && (h_numper head =? 1)).
  - apply (append_create_err house 0) in Hrun; [exact Hrun | reflexivity |].
    rewrite Hhouse. simpl. lia.
  - destruct (h_type head =? 9).
    + apply (loop_err house append_create) in Hrun;
        [exact Hrun | | | simpl; lia | apply state_ok_init].
      * intros k s s' Happ Hs. by eapply state_ok_append.
      * intros k s e' Hs Hk Happ.
        eapply append_create_err; [exact (proj1 (proj1 Hs)) | exact Hk
                                  | exact Happ].
    + apply (loop_err house family_step) in Hrun;
        [exact Hrun | | | simpl; lia | apply state_ok_init].
      * intros k s s'. apply family_step_state_ok.
      * intros k s e'. apply family_step_err.
Qed.

Lemma py_index_total {A : Type} (l : list A) (d : Z) :
  0 <= d < Z.of_nat (length l) -> exists a, py_index l d = Ok a.
Proof.
  intros Hd.
  destruct (lookup_lt_is_Some_2 l (Z.to_nat d)) as [a Ha]; [lia|].
  exists a. rewrite <- (Z2Nat.id d) by lia. by apply py_index_nat.
Qed.

(** [output] finds every key and every person it reads for a unit of the
    household. *)
Lemma output_total (unit : tax_unit) (house : list person) :
  unit_ok (length house) unit -> exists r, output unit house = Ok r.
Proof.
  intros ((Hn & Hdeps & _) & _ & _ & Hrange).
  assert (Hperson : forall i, 1 <= i <= depne unit ->
            exists d p, dep unit !! i = Some d /\ py_index house d = Ok p).
  { intros i Hi. destruct (Hdeps i Hi) as [[d Hd] _].
    destruct (py_index_total house d) as [p Hp]; [by eapply Hrange|].
    by exists d, p. }
  assert (H1 : forall eflag st, exists st',
            for_in (seqZ 1 (depne unit)) (output_dep unit house eflag) st
            = Ok st').
  { intros eflag st.
    destruct (for_in_total (fun _ => True) (seqZ 1 (depne unit))
                (output_dep unit house eflag)) with (s := st)
      as (st' & Hrun & _); [| done | eauto].
    intros i [x c] Hi%elem_of_seqZ _.
    destruct (Hperson i) as (d & p & Hd & Hp); [lia|].
    unfold output_dep, getkey. rewrite Hd. cbn [mbind result_bind].
    rewrite Hp. cbn [mbind result_bind]. destruct eflag; eauto. }
  assert (H2 : forall st, exists st',
            for_in (seqZ 1 (depne unit)) (output_ages unit) st = Ok st').
  { intros st.
    destruct (for_in_total (fun _ => True) (seqZ 1 (depne unit))
                (output_ages unit)) with (s := st)
      as (st' & Hrun & _); [| done | eauto].
    intros i [o y] Hi%elem_of_seqZ _.
    destruct (Hdeps i) as [_ [a Ha]]; [lia|].
    unfold output_ages, getkey. rewrite Ha. cbn [mbind result_bind].
    destruct a; eauto. }
  assert (H3 : forall z, exists z',
            for_in (seqZ 1 (depne unit)) (output_depin unit house) z = Ok z').
  { intros z.
    destruct (for_in_total (fun _ => True) (seqZ 1 (depne unit))
                (output_depin unit house)) with (s := z)
      as (z' & Hrun & _); [| done | eauto].
    intros i z0 Hi%elem_of_seqZ _.
    destruct (Hperson i) as (d & p & Hd & Hp); [lia|].
    unfold output_depin, getkey. rewrite Hd. cbn [mbind result_bind].
    rewrite Hp. cbn [mbind result_bind]. destruct (negb (flag p)); eauto. }
  unfold output.
  destruct (output_eflag unit); destruct (js unit =? 2);
    destruct (0 <? depne unit).
  all: repeat match goal with
       | |- context [for_in _ (output_dep _ _ ?f) ?st] =>
         destruct (H1 f st) as [[? ?] ->]; cbn [mbind result_bind]
       | |- context [for_in _ (output_ages _) ?st] =>
         destruct (H2 st) as [[? ?] ->]; cbn [mbind result_bind]
       | |- context [for_in _ (output_depin _ _) ?z] =>
         destruct (H3 z) as [? ->]; cbn [mbind result_bind]
       end.
  all: eauto.
Qed.

Lemma outputs_total (house : list person) (units : list tax_unit) :
  Forall (unit_ok (length house)) units ->
  exists outs,
    for_in units
      (fun unit outs =>
         if t_flag unit then r ← output unit house; Ok (outs ++ [r])
         else Ok outs) [] = Ok outs.
Proof.
  intros Hok.
  destruct (for_in_total (fun _ : list out_record => True) units
              (fun unit outs =>
                 if t_flag unit then r ← output unit house; Ok (outs ++ [r])
                 else Ok outs)) with (s := @nil out_record)
    as (outs & Hrun & _); [| done | eauto].
  intros unit outs Hin _.
  destruct (t_flag unit); [|eauto].
  rewrite Forall_forall in Hok.
  destruct (output_total unit house (Hok unit Hin)) as [r ->].
  cbn [mbind result_bind]. eauto.
Qed.

Lemma computation_err (py : python) (house : list person) (e : exn) :
  house <> [] -> computation py house = Raise e ->
  e = UnboundLocalError /\ ~ spouses_found house.
Proof.
  intros Hne Hrun. unfold computation in Hrun.
  destruct (build_units house) as [st|e1] eqn:Hbuild.
  - cbn [mbind result_bind] in Hrun.
    pose proof (build_units_ok house st Hbuild) as Hok.
    pose proof (build_units_raised house st Hbuild) as Hlen%Forall2_length.
    apply (map_hhstatus_unit_ok _ py) in Hok. rewrite Hlen in Hok.
    destruct (outputs_total (house_dicts st) _ Hok) as [outs Houts].
    rewrite Houts in Hrun. discriminate.
  - cbn [mbind result_bind] in Hrun. injection Hrun as <-.
    by apply build_units_err.
Qed.

(** X24.  For a household that is not empty and in which every spouse
    pointer is sound, [computation] raises no exception: it returns the
    units of the household and the records of its tax units. *)
Theorem computation_total (py : python) (house : list person) :
  house <> [] -> spouses_found house ->
  exists units outs, computation py house = Ok (units, outs).
Proof.
  intros Hne Hsound.
  destruct (computation py house) as [[units outs]|e] eqn:Hrun; [eauto|].
  by apply computation_err in Hrun as [_ Hno].
Qed.

(** X25.  For a household that is not empty [computation] returns, or it
    raises [UnboundLocalError], which it does only when some spouse pointer
    of the household is not sound: no key of a unit is ever missed, and no
    person or unit is looked up out of range. *)
Theorem computation_raises (py : python) (house : list person) :
  house <> [] ->
  (exists units outs, computation py house = Ok (units, outs)) \/
  (computation py house = Raise UnboundLocalError /\
   ~ spouses_found house).
Proof.
  intros Hne.
  destruct (computation py house) as [[units outs]|e] eqn:Hrun;
    [left; eauto|].
  right. by apply computation_err in Hrun as [-> Hno].
Qed.

Lemma output_o_unit (unit : tax_unit) (house : list person) (r : out_record) :
  output unit house = Ok r ->
  o_unit r = unit /\ income r = totincx unit /\ o_filst r = filst unit.
Proof.
  unfold output. intros Hrun.
  destruct (output_eflag unit); destruct (js unit =? 2).
  all: apply bind_Ok in Hrun as ([x1 c1] & _ & Hrun).
  all: apply bind_Ok in Hrun as ([o1 y1] & _ & Hrun).
  all: apply bind_Ok in Hrun as (z1 & _ & Hrun).
  all: by injection Hrun as <-.
Qed.

Lemma outputs_loop (house : list person) (units : list tax_unit) :
  forall outs0 outs,
    for_in units
      (fun unit outs =>
         if t_flag unit then r ← output unit house; Ok (outs ++ [r])
         else Ok outs) outs0 = Ok outs ->
    o_unit <$> outs = (o_unit <$> outs0) ++ surviving units /\
    (Forall (fun r => income r = totincx (o_unit r) /\
                      o_filst r = filst (o_unit r)) outs0 ->
     Forall (fun r => income r = totincx (o_unit r) /\
                      o_filst r = filst (o_unit r)) outs).
Proof.
  induction units as [|unit units IH]; intros outs0 outs Hrun;
    cbn [for_in] in Hrun.
  - injection Hrun as <-. split; [by rewrite app_nil_r | done].
  - apply bind_Ok in Hrun as (outs1 & Hstep & Hrest).
    apply IH in Hrest as [Hunits Hall].
    unfold surviving. rewrite filter_cons.
    destruct (t_flag unit) eqn:Hflag.
    + apply bind_Ok in Hstep as (r & Hout & Hstep).
      injection Hstep as <-.
      apply output_o_unit in Hout as (Hu & Hi & Hf).
      rewrite decide_True by done. split.
      * rewrite Hunits, fmap_app, <- app_assoc. simpl. by rewrite Hu.
      * intros H0. apply Hall, Forall_app. split; [exact H0|].
        apply Forall_singleton. by rewrite Hu.
    + injection Hstep as <-.
      rewrite decide_False by done. by split.
Qed.

(** X26.  The records [computation] adds for a household are those of its
    surviving units, one for each in the order of the units and none for a
    unit that was folded into another; every record carries the total
    income and the filing test [filst] of its unit. *)
Theorem computation_records (py : python) (house : list person)
  (units : list tax_unit) (outs : list out_record) :
  computation py house = Ok (units, outs) ->
  o_unit <$> outs = surviving units /\
  Forall (fun r => income r = totincx (o_unit r) /\
                   o_filst r = filst (o_unit r)) outs.
Proof.
  unfold computation. intros Hrun.
  apply bind_Ok in Hrun as (st & _ & Hrun).
  apply bind_Ok in Hrun as (outs' & Hloop & Hrun).
  injection Hrun as <- <-.
  apply outputs_loop in Hloop as [Hunits Hall].
  split; [exact Hunits | by apply Hall].
Qed.

(** ** Who files *)

(** X27.  In a household for which [computation] does not stop at one
    unit, every person who must file by [must_file] (wages, or an income
    above 1000) and who carries neither the spouse nor the head flag is the
    head of a unit, dependent of another unit or not. *)
Theorem filers_head_units (house : list person) (st : state) :
  build_units house = Ok st -> single_household house = false ->
  forall p, p ∈ house_dicts st ->
    must_file p = true -> s_flag p = false -> h_flag p = false ->
    a_lineno p ∈ (u_a_lineno <$> house_units st).
Proof.
  intros Hrun Hsingle.
  assert (Hall : forall j p,
             (j < length house)%nat -> house_dicts st !! j = Some p ->
             h_flag p = true \/ s_flag p = true \/ must_file p = false \/
             a_lineno p ∈ (u_a_lineno <$> house_units st)).
  { revert st Hrun.
    apply (build_units_invariant
             (fun k s => forall j p, (j < k)%nat ->
                house_dicts s !! j = Some p ->
                h_flag p = true \/ s_flag p = true \/ must_file p = false \/
                a_lineno p ∈ (u_a_lineno <$> house_units s))).
    - intros j p Hj. lia.
    - intros k s s' Hq Happ j p' Hj Hp'.
      pose proof Happ as (n' & h' & u & Hcreate & ->)%append_create_inv.
      cbn [house_dicts house_units] in *.
      pose proof (create_raised _ _ _ _ _ _ Hcreate) as Hraised.
      destruct (Forall2_lookup_r _ _ _ _ _ Hraised Hp')
        as (p & Hp & Hun & Hh & Hs & _).
      assert (Hl : a_lineno p' = a_lineno p) by exact (f_equal a_lineno Hun).
      assert (Hmf : must_file p' = must_file p).
      { change (must_file (unflag p') = must_file (unflag p)).
        by rewrite Hun. }
      rewrite fmap_app, Hl, Hmf, Hh.
      destruct (decide (j = k)) as [->|Hne].
      + right. right. right. apply elem_of_app. right.
        apply create_head in Hcreate as (_ & _ & record & Hrec & Hhead).
        assert (record = p) as -> by congruence.
        injection Hhead as Hlu _ _. simpl. rewrite Hlu. by left.
      + destruct (Hq j p) as [H | [H | [H | H]]]; [lia | exact Hp | auto ..].
        right. right. right. apply elem_of_app. by left.
    - intros k s p Hq Hp [Hs | Hfl] j p' Hj Hp'; [congruence|].
      destruct (decide (j = k)) as [->|Hne].
      + assert (p' = p) as -> by congruence.
        destruct Hfl as [H | [H | [_ H]]]; auto.
      + apply (Hq j); [lia | exact Hp'].
    - intros k s units Hq _ Hsearch%search_linenos j p Hj Hp.
      cbn [house_dicts house_units] in *. rewrite Hsearch. by apply (Hq j). }
  intros p [j Hj]%list_elem_of_lookup_1 Hmf Hs Hh.
  destruct (Hall j p) as [H | [H | [H | H]]]; try congruence.
  apply lookup_lt_Some in Hj.
  apply build_units_raised, Forall2_length in Hrun. lia.
Qed.

(** X28.  The gross income test of [filst] takes 3950 off its threshold
    for each dependent, so that a single unit with three dependents or
    more, and a joint unit with six or more, passes [filst] whenever the
    income the test adds up is not negative. *)
Theorem filst_many_dependents (r : tax_unit) :
  (js r = 1 /\ 3 <= depne r) \/ (js r = 2 /\ 6 <= depne r) ->
  0 <= filst_income r -> filst r = 1.
Proof.
  intros Hcase Hinc. unfold filst.
  assert (Ht : filst_tests r = true); [|by rewrite Ht].
  unfold filst_tests, single, single65, joint, joint65one, joint65both,
    depExempt.
  generalize dependent (filst_income r). intros income Hinc.
  destruct Hcase as [[-> Hd] | [-> Hd]]; cbn [Z.eqb Pos.eqb].
  - destruct (wage1 <=? was (inc r)); [reflexivity|].
    destruct (negb (agede r =? 0)); apply Z.leb_le; lia.
  - destruct (if 0 <? depne r then wage2 <=? was (inc r)
              else wage2nk <=? was (inc r)); [reflexivity|].
    destruct (agede r =? 1); [|destruct (agede r =? 2)];
      apply Z.leb_le; lia.
Qed.

(** ** The theorems at work *)

Lemma relative_unit_wf : deps_wf relative_unit /\ slots_wf relative_unit.
Proof.
  split.
  - intros k Hk. simpl in Hk. lia.
  - intros i Hi. simpl in Hi.
    assert (Hcase : i = 1 \/ i = 2) by lia.
    destruct Hcase as [-> | ->]; vm_compute; eauto.
Qed.

Lemma earner_relative_wf : Forall unit_wf [earner_unit; relative_unit].
Proof.
  (constructor; [|constructor; [|constructor]]).
  all: split; [simpl; lia|]; split; [|split; [|intros _; reflexivity]].
  1, 3: intros k Hk; simpl in Hk; lia.
  all: intros i Hi; simpl in Hi.
  all: assert (Hcase : i = 1 \/ i = 2) by lia.
  all: destruct Hcase as [-> | ->]; vm_compute; eauto.
Qed.

Lemma search_folds_into_top_witness :
  exists highest idxhigh top units' top',
    search_top [earner_unit; relative_unit] = Ok (highest, idxhigh) /\
    [earner_unit; relative_unit] !! idxhigh = Some top /\
    totincx top = highest /\
    (forall u, u ∈ [earner_unit; relative_unit] -> totincx u <= highest) /\
    (forall j u, [earner_unit; relative_unit] !! j = Some u ->
                 (idxhigh < j)%nat -> totincx u < highest) /\
    search (Z.of_nat (length [earner_unit; relative_unit]))
      [earner_unit; relative_unit] = Ok units' /\
    length units' = length [earner_unit; relative_unit] /\
    units' !! idxhigh = Some top' /\
    u_ifdept top' = u_ifdept top /\ t_flag top' = t_flag top /\
    forall ix u, [earner_unit; relative_unit] !! ix = Some u ->
      ix <> idxhigh ->
      (folded highest top u ->
       exists u' k,
         units' !! ix = Some u' /\ t_flag u' = false /\ u_ifdept u' = true /\
         depne top < k <= depne top' /\
         dep top' !! k = Some (Z.of_nat ix)) /\
      (~ folded highest top u -> units' !! ix = Some u).
Proof.
  apply (search_folds_into_top [earner_unit; relative_unit]).
  - apply (bool_decide_unpack (NoDup [earner_unit; relative_unit])).
    vm_compute. exact I.
  - exact earner_relative_wf.
  - exists earner_unit. split; [left | vm_compute; discriminate].
Defined.

Lemma fold_unit_hands_over_witness :
  exists y x,
    two_singles_units = Ok [y; x] /\
    exists units' x' y',
      search 2 [y; x] = Ok units' /\
      fold_unit 1 0 [y; x] = Ok units' /\
      units' !! 1%nat = Some x' /\ units' !! 0%nat = Some y' /\
      (forall j, j <> 1%nat -> j <> 0%nat -> units' !! j = [y; x] !! j) /\
      t_flag x' = false /\ (x' ∉ surviving units') /\ t_flag y' = true /\
      cnt x' = cnt x /\ tot x' = tot x /\
      tot y' = bens_add (tot y) (tot x) /\
      sum_cnt (surviving units') = sum_cnt (surviving [y; x]) /\
      sum_depne (surviving units') =
        sum_depne (surviving [y; x]) + (if js x =? 2 then 2 else 1).
Proof.
  eexists _, _. split; [run|].
  match goal with
  | |- exists units' x' y', _ /\ fold_unit 1 0 [?y; ?x] = _ /\ _ =>
    destruct (fold_unit_hands_over 1 0 [y; x] x y)
      as (units' & x' & y' & Hf & Hrest)
  end.
  1-5: reflexivity || lia || done.
  - intros k Hk. simpl in Hk. lia.
  - intros i Hi. simpl in Hi.
    assert (Hcase : i = 1 \/ i = 2) by lia.
    destruct Hcase as [-> | ->]; vm_compute; eauto.
  - exists units', x', y'. split; [|split; [exact Hf | exact Hrest]].
    rewrite <- Hf. run.
Defined.



Lemma search_step_converts_twice_witness :
  exists units1 units2 src' top',
    fold_unit 1 0 [earner_unit; relative_unit] = Ok units1 /\
    fold_unit 1 0 units1 = Ok units2 /\
    search_step 50000 0 1 [earner_unit; relative_unit] = Ok units2 /\
    units2 !! 1%nat = Some src' /\ units2 !! 0%nat = Some top' /\
    t_flag src' = false /\ depne src' = 0 /\
    depne top' = 0 + 0 + 2 /\
    cnt top' = counters_add (counters_add (cnt earner_unit)
                               (cnt relative_unit)) (cnt relative_unit) /\
    tot top' = bens_add (bens_add (tot earner_unit) (tot relative_unit))
                 (tot relative_unit) /\
    dep top' !! (0 + 1) = Some 1 /\
    dep top' !! (0 + 0 + 2) = Some 1.
Proof.
  apply (search_step_converts_twice 50000 0 1 [earner_unit; relative_unit]
           relative_unit earner_unit);
    try reflexivity; try (simpl; lia); apply relative_unit_wf.
Defined.

Lemma ifdept_low_income_witness :
  ifdept relative_without_income earner_unit = true.
Proof.
  apply (ifdept_low_income relative_without_income earner_unit).
  - vm_compute. discriminate.
  - right. vm_compute. reflexivity.
Defined.

Lemma ifdept_half_support_witness :
  ifdept relative_with_wages earner_unit = false.
Proof.
  apply (ifdept_half_support relative_with_wages earner_unit).
  - vm_compute. reflexivity.
  - vm_compute. discriminate.
Defined.

Lemma create_sets_flags_only_witness :
  exists n' house' u,
    create 0 0 couple_with_infant = Ok (n', house', u) /\
    length house' = length couple_with_infant /\
    forall k p', house' !! k = Some p' ->
      exists p, couple_with_infant !! k = Some p /\ raised p p'.
Proof.
  destruct (create 0 0 couple_with_infant) as [[[n' house'] u]|e] eqn:Hrun;
    [|vm_compute in Hrun; discriminate].
  exists n', house', u. split; [reflexivity|].
  exact (create_sets_flags_only 0 n' 0 couple_with_infant house' u Hrun).
Defined.

Lemma create_income_witness :
  exists n' house' u,
    create 0 0 couple_with_infant = Ok (n', house', u) /\
    was (inc u) = 50000.
Proof.
  destruct (create 0 0 couple_with_infant) as [[[n' house'] u]|e] eqn:Hrun;
    [|vm_compute in Hrun; discriminate].
  exists n', house', u. split; [reflexivity|].
  rewrite (create_income 0 n' 0 couple_with_infant house' u
             (row 1 2 1 1 30 1 1 1 30000 0 0 0) Hrun eq_refl).
  reflexivity.
Defined.

Lemma create_dependent_filer_witness :
  exists n' house' u,
    create 1 1 earner_and_working_child = Ok (n', house', u) /\
    u_ifdept u = true /\ t_flag u = true /\ filst u = 1.
Proof.
  destruct (create 1 1 earner_and_working_child) as [[[n' house'] u]|e]
    eqn:Hrun; [|vm_compute in Hrun; discriminate].
  exists n', house', u. split; [reflexivity|].
  exact (create_dependent_filer 1 n' 1 earner_and_working_child house' u
           _ Hrun eq_refl eq_refl).
Defined.

Lemma create_dependents_witness :
  exists n' house' u,
    create 0 0 couple_with_infant = Ok (n', house', u) /\
    0 <= depne u /\ ben_number u = depne u + 3 /\ deps_in house' u.
Proof.
  destruct (create 0 0 couple_with_infant) as [[[n' house'] u]|e] eqn:Hrun;
    [|vm_compute in Hrun; discriminate].
  exists n', house', u. split; [reflexivity|].
  exact (create_dependents 0 n' 0 couple_with_infant house' u Hrun).
Defined.

Lemma create_returns_iff_witness :
  (spouse_found couple_with_infant (row 1 2 1 1 30 1 1 1 30000 0 0 0) <->
   exists n' house' u, create 0 0 couple_with_infant = Ok (n', house', u)) /\
  (~ spouse_found couple_with_infant (row 1 2 1 1 30 1 1 1 30000 0 0 0) <->
   create 0 0 couple_with_infant = Raise UnboundLocalError).
Proof.
  exact (create_returns_iff 0 0 couple_with_infant _ eq_refl).
Defined.

Lemma convert_dependents_witness :
  exists x' y',
    convert_pair 1 relative_with_children earner_unit = Ok (x', y') /\
    dep y' !! 1 = Some 1 /\ dep y' !! 2 = Some 2 /\
    dep y' !! 3 = Some 0 /\ dep y' !! 4 = Some 0 /\
    depage y' !! 3 = Some (Some 6) /\ depage y' !! 4 = Some (Some 7).
Proof.
  destruct (convert_pair 1 relative_with_children earner_unit)
    as [[x' y']|e] eqn:Hrun; [|vm_compute in Hrun; discriminate].
  exists x', y'. split; [reflexivity|].
  destruct (convert_dependents 1 relative_with_children earner_unit x' y'
              Hrun ltac:(by vm_compute)) as (Hhead & _ & Hdeps).
  split; [exact Hhead|].
  destruct (Hdeps 1 ltac:(by vm_compute)) as [H1 _].
  destruct (Hdeps 2 ltac:(by vm_compute)) as [H2 A2].
  destruct (Hdeps 3 ltac:(by vm_compute)) as [H3 A3].
  auto.
Defined.

Lemma search_keeps_heads_witness :
  exists units',
    search 2 [earner_unit; relative_unit] = Ok units' /\
    head_part <$> units' = head_part <$> [earner_unit; relative_unit].
Proof.
  destruct (search 2 [earner_unit; relative_unit]) as [units'|e] eqn:Hrun;
    [|vm_compute in Hrun; discriminate].
  exists units'. split; [reflexivity|].
  exact (search_keeps_heads 2 [earner_unit; relative_unit] units' Hrun).
Defined.

Lemma search_leaves_dependents_witness :
  exists units',
    search 2 earner_and_dependent_filer = Ok units' /\
    units' !! 1%nat = Some (set_ifdept true relative_unit).
Proof.
  destruct (search 2 earner_and_dependent_filer) as [units'|e] eqn:Hrun;
    [|vm_compute in Hrun; discriminate].
  exists units'. split; [reflexivity|].
  exact (search_leaves_dependents 2 earner_and_dependent_filer units' 1
           (set_ifdept true relative_unit) Hrun eq_refl eq_refl).
Defined.

Lemma search_without_income_witness :
  search 2 units_without_income = Ok units_without_income.
Proof.
  apply (search_without_income 2 units_without_income).
  - discriminate.
  - by vm_compute.
  - intros u Hu. unfold units_without_income in Hu.
    apply elem_of_cons in Hu as [-> | Hu]; [by vm_compute|].
    apply list_elem_of_singleton in Hu as ->. by vm_compute.
Defined.

Lemma output_person_count_witness :
  exists r,
    output earner_three_children_unit earner_three_children = Ok r /\
    xxtot r = 4.
Proof.
  destruct (output earner_three_children_unit earner_three_children)
    as [r|e] eqn:Hrun; [|vm_compute in Hrun; discriminate].
  exists r. split; [reflexivity|].
  destruct (output_person_count earner_three_children_unit
              earner_three_children r Hrun ltac:(by vm_compute))
    as [Hcount _].
  exact (Hcount eq_refl).
Defined.

Lemma output_age_range_witness :
  exists r,
    output earner_three_children_unit earner_three_children = Ok r /\
    youngest r <= 9 <= oldest r.
Proof.
  destruct (output earner_three_children_unit earner_three_children)
    as [r|e] eqn:Hrun; [|vm_compute in Hrun; discriminate].
  exists r. split; [reflexivity|].
  destruct (output_age_range earner_three_children_unit
              earner_three_children r Hrun) as [_ Hrange].
  apply (Hrange 2 9); [by vm_compute | reflexivity].
Defined.

Lemma output_zdepin_last_witness :
  exists r,
    output earner_three_children_unit earner_three_children = Ok r /\
    zdepin r = 720.
Proof.
  destruct (output earner_three_children_unit earner_three_children)
    as [r|e] eqn:Hrun; [|vm_compute in Hrun; discriminate].
  exists r. split; [reflexivity|].
  exact (output_zdepin_last earner_three_children_unit earner_three_children
           r 3 (row 4 0 5 7 16 1 1 1 700 20 0 0) Hrun eq_refl eq_refl
           eq_refl eq_refl).
Defined.

Lemma units_in_order_witness :
  exists st,
    build_units earner_child_boarder = Ok st /\
    (u_a_lineno <$> house_units st) `sublist_of`
      (a_lineno <$> earner_child_boarder).
Proof.
  destruct (build_units earner_child_boarder) as [st|e] eqn:Hrun;
    [|vm_compute in Hrun; discriminate].
  exists st. split; [reflexivity|].
  exact (units_in_order earner_child_boarder st Hrun).
Defined.

Lemma computation_sets_flags_only_witness :
  exists st,
    build_units couple_with_infant = Ok st /\
    length (house_dicts st) = length couple_with_infant /\
    forall k p', house_dicts st !! k = Some p' ->
      exists p, couple_with_infant !! k = Some p /\ raised p p'.
Proof.
  destruct (build_units couple_with_infant) as [st|e] eqn:Hrun;
    [|vm_compute in Hrun; discriminate].
  exists st. split; [reflexivity|].
  exact (computation_sets_flags_only couple_with_infant st Hrun).
Defined.

Lemma nunits_counts_units_witness :
  exists st,
    build_units earner_child_boarder = Ok st /\
    nunits st = Z.of_nat (length (house_units st)).
Proof.
  destruct (build_units earner_child_boarder) as [st|e] eqn:Hrun;
    [|vm_compute in Hrun; discriminate].
  exists st. split; [reflexivity|].
  exact (nunits_counts_units earner_child_boarder st Hrun).
Defined.

Lemma everyone_placed_witness :
  exists st,
    build_units couple_with_infant = Ok st /\
    forall p, p ∈ house_dicts st -> placed st p.
Proof.
  destruct (build_units couple_with_infant) as [st|e] eqn:Hrun;
    [|vm_compute in Hrun; discriminate].
  exists st. split; [reflexivity|].
  exact (everyone_placed couple_with_infant st Hrun eq_refl).
Defined.

Lemma computation_units_ok_witness :
  exists units outs,
    computation Python2 earner_child_boarder = Ok (units, outs) /\
    Forall (unit_ok (length earner_child_boarder)) units.
Proof.
  destruct (computation Python2 earner_child_boarder) as [[units outs]|e]
    eqn:Hrun; [|vm_compute in Hrun; discriminate].
  exists units, outs. split; [reflexivity|].
  exact (computation_units_ok Python2 earner_child_boarder units outs Hrun).
Defined.

Lemma couple_with_infant_sound : spouses_found couple_with_infant.
Proof.
  intros p Hp. unfold couple_with_infant in Hp.
  apply elem_of_cons in Hp as [-> | Hp].
  { right. split; [by left|].
    exists (row 2 1 3 1 30 1 1 1 20000 0 0 0).
    split; [|by split]. apply elem_of_cons. right. by left. }
  apply elem_of_cons in Hp as [-> | Hp].
  { right. split; [by left|].
    exists (row 1 2 1 1 30 1 1 1 30000 0 0 0).
    split; [|by split]. by left. }
  apply list_elem_of_singleton in Hp as ->. by left.
Qed.

Lemma computation_total_witness :
  exists units outs, computation Python2 couple_with_infant = Ok (units, outs).
Proof.
  apply (computation_total Python2 couple_with_infant).
  - discriminate.
  - exact couple_with_infant_sound.
Defined.

Lemma computation_raises_witness :
  computation Python2 one_sided_spouse = Raise UnboundLocalError /\
  ~ spouses_found one_sided_spouse.
Proof.
  destruct (computation_raises Python2 one_sided_spouse ltac:(discriminate))
    as [(units & outs & Hrun) | Hraise]; [|exact Hraise].
  vm_compute in Hrun. discriminate.
Defined.

Lemma computation_records_witness :
  exists units outs,
    computation Python2 earner_and_subfamily = Ok (units, outs) /\
    o_unit <$> outs = surviving units.
Proof.
  destruct (computation Python2 earner_and_subfamily) as [[units outs]|e]
    eqn:Hrun; [|vm_compute in Hrun; discriminate].
  exists units, outs. split; [reflexivity|].
  exact (proj1 (computation_records Python2 earner_and_subfamily units outs
                  Hrun)).
Defined.

Lemma filers_head_units_witness :
  exists st,
    build_units earner_and_earning_child = Ok st /\
    2 ∈ (u_a_lineno <$> house_units st).
Proof.
  destruct (build_units earner_and_earning_child) as [st|e] eqn:Hrun;
    [|vm_compute in Hrun; discriminate].
  exists st. split; [reflexivity|].
  assert (Hp : exists p, p ∈ house_dicts st /\ a_lineno p = 2 /\
                         must_file p = true /\ s_flag p = false /\
                         h_flag p = false).
  { vm_compute in Hrun. injection Hrun as <-.
    eexists. split; [apply elem_of_cons; right; by left|]. by vm_compute. }
  destruct Hp as (p & Hin & <- & Hmf & Hs & Hh).
  exact (filers_head_units earner_and_earning_child st Hrun eq_refl p Hin
           Hmf Hs Hh).
Defined.

Lemma filst_many_dependents_witness : filst single_three_dependents = 1.
Proof.
  apply (filst_many_dependents single_three_dependents).
  - left. by vm_compute.
  - by vm_compute.
Defined.

End Returns.
